(** * Focus Timer: a shallow embedding of the session lifecycle core

    The development follows the modular implementation of the extension:
    [core/scoringEngine], [core/eventBus], [core/storageAdapter],
    [core/sessionManager], [core/timerEngine],
    [features/distractionTracking], the local-date helpers of
    [features/insightsEngine] and the wiring of [background.js].

    Conventions of the embedding.
    - JavaScript numbers that the code only ever uses as integers
      (timestamps in ms, seconds, counters) are [Z]; [Math.floor (a / b)] on
      such values is [a / b] on [Z] (floor division).
    - [null] / [undefined] / a missing key is [None].
    - Every module is embedded twice.  First each [async] function body is
      one atomic step over the explicit [World]: what the function does
      when nothing else runs between its awaits.  Then ([Wired]) the same
      bodies are written with their await points and with the session-end
      subscriber that [bootstrap] registers, and run by a machine on which
      listeners interleave at the awaits.  The two are related in the last
      part of the file; statements about what the extension reaches when
      events overlap are made on the machine.
    - Every [Date.now ()] read between two awaits yields the same instant,
      carried by the [Host] record together with the zone rules and the
      output of [Math.random].
    - The browser answers awaited calls in the order in which they were
      made, and the code between two awaits runs without interruption.
    - The presentation layer (tab messaging, overlay, content scripts) is
      not part of the model. *)

From Stdlib Require Import ZArith QArith String Ascii List Lia.
From stdpp Require Import base option list strings pretty gmap.

Local Open Scope string_scope.
Local Open Scope list_scope.
Local Open Scope Z_scope.

(** ** Host Date semantics (ECMAScript time values and local time) *)

Module JsDate.

Definition msPerDay : Z := 86400000.
Definition msPerMinute : Z := 60000.

Definition Day (t : Z) : Z := t / msPerDay.
Definition TimeWithinDay (t : Z) : Z := t mod msPerDay.

(** 1970-01-01 was a Thursday; 0 = Sunday ... 6 = Saturday. *)
Definition WeekDay (t : Z) : Z := (Day t + 4) mod 7.

(** Proleptic Gregorian calendar: day number -> (year, month 1..12, day). *)
Definition civil_from_days (z0 : Z) : Z * Z * Z :=
  let z := z0 + 719468 in
  let era := z / 146097 in
  let doe := z - era * 146097 in
  let yoe := (doe - doe / 1460 + doe / 36524 - doe / 146096) / 365 in
  let y := yoe + era * 400 in
  let doy := doe - (365 * yoe + yoe / 4 - yoe / 100) in
  let mp := (5 * doy + 2) / 153 in
  let d := doy - (153 * mp + 2) / 5 + 1 in
  let m := if mp <? 10 then mp + 3 else mp - 9 in
  (if m <=? 2 then y + 1 else y, m, d).

(** Day number of (year, month 1..12, day); [d] may lie outside the month. *)
Definition days_from_civil (y0 m d : Z) : Z :=
  let y := if m <=? 2 then y0 - 1 else y0 in
  let era := y / 400 in
  let yoe := y - era * 400 in
  let mp := if 2 <? m then m - 3 else m + 9 in
  let doy := (153 * mp + 2) / 5 + d - 1 in
  let doe := yoe * 365 + yoe / 4 - yoe / 100 + doy in
  era * 146097 + doe - 719468.

Definition YearFromTime (t : Z) : Z := (civil_from_days (Day t)).1.1.
(** 0-based, as [getMonth]. *)
Definition MonthFromTime (t : Z) : Z := (civil_from_days (Day t)).1.2 - 1.
Definition DateFromTime (t : Z) : Z := (civil_from_days (Day t)).2.

(** [String(n).padStart(w, '0')] for a non-negative integer. *)
Fixpoint zeros (k : nat) : string :=
  match k with O => "" | S k' => String "0"%char (zeros k') end.

Definition padStart0 (w : nat) (s : string) : string :=
  zeros (w - String.length s) +:+ s.

Definition digits (w : nat) (n : Z) : string := padStart0 w (pretty (Z.abs n)).

(** [Date.prototype.toISOString]: always UTC.  Years outside 0..9999 use
    the expanded form with a sign and six digits. *)
Definition toISOString (t : Z) : string :=
  let y := YearFromTime t in
  let ms := TimeWithinDay t in
  let year :=
    if (0 <=? y) && (y <=? 9999) then digits 4 y
    else (if y <? 0 then "-" else "+") +:+ digits 6 y in
  year +:+ "-" +:+ digits 2 (MonthFromTime t + 1) +:+ "-" +:+
  digits 2 (DateFromTime t) +:+ "T" +:+
  digits 2 (ms / 3600000) +:+ ":" +:+ digits 2 ((ms / 60000) mod 60) +:+ ":" +:+
  digits 2 ((ms / 1000) mod 60) +:+ "." +:+ digits 3 (ms mod 1000) +:+ "Z".

(** [s.slice(0, n)]. *)
Definition slice0 (n : nat) (s : string) : string := String.substring 0 n s.

(** A zone whose offset never changes. *)
Definition fixed (minutes : Z) : Z -> bool -> Z := fun _ _ => minutes.

(** America/New_York in 2024: daylight saving time from 2024-03-10T07:00Z
    to 2024-11-03T06:00Z.  A local time skipped or repeated at a change is
    read with the offset in force before the change. *)
Definition newYork2024 : Z -> bool -> Z := fun t isUTC =>
  if isUTC
  then if (1710054000000 <=? t) && (t <? 1730613600000) then -240 else -300
  else if (1710039600000 <=? t) && (t <? 1730599200000) then -240 else -300.

Section Local.
(** The zone of the host, as LocalTZA of ECMAScript, in minutes east of UTC:
    [utcOffsetMinutes t true] is the offset in force at the instant [t],
    [utcOffsetMinutes t false] the offset with which the local time value
    [t] is read.  The offset may change over time (daylight saving). *)
Variable utcOffsetMinutes : Z -> bool -> Z.

Definition LocalTime (t : Z) : Z := t + utcOffsetMinutes t true * msPerMinute.
Definition UTC (lt : Z) : Z := lt - utcOffsetMinutes lt false * msPerMinute.

Definition getDay (t : Z) : Z := WeekDay (LocalTime t).
Definition getDate (t : Z) : Z := DateFromTime (LocalTime t).
Definition getMonth (t : Z) : Z := MonthFromTime (LocalTime t).
Definition getFullYear (t : Z) : Z := YearFromTime (LocalTime t).

(** [d.setDate(dt)]: MakeDay of the local year and month with day [dt]
    (which may be 0 or negative), same local time of day; the result is
    read back as a local time, with the offset in force on that day. *)
Definition setDate (t : Z) (dt : Z) : Z :=
  let lt := LocalTime t in
  let day := days_from_civil (YearFromTime lt) (MonthFromTime lt + 1) 1 + dt - 1 in
  UTC (day * msPerDay + TimeWithinDay lt).
(** [d.getHours ()] *)
Definition getHours (t : Z) : Z := TimeWithinDay (LocalTime t) / 3600000.
End Local.

End JsDate.

(** ** Data model *)

Inductive Status := idle | running | paused.

#[global] Instance Status_eq_dec : EqDecision Status.
Proof. solve_decision. Defined.

(** [SessionObject] of [core/sessionManager]; the last four fields exist
    only on a finalised session. *)
Record SessionObject := mkSession {
  id : string;
  startTime : Z;
  s_duration : Z;
  tabSwitchCount : Z;
  distractionVisits : Z;
  distractionSeconds : Z;
  lastDistractionDomain : option string;
  interrupted : bool;
  endTime : option Z;
  s_score : option Z;
  s_qualityLabel : option string;
  completed : option bool;
}.

(** ** core/scoringEngine *)

Module ScoringEngine.

Record Tier := mkTier { label : string; min : Z; color : string }.

Definition QUALITY_TIERS : list Tier :=
  [ mkTier "Deep Work" 90 "#818cf8";
    mkTier "Focused" 70 "#4ade80";
    mkTier "Fragmented" 40 "#fbbf24";
    mkTier "Distracted" 0 "#f87171" ].

(** [SessionMetrics]: every field is optional for the caller. *)
Record SessionMetrics := mkMetrics {
  m_tabSwitchCount : option Z;
  m_distractionVisits : option Z;
  m_distractionSeconds : option Z;
  m_interrupted : option bool;
}.

(** A full session passed where metrics are expected. *)
Definition metricsOf (s : SessionObject) : SessionMetrics :=
  mkMetrics (Some (tabSwitchCount s)) (Some (distractionVisits s))
            (Some (distractionSeconds s)) (Some (interrupted s)).

(** [x || 0] on an optional integer. *)
Definition orZero (x : option Z) : Z :=
  match x with Some v => if v =? 0 then 0 else v | None => 0 end.

(** [!x] on an optional boolean ([undefined] is falsy). *)
Definition falsy (x : option bool) : bool :=
  match x with Some b => negb b | None => true end.

(** [Math.round (n / d)] for integers [n] and [d > 0]: nearest integer,
    halves towards +infinity. *)
Definition Math_round_div (n d : Z) : Z := (2 * n + d) / (2 * d).

Definition calcFocusScore (session : SessionMetrics) : Z :=
  let score := 100 in
  let score := score - orZero (m_tabSwitchCount session) * 5 in
  let score := score - orZero (m_distractionVisits session) * 10 in
  let score := score - Math_round_div (orZero (m_distractionSeconds session)) 60 in
  let score := if falsy (m_interrupted session) then score + 10 else score in
  Z.max 0 (Z.min 100 (Math_round_div score 1)).

(** [QUALITY_TIERS.find (t => score >= t.min)
     || QUALITY_TIERS[QUALITY_TIERS.length - 1]] *)
Definition getTier (score : Z) : Tier :=
  match List.find (fun t => min t <=? score) QUALITY_TIERS with
  | Some t => t
  | None => List.last QUALITY_TIERS (mkTier "" 0 "")
  end.

Definition qualityLabel (score : Z) : string := label (getTier score).
Definition qualityColor (score : Z) : string := color (getTier score).
Definition calcLiveScore (session : SessionMetrics) : Z := calcFocusScore session.

Record ScoreResult := mkResult {
  r_score : Z; r_qualityLabel : string; r_qualityColor : string; r_tier : Tier }.

Definition score (session : SessionMetrics) : ScoreResult :=
  let s := calcFocusScore session in
  let tier := getTier s in
  mkResult s (label tier) (color tier) tier.

End ScoringEngine.

(** ** core/eventBus *)

Module EventBus.

Module HOOKS.
Definition SESSION_START := "onSessionStart".
Definition SESSION_END := "onSessionEnd".
Definition DISTRACTION := "onDistraction".
Definition SCORE_CALCULATED := "onScoreCalculated".
Definition REFLECTION_SAVED := "onReflectionSaved".
Definition FOCUS_MODE_ENABLED := "onFocusModeEnabled".
Definition FOCUS_MODE_DISABLED := "onFocusModeDisabled".
Definition TICK := "onTick".
(** [Object.values(HOOKS)] *)
Definition values : list string :=
  [ SESSION_START; SESSION_END; DISTRACTION; SCORE_CALCULATED;
    REFLECTION_SAVED; FOCUS_MODE_ENABLED; FOCUS_MODE_DISABLED; TICK ].
End HOOKS.

(** The payload objects built by the emitters of the modelled modules. *)
Inductive Payload :=
| PEmpty
| PSessionStart (session : SessionObject) (duration : Z)
| PSessionEnd (session : SessionObject) (score : Z) (qualityLabel : string)
| PScoreCalculated (score : Z) (qualityLabel : string) (session : SessionObject)
| PDistraction (domain : string) (tabId : Z)
| PTick (remaining : Z).

Inductive LogLine :=
| LogInfo (msg : string)
| LogWarn (msg : string)
| LogError (msg : string) (err : string).

(** The double-quote character of the log templates. *)
Definition dq : string := String "034"%char EmptyString.

Section Bus.
(** Whatever state subscribers own and can change synchronously.  It
    does not hold extension storage, which is only reachable through
    asynchronous calls. *)
Context {Env : Type}.

(** A subscriber callback: the state it leaves behind, [Some err] when
    it throws [err], and the unsubscribe functions it called (each the
    result of an [on], given by hook and token), in call order.  A
    callback that subscribes or emits during a dispatch is outside the
    model.  The one subscriber of the extension that reaches the tracker
    and storage, the session-end subscriber of [distraction.init ()], is
    not a [Handler]: it is part of [Wired.emit]. *)
Definition Handler : Type := Payload -> Env -> Env * option string * list (string * nat).

(** The closure [safeHandler] returned by [_wrap (source, hookName, fn)];
    [sh_id] is its identity as a function object. *)
Record SafeHandler := mkSafe {
  sh_id : nat;
  sh_source : string;
  sh_hookName : string;
  sh_fn : Handler;
}.

Record PluginMeta := mkMeta { pm_name : string; pm_version : string }.

Record Bus := mkBus {
  _registry : gmap string (list SafeHandler);
  (** insertion-ordered, as a JS [Map] *)
  _plugins : list (string * PluginMeta);
  env : Env;
  console : list LogLine;
  (** allocation counter for function identities *)
  next_id : nat;
  (** observation only: the calls of [emit], oldest first *)
  emitted : list (string * Payload);
}.

Definition initial_registry : gmap string (list SafeHandler) :=
  list_to_map ((fun h => (h, [])) <$> HOOKS.values).

Definition initial_bus (e : Env) : Bus := mkBus initial_registry [] e [] 0 [].

Definition log (l : LogLine) (b : Bus) : Bus :=
  mkBus (_registry b) (_plugins b) (env b) (console b ++ [l]) (next_id b) (emitted b).

Definition handler_error_msg (source hookName : string) : string :=
  "[EventBus] Handler error in " +:+ dq +:+ source +:+ dq +:+
  " on hook " +:+ dq +:+ hookName +:+ dq +:+ ":".

(** [_wrap]: allocates the closure. *)
Definition _wrap (source hookName : string) (fn : Handler) (b : Bus)
  : SafeHandler * Bus :=
  (mkSafe (next_id b) source hookName fn,
   mkBus (_registry b) (_plugins b) (env b) (console b) (S (next_id b)) (emitted b)).

(** [_registry.get (hookName).push (h)] for a known hook. *)
Definition push_handler (hookName : string) (h : SafeHandler) (b : Bus) : Bus :=
  mkBus (alter (fun hs => hs ++ [h]) hookName (_registry b))
        (_plugins b) (env b) (console b) (next_id b) (emitted b).

(** [on]: the result is the token of the unsubscribe function, [None]
    for the no-op returned on an unknown hook. *)
Definition on (hookName : string) (handler : Handler) (b : Bus)
  : option nat * Bus :=
  match _registry b !! hookName with
  | None =>
      (None, log (LogWarn ("[EventBus] on: unknown hook " +:+ dq +:+ hookName +:+ dq)) b)
  | Some _ =>
      let '(wrapped, b1) := _wrap "internal" hookName handler b in
      (Some (sh_id wrapped), push_handler hookName wrapped b1)
  end.

(** [handlers.indexOf (handler)] followed by [splice (idx, 1)]. *)
Fixpoint remove_first (hid : nat) (hs : list SafeHandler) : list SafeHandler :=
  match hs with
  | [] => []
  | h :: rest => if Nat.eqb (sh_id h) hid then rest else h :: remove_first hid rest
  end.

Definition off (hookName : string) (hid : nat) (b : Bus) : Bus :=
  match _registry b !! hookName with
  | None => b
  | Some _ =>
      mkBus (alter (remove_first hid) hookName (_registry b))
            (_plugins b) (env b) (console b) (next_id b) (emitted b)
  end.

(** Calling [safeHandler (payload)]: [try { fn (payload) } catch (err)
    { console.error (...) }]; the unsubscribe functions the callback
    called have run [off] on the registry. *)
Definition safeHandler (h : SafeHandler) (payload : Payload) (b : Bus) : Bus :=
  let '(e', thrown, unsubscribed) := sh_fn h payload (env b) in
  let b1 := foldl (fun acc '(hookName, hid) => off hookName hid acc)
                  (mkBus (_registry b) (_plugins b) e' (console b) (next_id b) (emitted b))
                  unsubscribed in
  match thrown with
  | None => b1
  | Some err => log (LogError (handler_error_msg (sh_source h) (sh_hookName h)) err) b1
  end.

(** [for (const handler of handlers) handler (payload)]: the array
    iterator holds an index into the hook's array and reads the array as
    it is at each step, so a [splice] by [off] during the loop shifts
    the handlers behind it.  The array cannot grow during the loop in
    this model; [fuel] is its length at the start. *)
Fixpoint emit_from (fuel : nat) (i : nat) (hookName : string) (payload : Payload)
         (b : Bus) : Bus :=
  match fuel with
  | O => b
  | S fuel' =>
      match default [] (_registry b !! hookName) !! i with
      | Some handler =>
          emit_from fuel' (S i) hookName payload (safeHandler handler payload b)
      | None => b
      end
  end.

(** The result is [handlers.length], read after the loop. *)
Definition emit (hookName : string) (payload : Payload) (b : Bus) : Z * Bus :=
  let b := mkBus (_registry b) (_plugins b) (env b) (console b) (next_id b)
                 (emitted b ++ [(hookName, payload)]) in
  match _registry b !! hookName with
  | None => (0, b)
  | Some handlers =>
      if Nat.eqb (length handlers) 0 then (0, b)
      else
        let b' := emit_from (length handlers) 0 hookName payload b in
        (Z.of_nat (length (default [] (_registry b' !! hookName))), b')
  end.

Definition handlerCount (hookName : string) (b : Bus) : Z :=
  match _registry b !! hookName with
  | Some hs => Z.of_nat (length hs)
  | None => 0
  end.

Definition listPlugins (b : Bus) : list PluginMeta := snd <$> _plugins b.

(** [PluginDefinition]; [pd_hooks] lists the entries of the [hooks]
    object in insertion order, [None] standing for a value that is not
    a function. *)
Record PluginDefinition := mkPlugin {
  pd_name : option string;
  pd_version : option string;
  pd_hooks : option (list (string * option Handler));
}.

(** Truthiness of an optional string. *)
Definition truthy (s : option string) : bool :=
  match s with Some (String _ _) => true | _ => false end.

(** The loop over [Object.entries (hooks)]; the count is [registered]. *)
Fixpoint register_hooks (name : string) (hooks : list (string * option Handler))
         (registered : Z) (b : Bus) : Z * Bus :=
  match hooks with
  | [] => (registered, b)
  | (hookName, handler) :: rest =>
      match _registry b !! hookName, handler with
      | None, _ =>
          register_hooks name rest registered
            (log (LogWarn ("[EventBus] Plugin " +:+ dq +:+ name +:+ dq +:+
                           " tried to register unknown hook: " +:+ dq +:+ hookName +:+ dq)) b)
      | Some _, None =>
          register_hooks name rest registered
            (log (LogWarn ("[EventBus] Plugin " +:+ dq +:+ name +:+ dq +:+ " hook " +:+
                           dq +:+ hookName +:+ dq +:+ " must be a function.")) b)
      | Some _, Some fn =>
          let '(wrapped, b1) := _wrap name hookName fn b in
          register_hooks name rest (registered + 1) (push_handler hookName wrapped b1)
      end
  end.

Definition registerPlugin (plugin : PluginDefinition) (b : Bus) : bool * Bus :=
  if negb (truthy (pd_name plugin)) || negb (truthy (pd_version plugin)) then
    (false, log (LogWarn "[EventBus] registerPlugin: plugin must have name and version.") b)
  else
    let name := default "" (pd_name plugin) in
    let version := default "" (pd_version plugin) in
    if existsb (fun '(n, _) => String.eqb n name) (_plugins b) then
      (false, log (LogWarn ("[EventBus] Plugin " +:+ dq +:+ name +:+ dq +:+
                            " is already registered.")) b)
    else
      let hooks := default [] (pd_hooks plugin) in
      let '(registered, b1) := register_hooks name hooks 0 b in
      let b2 := mkBus (_registry b1) (_plugins b1 ++ [(name, mkMeta name version)])
                      (env b1) (console b1) (next_id b1) (emitted b1) in
      (true, log (LogInfo ("[EventBus] Plugin " +:+ dq +:+ name +:+ dq +:+ " v" +:+
                           version +:+ " registered (" +:+ pretty registered +:+
                           " hooks).")) b2).
End Bus.

Arguments Handler : clear implicits.
Arguments SafeHandler : clear implicits.
Arguments Bus : clear implicits.
Arguments PluginDefinition : clear implicits.

End EventBus.

(** ** The world the core runs in *)

(** What one atomic step reads from the host. *)
Record Host := mkHost {
  (** [Date.now ()] *)
  now : Z;
  (** zone of the local-time [Date] methods: minutes east of UTC at an
      instant ([true]) or for a local time value ([false]) *)
  utcOffsetMinutes : Z -> bool -> Z;
  (** [Math.random ().toString (36).slice (2, 6)] *)
  random36 : string;
  (** [new URL (url).hostname], [None] when the constructor throws *)
  URL_hostname : string -> option string;
}.

(** [PendingReflection]: the summary kept for the reflection prompt. *)
Record PendingReflection := mkReflection {
  sessionId : string;
  pr_score : option Z;
  pr_qualityLabel : option string;
  pr_duration : Z;
}.

(** [FocusState] of [core/storageAdapter]. *)
Record FocusState := mkState {
  status : Status;
  duration : Z;
  remaining : Z;
  startedAt : option Z;
  pausedAt : option Z;
  elapsedBeforePause : Z;
  currentSession : option SessionObject;
  pendingReflection : option PendingReflection;
}.

(** [Partial<FocusState>]: [None] for a key the patch does not carry. *)
Record StatePatch := mkPatch {
  p_status : option Status;
  p_duration : option Z;
  p_remaining : option Z;
  p_startedAt : option (option Z);
  p_pausedAt : option (option Z);
  p_elapsedBeforePause : option Z;
  p_currentSession : option (option SessionObject);
  p_pendingReflection : option (option PendingReflection);
}.

Record DailyStats := mkStats {
  date : string;
  totalFocusMinutes : Z;
  sessionsCompleted : Z;
  totalTabSwitches : Z;
  totalDistractionVisits : Z;
  totalDistractionSeconds : Z;
  streak : Z;
}.

Record DayAggregate := mkDay {
  focusMinutes : Z;
  sessions : Z;
  distractionMinutes : Z;
  totalScore : Z;
  scoreCount : Z;
  qualityCounts : gmap string Z;
}.

Record WeeklyData := mkWeekly {
  weekStart : string;
  days : gmap string DayAggregate;
}.

(** The keys of [chrome.storage.local] the modelled code touches, named by
    their [KEYS] constants. *)
Record Storage := mkStorage {
  STATE : option FocusState;
  STATS : option DailyStats;
  SESSIONS : option (list SessionObject);
  WEEKLY : option WeeklyData;
}.

(** [chrome.alarms.create] options. *)
Record AlarmInfo := mkAlarm {
  delayInMinutes : option Q;
  periodInMinutes : option Q;
}.

(** [chrome.action] badge. *)
Record Badge := mkBadge { badgeText : string; badgeBackgroundColor : string }.

(** Module state of [features/distractionTracking]. *)
Record Tracker := mkTracker {
  _distractionStart : option Z;
  _distractionTabId : option Z;
}.

Record World (Env : Type) := mkWorld {
  storage : Storage;
  alarms : gmap string AlarmInfo;
  badge : Badge;
  bus : EventBus.Bus Env;
  tracker : Tracker;
}.

Arguments mkWorld {Env}.
Arguments storage {Env}.
Arguments alarms {Env}.
Arguments badge {Env}.
Arguments bus {Env}.
Arguments tracker {Env}.

(** State-passing computations over the world. *)
Definition M (Env A : Type) : Type := World Env -> A * World Env.

#[global] Instance M_ret {Env} : MRet (M Env) := fun A (a : A) w => (a, w).
#[global] Instance M_bind {Env} : MBind (M Env) :=
  fun A B (f : A -> M Env B) (c : M Env A) w => let '(a, w') := c w in f a w'.

Definition modify_storage {Env} (f : Storage -> Storage) : M Env unit :=
  fun w => (tt, mkWorld (f (storage w)) (alarms w) (badge w) (bus w) (tracker w)).
Definition modify_alarms {Env} (f : gmap string AlarmInfo -> gmap string AlarmInfo)
  : M Env unit :=
  fun w => (tt, mkWorld (storage w) (f (alarms w)) (badge w) (bus w) (tracker w)).
Definition modify_badge {Env} (f : Badge -> Badge) : M Env unit :=
  fun w => (tt, mkWorld (storage w) (alarms w) (f (badge w)) (bus w) (tracker w)).
Definition modify_tracker {Env} (f : Tracker -> Tracker) : M Env unit :=
  fun w => (tt, mkWorld (storage w) (alarms w) (badge w) (bus w) (f (tracker w))).
Definition read {Env A} (f : World Env -> A) : M Env A := fun w => (f w, w).

(** [emit] of the event bus, run on the world's bus. *)
Definition emit {Env} (hookName : string) (payload : EventBus.Payload) : M Env Z :=
  fun w => let '(n, b) := EventBus.emit hookName payload (bus w) in
           (n, mkWorld (storage w) (alarms w) (badge w) b (tracker w)).

(** ** core/storageAdapter *)

Module StorageAdapter.

Definition defaultState : FocusState :=
  {| status := idle;
     duration := 25 * 60;
     remaining := 25 * 60;
     startedAt := None;
     pausedAt := None;
     elapsedBeforePause := 0;
     currentSession := None;
     pendingReflection := None |}.

(** [{ ...defaultState () }] as a patch carrying every key. *)
Definition defaultState_patch : StatePatch :=
  {| p_status := Some idle;
     p_duration := Some (25 * 60);
     p_remaining := Some (25 * 60);
     p_startedAt := Some None;
     p_pausedAt := Some None;
     p_elapsedBeforePause := Some 0;
     p_currentSession := Some None;
     p_pendingReflection := Some None |}.

(** [{ ...p, ...q }] on two object literals. *)
Definition patch_spread (p q : StatePatch) : StatePatch :=
  let over {A} (a b : option A) := match b with Some _ => b | None => a end in
  {| p_status := over (p_status p) (p_status q);
     p_duration := over (p_duration p) (p_duration q);
     p_remaining := over (p_remaining p) (p_remaining q);
     p_startedAt := over (p_startedAt p) (p_startedAt q);
     p_pausedAt := over (p_pausedAt p) (p_pausedAt q);
     p_elapsedBeforePause := over (p_elapsedBeforePause p) (p_elapsedBeforePause q);
     p_currentSession := over (p_currentSession p) (p_currentSession q);
     p_pendingReflection := over (p_pendingReflection p) (p_pendingReflection q) |}.

(** [{ ...current, ...patch }] *)
Definition spread (current : FocusState) (patch : StatePatch) : FocusState :=
  {| status := default (status current) (p_status patch);
     duration := default (duration current) (p_duration patch);
     remaining := default (remaining current) (p_remaining patch);
     startedAt := default (startedAt current) (p_startedAt patch);
     pausedAt := default (pausedAt current) (p_pausedAt patch);
     elapsedBeforePause := default (elapsedBeforePause current) (p_elapsedBeforePause patch);
     currentSession := default (currentSession current) (p_currentSession patch);
     pendingReflection := default (pendingReflection current) (p_pendingReflection patch) |}.

Section WithEnv.
Context {Env : Type}.

(** [r[KEYS.STATE] || defaultState ()]: the timer state a reader of
    storage sees. *)
Definition stateOf (w : World Env) : FocusState :=
  default defaultState (STATE (storage w)).

Definition getState : M Env FocusState := read stateOf.

Definition setState (next : FocusState) : M Env unit :=
  modify_storage (fun s => mkStorage (Some next) (STATS s) (SESSIONS s) (WEEKLY s)).

Definition patchState (patch : StatePatch) : M Env FocusState :=
  current ← getState;
  let next := spread current patch in
  _ ← setState next;
  mret next.

(** [r[KEYS.SESSIONS] || []]: the session history a reader sees. *)
Definition historyOf (w : World Env) : list SessionObject :=
  default [] (SESSIONS (storage w)).

Definition getSessions : M Env (list SessionObject) := read historyOf.

(** [sessions.push (session)]; beyond 200 entries the oldest are
    spliced off the front. *)
Definition appendSession (session : SessionObject) : M Env (list SessionObject) :=
  sessions ← getSessions;
  let sessions := sessions ++ [session] in
  let sessions :=
    if (200 <? length sessions)%nat
    then drop (length sessions - 200) sessions else sessions in
  _ ← modify_storage (fun s => mkStorage (STATE s) (STATS s) (Some sessions) (WEEKLY s));
  mret sessions.

(** ISO date string of the current Monday (week anchor). *)
Definition _weekKey (h : Host) : string :=
  let d := now h in
  let mon := d in
  let mon := JsDate.setDate (utcOffsetMinutes h) mon
               (JsDate.getDate (utcOffsetMinutes h) d
                - ((JsDate.getDay (utcOffsetMinutes h) d + 6) mod 7)) in
  JsDate.slice0 10 (JsDate.toISOString mon).

Definition getWeeklyData (h : Host) : M Env WeeklyData :=
  let wk := _weekKey h in
  data ← read (fun w => WEEKLY (storage w));
  match data with
  | Some d =>
      if String.eqb (weekStart d) wk then mret d
      else
        let fresh := mkWeekly wk ∅ in
        _ ← modify_storage (fun s => mkStorage (STATE s) (STATS s) (SESSIONS s) (Some fresh));
        mret fresh
  | None =>
      let fresh := mkWeekly wk ∅ in
      _ ← modify_storage (fun s => mkStorage (STATE s) (STATS s) (SESSIONS s) (Some fresh));
      mret fresh
  end.
End WithEnv.

(** Default set of distracting domains. *)
Definition DEFAULT_SITES : list string :=
  [ "youtube.com"; "twitter.com"; "x.com"; "facebook.com"; "instagram.com";
    "reddit.com"; "tiktok.com"; "netflix.com"; "twitch.tv"; "hulu.com";
    "pinterest.com"; "snapchat.com"; "linkedin.com" ].

(** [r[KEYS.SITES] || [...DEFAULT_SITES]], on the stored value of the
    sites key. *)
Definition getDistractingSites (stored : option (list string)) : list string :=
  default DEFAULT_SITES stored.

End StorageAdapter.

(** ** core/sessionManager *)

Module SessionManager.

Definition digit36 (d : Z) : ascii :=
  ascii_of_nat (Z.to_nat (if d <? 10 then 48 + d else 87 + d)).

Fixpoint toString36_go (fuel : nat) (n : Z) (acc : string) : string :=
  match fuel with
  | O => acc
  | S fuel' =>
      if n <? 36 then String (digit36 n) acc
      else toString36_go fuel' (n / 36) (String (digit36 (n mod 36)) acc)
  end.

(** [n.toString (36)] for an integer. *)
Definition toString36 (n : Z) : string :=
  let go m := toString36_go (S (Z.to_nat (Z.log2 m))) m "" in
  if n <? 0 then "-" +:+ go (- n) else go n.

Definition generateId (h : Host) : string :=
  toString36 (now h) +:+ random36 h.

Definition createSession (h : Host) (duration : Z) : SessionObject :=
  {| id := generateId h;
     startTime := now h;
     s_duration := duration;
     tabSwitchCount := 0;
     distractionVisits := 0;
     distractionSeconds := 0;
     lastDistractionDomain := None;
     interrupted := false;
     endTime := None; s_score := None; s_qualityLabel := None; completed := None |}.

Definition recordTabSwitch (session : SessionObject) : SessionObject :=
  mkSession (id session) (startTime session) (s_duration session)
    (tabSwitchCount session + 1)
    (distractionVisits session) (distractionSeconds session)
    (lastDistractionDomain session) (interrupted session)
    (endTime session) (s_score session) (s_qualityLabel session) (completed session).

Definition recordDistractionVisit (session : SessionObject) (domain : string)
  : SessionObject :=
  mkSession (id session) (startTime session) (s_duration session)
    (tabSwitchCount session)
    (distractionVisits session + 1) (distractionSeconds session)
    (Some domain) (interrupted session)
    (endTime session) (s_score session) (s_qualityLabel session) (completed session).

Definition addDistractionTime (session : SessionObject) (seconds : Z) : SessionObject :=
  mkSession (id session) (startTime session) (s_duration session)
    (tabSwitchCount session)
    (distractionVisits session) (distractionSeconds session + seconds)
    (lastDistractionDomain session) (interrupted session)
    (endTime session) (s_score session) (s_qualityLabel session) (completed session).

Definition markInterrupted (session : SessionObject) : SessionObject :=
  mkSession (id session) (startTime session) (s_duration session)
    (tabSwitchCount session)
    (distractionVisits session) (distractionSeconds session)
    (lastDistractionDomain session) true
    (endTime session) (s_score session) (s_qualityLabel session) (completed session).

(** Today as YYYY-MM-DD *)
Definition _todayKey (h : Host) : string :=
  JsDate.slice0 10 (JsDate.toISOString (now h)).

Definition _calcStreak (h : Host) (prev : option DailyStats) : Z :=
  match prev with
  | None => 0
  | Some prev =>
      let yesterday := now h in
      let yesterday := JsDate.setDate (utcOffsetMinutes h) yesterday
                         (JsDate.getDate (utcOffsetMinutes h) yesterday - 1) in
      let yKey := JsDate.slice0 10 (JsDate.toISOString yesterday) in
      if String.eqb (date prev) yKey && (30 <=? totalFocusMinutes prev)
      then streak prev + 1
      else 0
  end.

(** The object literal [completed] of [completeSession]: the session
    with [endTime], the actual duration, its score and label, and
    [completed: true]. *)
Definition completedRecord (h : Host) (session : SessionObject) (actualDuration : Z)
  : SessionObject :=
  let result := ScoringEngine.score (ScoringEngine.metricsOf session) in
  let endTime := now h in
  mkSession (id session) (startTime session) actualDuration
    (tabSwitchCount session) (distractionVisits session)
    (distractionSeconds session) (lastDistractionDomain session)
    (interrupted session)
    (Some endTime) (Some (ScoringEngine.r_score result))
    (Some (ScoringEngine.r_qualityLabel result)) (Some true).

Definition emptyQualityCounts : gmap string Z :=
  <["Deep Work" := 0]> (<["Focused" := 0]> (<["Fragmented" := 0]>
    (<["Distracted" := 0]> ∅))).

Section WithEnv.
Context {Env : Type}.

Definition setStats (next : DailyStats) : M Env unit :=
  modify_storage (fun s => mkStorage (STATE s) (Some next) (SESSIONS s) (WEEKLY s)).

Definition getDailyStats (h : Host) : M Env DailyStats :=
  let today := _todayKey h in
  stored ← read (fun w => STATS (storage w));
  let rollover :=
    let streak := _calcStreak h stored in
    let fresh := mkStats today 0 0 0 0 0 streak in
    _ ← setStats fresh;
    mret fresh in
  match stored with
  | None => rollover
  | Some st => if String.eqb (date st) today then mret st else rollover
  end.

Definition _updateDailyStats (h : Host) (session : SessionObject) (score : Z)
  : M Env unit :=
  stats ← getDailyStats h;
  let focusMins := ScoringEngine.Math_round_div (s_duration session) 60 in
  let next :=
    mkStats (date stats)
      (totalFocusMinutes stats + focusMins)
      (sessionsCompleted stats + 1)
      (totalTabSwitches stats + tabSwitchCount session)
      (totalDistractionVisits stats + distractionVisits session)
      (totalDistractionSeconds stats + distractionSeconds session)
      (streak stats) in
  setStats next.

Definition _updateWeeklyData (h : Host) (session : SessionObject) (score : Z)
           (ql : string) : M Env unit :=
  weekly ← StorageAdapter.getWeeklyData h;
  let today := _todayKey h in
  let prev := default (mkDay 0 0 0 0 0 emptyQualityCounts) (days weekly !! today) in
  let qc := qualityCounts prev in
  let qc := <[ql := default 0 (qc !! ql) + 1]> qc in
  let day :=
    mkDay (focusMinutes prev + ScoringEngine.Math_round_div (s_duration session) 60)
          (sessions prev + 1)
          (distractionMinutes prev
           + ScoringEngine.Math_round_div (distractionSeconds session) 60)
          (totalScore prev + score)
          (scoreCount prev + 1)
          qc in
  let weekly := mkWeekly (weekStart weekly) (<[today := day]> (days weekly)) in
  modify_storage (fun s => mkStorage (STATE s) (STATS s) (SESSIONS s) (Some weekly)).

Definition completeSession (h : Host) (session : SessionObject) (actualDuration : Z)
  : M Env SessionObject :=
  let result := ScoringEngine.score (ScoringEngine.metricsOf session) in
  let completed := completedRecord h session actualDuration in
  _ ← StorageAdapter.appendSession completed;
  _ ← _updateDailyStats h completed (ScoringEngine.r_score result);
  _ ← _updateWeeklyData h completed (ScoringEngine.r_score result)
        (ScoringEngine.r_qualityLabel result);
  _ ← emit EventBus.HOOKS.SCORE_CALCULATED
        (EventBus.PScoreCalculated (ScoringEngine.r_score result)
           (ScoringEngine.r_qualityLabel result) completed);
  _ ← emit EventBus.HOOKS.SESSION_END
        (EventBus.PSessionEnd completed (ScoringEngine.r_score result)
           (ScoringEngine.r_qualityLabel result));
  mret completed.
End WithEnv.

Section Startup.
Context {Env : Type}.

(** Ensures today's date key exists in [weekly.days]. *)
Definition ensureTodayInWeekly (h : Host) : M Env unit :=
  weekly ← StorageAdapter.getWeeklyData h;
  let today := _todayKey h in
  match days weekly !! today with
  | Some _ => mret tt
  | None =>
      let weekly :=
        mkWeekly (weekStart weekly)
                 (<[today := mkDay 0 0 0 0 0 emptyQualityCounts]> (days weekly)) in
      modify_storage (fun s => mkStorage (STATE s) (STATS s) (SESSIONS s) (Some weekly))
  end.
End Startup.

End SessionManager.

(** ** features/insightsEngine: the local-date helpers *)

Module InsightsEngine.

(** A LOCAL date string (YYYY-MM-DD) for a timestamp. *)
Definition _localISODate (h : Host) (timestamp : Z) : string :=
  let d := timestamp in
  let y := JsDate.getFullYear (utcOffsetMinutes h) d in
  let mon := JsDate.padStart0 2 (pretty (JsDate.getMonth (utcOffsetMinutes h) d + 1)) in
  let day := JsDate.padStart0 2 (pretty (JsDate.getDate (utcOffsetMinutes h) d)) in
  pretty y +:+ "-" +:+ mon +:+ "-" +:+ day.

(** The local Monday of the week containing [timestamp]. *)
Definition _localWeekAnchor (h : Host) (timestamp : Z) : string :=
  let d := timestamp in
  let daysSinceMonday := (JsDate.getDay (utcOffsetMinutes h) d + 6) mod 7 in
  let monday := JsDate.setDate (utcOffsetMinutes h) d
                  (JsDate.getDate (utcOffsetMinutes h) d - daysSinceMonday) in
  _localISODate h monday.

(** A stored array entry: [None] stands for anything that is not a finite
    number. *)
Definition Entry : Type := option Z.

(** The pattern store; a missing array is [None]. *)
Record Patterns := mkPatterns {
  focusMinutesByHour : option (list Entry);
  focusMinutesByDay : option (list Entry);
  distractionByHour : option (list Entry);
  sessionsByHour : option (list Entry);
  scoresByHour : option (list Entry);
}.

(** [defaultPatterns ()] of the storage adapter. *)
Definition defaultPatterns : Patterns :=
  mkPatterns (Some (replicate 24 (Some 0))) (Some (replicate 7 (Some 0)))
             (Some (replicate 24 (Some 0))) (Some (replicate 24 (Some 0)))
             (Some (replicate 24 (Some 0))).

(** [r[KEYS.PATTERNS] || defaultPatterns ()] *)
Definition getPatterns (stored : option Patterns) : Patterns :=
  default defaultPatterns stored.

(** On a numeric timestamp: finite and positive. *)
Definition _isValidTimestamp (ts : Z) : bool := 0 <? ts.

(** [None] is the [null] result. *)
Definition getLocalHour (h : Host) (timestamp : Z) : option Z :=
  if negb (_isValidTimestamp timestamp) then None
  else Some (JsDate.getHours (utcOffsetMinutes h) timestamp).

Definition getWeekdayIndex (h : Host) (timestamp : Z) : option Z :=
  if negb (_isValidTimestamp timestamp) then None
  else Some (JsDate.getDay (utcOffsetMinutes h) timestamp).

Definition isSameWeek (h : Host) (tsA tsB : Z) : bool :=
  if negb (_isValidTimestamp tsA) || negb (_isValidTimestamp tsB) then false
  else String.eqb (_localWeekAnchor h tsA) (_localWeekAnchor h tsB).

Record Bucket := mkBucket { b_name : string; b_start : Z; b_end : Z; wraps : bool }.

Definition TIME_BUCKETS : list Bucket :=
  [ mkBucket "Early Morning" 5 9 false;
    mkBucket "Late Morning" 10 11 false;
    mkBucket "Afternoon" 12 16 false;
    mkBucket "Evening" 17 20 false;
    mkBucket "Night" 21 4 true ].

(** The loop over [TIME_BUCKETS]. *)
Fixpoint firstBucket (localHour : Z) (buckets : list Bucket) : string :=
  match buckets with
  | [] => "Night"
  | bucket :: rest =>
      if wraps bucket then
        if (b_start bucket <=? localHour) || (localHour <=? b_end bucket)
        then b_name bucket else firstBucket localHour rest
      else
        if (b_start bucket <=? localHour) && (localHour <=? b_end bucket)
        then b_name bucket else firstBucket localHour rest
  end.

Definition getTimeBucket (localHour : Z) : string :=
  if (localHour <? 0) || (23 <? localHour) then "Night"
  else firstBucket localHour TIME_BUCKETS.

(** Whole minutes of a numeric seconds value; 0 when it is not positive. *)
Definition _safeMins (rawSeconds : Z) : Z :=
  if rawSeconds <=? 0 then 0 else ScoringEngine.Math_round_div rawSeconds 60.

(** Pads with zeros, truncates, and replaces every entry that is not a
    finite number by 0. *)
Definition _ensureArrayLength (arr : list Entry) (len : nat) : list Entry :=
  let arr := arr ++ replicate (len - length arr) (Some 0) in
  let arr := take len arr in
  (fun x => match x with Some v => Some v | None => Some 0 end) <$> arr.

(** [arr[i] += v] on a normalised array, for an index inside it (an hour
    below 24, a weekday below 7: the only indices that arise). *)
Definition addAt (i : Z) (v : Z) (arr : list Entry) : list Entry :=
  if i <? 0 then arr
  else alter (fun x => Some (default 0 x + v)) (Z.to_nat i) arr.

(** [recordPattern] on the stored value of the patterns key: the value
    written, or [None] when the session is rejected and nothing is
    written. *)
Definition recordPattern (h : Host) (session : SessionObject) (score : Z)
           (stored : option Patterns) : option Patterns :=
  let ts := startTime session in
  if negb (_isValidTimestamp ts) then None
  else
    match getLocalHour h ts, getWeekdayIndex h ts with
    | Some hour, Some day =>
        let focusMins := _safeMins (s_duration session) in
        let distractMins := _safeMins (distractionSeconds session) in
        let safeScore := Z.max 0 (Z.min 100 (ScoringEngine.Math_round_div score 1)) in
        let stored := getPatterns stored in
        let a1 := _ensureArrayLength (default [] (focusMinutesByHour stored)) 24 in
        let a2 := _ensureArrayLength (default [] (focusMinutesByDay stored)) 7 in
        let a3 := _ensureArrayLength (default [] (distractionByHour stored)) 24 in
        let a4 := _ensureArrayLength (default [] (sessionsByHour stored)) 24 in
        let a5 := _ensureArrayLength (default [] (scoresByHour stored)) 24 in
        Some (mkPatterns (Some (addAt hour focusMins a1))
                         (Some (addAt day focusMins a2))
                         (Some (addAt hour distractMins a3))
                         (Some (addAt hour 1 a4))
                         (Some (addAt hour safeScore a5)))
    | _, _ => None
    end.

End InsightsEngine.

(** ** core/timerEngine *)

Module TimerEngine.

Module ALARMS.
Definition COMPLETE := "focusComplete".
Definition TICK := "focusTick".
End ALARMS.

(** A nullable timestamp used as a number ([null] coerces to 0). *)
Definition toNumber (x : option Z) : Z := default 0 x.

(** [Math.ceil (n / 60)] *)
Definition ceil_div60 (n : Z) : Z := - ((- n) / 60).

(** [Math.floor ((now - state.startedAt) / 1000) + state.elapsedBeforePause] *)
Definition elapsedAt (t : Z) (state : FocusState) : Z :=
  (t - toNumber (startedAt state)) / 1000 + elapsedBeforePause state.

(** [Math.max (0, state.duration - elapsed)] *)
Definition remainingAt (t : Z) (state : FocusState) : Z :=
  Z.max 0 (duration state - elapsedAt t state).

Section WithEnv.
Context {Env : Type}.

Definition updateBadge (status : Status) (remaining : Z) : M Env unit :=
  match status with
  | running =>
      modify_badge (fun _ => mkBadge (pretty (ceil_div60 remaining) +:+ "m") "#818cf8")
  | paused => modify_badge (fun _ => mkBadge "⏸" "#64748b")
  | idle => modify_badge (fun b => mkBadge "" (badgeBackgroundColor b))
  end.

Definition _setAlarms (durationSeconds : Z) : M Env unit :=
  _ ← modify_alarms
        (insert ALARMS.COMPLETE (mkAlarm (Some (Qmake durationSeconds 60)) None));
  modify_alarms (insert ALARMS.TICK (mkAlarm None (Some (Qmake 1 1)))).

Definition _clearAlarms : M Env unit :=
  _ ← modify_alarms (delete ALARMS.COMPLETE);
  modify_alarms (delete ALARMS.TICK).

Definition start (h : Host) (duration : Z) : M Env FocusState :=
  let session := SessionManager.createSession h duration in
  newState ← StorageAdapter.patchState
    {| p_status := Some running;
       p_duration := Some duration;
       p_remaining := Some duration;
       p_startedAt := Some (Some (now h));
       p_pausedAt := Some None;
       p_elapsedBeforePause := Some 0;
       p_pendingReflection := Some None;
       p_currentSession := Some (Some session) |};
  _ ← _setAlarms duration;
  _ ← updateBadge running duration;
  _ ← emit EventBus.HOOKS.SESSION_START (EventBus.PSessionStart session duration);
  _ ← emit EventBus.HOOKS.FOCUS_MODE_ENABLED EventBus.PEmpty;
  mret newState.

Definition pause (h : Host) : M Env FocusState :=
  state ← StorageAdapter.getState;
  if negb (bool_decide (status state = running)) then mret state
  else
    let now := now h in
    let elapsed := (now - toNumber (startedAt state)) / 1000 + elapsedBeforePause state in
    let remaining := Z.max 0 (duration state - elapsed) in
    newState ← StorageAdapter.patchState
      {| p_status := Some paused;
         p_duration := None;
         p_remaining := Some remaining;
         p_startedAt := None;
         p_pausedAt := Some (Some now);
         p_elapsedBeforePause := Some elapsed;
         p_currentSession :=
           Some (match currentSession state with
                 | Some s => Some (SessionManager.markInterrupted s)
                 | None => None
                 end);
         p_pendingReflection := None |};
    _ ← _clearAlarms;
    _ ← updateBadge paused remaining;
    mret newState.

Definition resume (h : Host) : M Env FocusState :=
  state ← StorageAdapter.getState;
  if negb (bool_decide (status state = paused)) then mret state
  else
    newState ← StorageAdapter.patchState
      {| p_status := Some running;
         p_duration := None;
         p_remaining := None;
         p_startedAt := Some (Some (now h));
         p_pausedAt := Some None;
         p_elapsedBeforePause := None;
         p_currentSession := None;
         p_pendingReflection := None |};
    _ ← _setAlarms (remaining state);
    _ ← updateBadge running (remaining state);
    mret newState.

Definition reset : M Env FocusState :=
  state ← StorageAdapter.getState;
  _ ← _clearAlarms;
  newState ← StorageAdapter.patchState
    (StorageAdapter.patch_spread StorageAdapter.defaultState_patch
       {| p_status := None;
          p_duration := Some (duration state);
          p_remaining := Some (duration state);
          p_startedAt := None;
          p_pausedAt := None;
          p_elapsedBeforePause := None;
          p_currentSession := None;
          p_pendingReflection := None |});
  _ ← updateBadge idle 0;
  _ ← emit EventBus.HOOKS.FOCUS_MODE_DISABLED EventBus.PEmpty;
  mret newState.

Definition complete (h : Host) : M Env (FocusState * SessionObject) :=
  _ ← _clearAlarms;
  state ← StorageAdapter.getState;
  let session :=
    match currentSession state with
    | Some s => s
    | None => SessionManager.createSession h (duration state)
    end in
  completedSession ← SessionManager.completeSession h session (duration state);
  let reflection :=
    mkReflection (id completedSession) (s_score completedSession)
                 (s_qualityLabel completedSession) (s_duration completedSession) in
  newState ← StorageAdapter.patchState
    (StorageAdapter.patch_spread StorageAdapter.defaultState_patch
       {| p_status := None;
          p_duration := Some (duration state);
          p_remaining := Some (duration state);
          p_startedAt := None;
          p_pausedAt := None;
          p_elapsedBeforePause := None;
          p_currentSession := None;
          p_pendingReflection := Some (Some reflection) |});
  _ ← updateBadge idle 0;
  _ ← emit EventBus.HOOKS.FOCUS_MODE_DISABLED EventBus.PEmpty;
  mret (newState, completedSession).

(** The result is [{ state, expired }]. *)
Definition tick (h : Host) : M Env (FocusState * bool) :=
  state ← StorageAdapter.getState;
  if negb (bool_decide (status state = running)) then mret (state, false)
  else
    let elapsed := (now h - toNumber (startedAt state)) / 1000 + elapsedBeforePause state in
    let remaining := Z.max 0 (duration state - elapsed) in
    newState ← StorageAdapter.patchState
      (mkPatch None None (Some remaining) None None None None None);
    _ ← updateBadge running remaining;
    _ ← emit EventBus.HOOKS.TICK (EventBus.PTick remaining);
    if remaining <=? 0 then
      result ← complete h;
      mret (fst result, true)
    else mret (newState, false).

Definition recover (h : Host) : M Env FocusState :=
  state ← StorageAdapter.getState;
  if negb (bool_decide (status state = running)) then mret state
  else
    let elapsed := (now h - toNumber (startedAt state)) / 1000 + elapsedBeforePause state in
    let remaining := Z.max 0 (duration state - elapsed) in
    if remaining <=? 0 then
      result ← complete h;
      mret (fst result)
    else
      newState ← StorageAdapter.patchState
        (mkPatch None None (Some remaining) None None None None None);
      _ ← _setAlarms remaining;
      _ ← updateBadge running remaining;
      mret newState.
End WithEnv.

End TimerEngine.

(** ** features/distractionTracking *)

Module DistractionTracking.

(** [s.replace (/^www\./, '')] *)
Definition strip_www (s : string) : string :=
  if String.prefix "www." s
  then String.substring 4 (String.length s - 4) s else s.

Definition extractDomain (h : Host) (url : string) : string :=
  match URL_hostname h url with
  | Some hostname => strip_www hostname
  | None => ""
  end.

Section WithEnv.
Context {Env : Type}.

Definition enterDistraction (h : Host) (tabId : Z) (url : string) : M Env unit :=
  _ ← modify_tracker (fun _ => mkTracker (Some (now h)) (Some tabId));
  state ← StorageAdapter.getState;
  match currentSession state with
  | None => mret tt
  | Some session =>
      let domain := extractDomain h url in
      let updated := SessionManager.recordDistractionVisit session domain in
      _ ← StorageAdapter.patchState
            (mkPatch None None None None None None (Some (Some updated)) None);
      _ ← emit EventBus.HOOKS.DISTRACTION (EventBus.PDistraction domain tabId);
      mret tt
  end.

Definition _leaveDistraction (h : Host) : M Env unit :=
  start ← read (fun w => _distractionStart (tracker w));
  match start with
  | None => mret tt
  | Some start =>
      let elapsed := ScoringEngine.Math_round_div (now h - start) 1000 in
      _ ← modify_tracker (fun _ => mkTracker None None);
      state ← StorageAdapter.getState;
      match currentSession state with
      | None => mret tt
      | Some session =>
          let updated := SessionManager.addDistractionTime session elapsed in
          _ ← StorageAdapter.patchState
                (mkPatch None None None None None None (Some (Some updated)) None);
          mret tt
      end
  end.

Definition leaveDistraction (h : Host) : M Env unit := _leaveDistraction h.

Definition isInDistraction (w : World Env) : bool :=
  bool_decide (_distractionStart (tracker w) <> None).

Definition getDistractionTabId (w : World Env) : option Z :=
  _distractionTabId (tracker w).
End WithEnv.

(** [s.endsWith (suffix)] *)
Definition endsWith (s suffix : string) : bool :=
  (String.length suffix <=? String.length s)%nat
  && String.eqb (String.substring (String.length s - String.length suffix)
                                  (String.length suffix) s) suffix.

Definition isDistracting (h : Host) (url : string) (sites : list string) : bool :=
  let domain := extractDomain h url in
  if String.eqb domain "" then false
  else existsb (fun s => String.eqb domain s || endsWith domain ("." +:+ s)) sites.

End DistractionTracking.

(** ** features/reflectionSystem: dismissing the prompt *)

Module ReflectionSystem.

Section WithEnv.
Context {Env : Type}.

(** [state.pendingReflection?.sessionId === sessionId] *)
Definition pendingFor (sessionId0 : string) (state : FocusState) : bool :=
  match pendingReflection state with
  | Some r => String.eqb (sessionId r) sessionId0
  | None => false
  end.

Definition skip (sessionId0 : string) : M Env unit :=
  state ← StorageAdapter.getState;
  if pendingFor sessionId0 state then
    _ ← StorageAdapter.patchState
          (mkPatch None None None None None None None (Some None));
    mret tt
  else mret tt.
End WithEnv.

End ReflectionSystem.

(** ** features/visualEnforcement: the URL filter *)

Module VisualEnforcement.

Definition isInjectableUrl (url : string) : bool :=
  String.prefix "http://" url || String.prefix "https://" url.

End VisualEnforcement.

(** ** background.js: the timer commands of the message router and the
    tab listeners, without their calls into the presentation layer
    ([visual.*], [storage.getDistractingSites]) *)

Module Background.

Inductive Message :=
| MsgStart (duration : Z)
| MsgPause
| MsgResume
| MsgReset
| MsgContentOverlayReturn
| MsgOther.

(** [{ state, stats }] or [{ ok: true }]. *)
Inductive Response :=
| RState (state : FocusState) (stats : DailyStats)
| ROk.

Section WithEnv.
Context {Env : Type}.

Definition _handleMessage (h : Host) (msg : Message) : M Env Response :=
  match msg with
  | MsgStart duration =>
      state ← TimerEngine.start h duration;
      stats ← SessionManager.getDailyStats h;
      mret (RState state stats)
  | MsgPause =>
      state ← TimerEngine.pause h;
      stats ← SessionManager.getDailyStats h;
      mret (RState state stats)
  | MsgResume =>
      state ← TimerEngine.resume h;
      stats ← SessionManager.getDailyStats h;
      mret (RState state stats)
  | MsgReset =>
      _ ← DistractionTracking.leaveDistraction h;
      state ← TimerEngine.reset;
      stats ← SessionManager.getDailyStats h;
      mret (RState state stats)
  | MsgContentOverlayReturn =>
      _ ← DistractionTracking.leaveDistraction h;
      mret ROk
  | MsgOther =>
      state ← StorageAdapter.getState;
      stats ← SessionManager.getDailyStats h;
      mret (RState state stats)
  end.

End WithEnv.

(** What [chrome.tabs.get] returns of a tab. *)
Record Tab := mkTab { tab_url : option string; tab_pendingUrl : option string }.

(** [tab.url || tab.pendingUrl || ''] *)
Definition urlOf (tab : Tab) : string :=
  match tab_url tab with
  | Some (String c u) => String c u
  | _ =>
      match tab_pendingUrl tab with
      | Some (String c u) => String c u
      | _ => ""
      end
  end.

Section Tabs.
Context {Env : Type}.

(** [chrome.tabs.onActivated] listener; [tab] is the outcome of
    [chrome.tabs.get (tabId)], [None] when it throws, and [sites] the
    stored site list. *)
Definition onActivated (h : Host) (tab : option Tab) (sites : list string) (tabId : Z)
  : M Env unit :=
  state ← StorageAdapter.getState;
  if negb (bool_decide (status state = running))
     || negb (bool_decide (currentSession state <> None))
  then mret tt
  else
    current ← StorageAdapter.getState;
    match currentSession current with
    | None => mret tt
    | Some session =>
        let updated := SessionManager.recordTabSwitch session in
        newState ← StorageAdapter.patchState
          (mkPatch None None None None None None (Some (Some updated)) None);
        _ ← DistractionTracking.leaveDistraction h;
        match tab with
        | None => mret tt
        | Some tab =>
            let url := urlOf tab in
            if DistractionTracking.isDistracting h url sites then
              _ ← DistractionTracking.enterDistraction h tabId url;
              mret tt
            else mret tt
        end
    end.

(** [chrome.webNavigation.onCommitted] listener. *)
Definition onCommitted (h : Host) (sites : list string) (tabId : Z) (url : string)
           (frameId : Z) : M Env unit :=
  if negb (frameId =? 0) then mret tt
  else
    state ← StorageAdapter.getState;
    if negb (bool_decide (status state = running))
       || negb (bool_decide (currentSession state <> None))
    then mret tt
    else if negb (VisualEnforcement.isInjectableUrl url) then mret tt
    else
      wasDistracting ← read (fun w =>
        bool_decide (DistractionTracking.getDistractionTabId w = Some tabId));
      let nowDistracting := DistractionTracking.isDistracting h url sites in
      if wasDistracting && negb nowDistracting then DistractionTracking.leaveDistraction h
      else if negb wasDistracting && nowDistracting
           then DistractionTracking.enterDistraction h tabId url
           else mret tt.
End Tabs.

Section Sites.
(** [String.prototype.toLowerCase] and [String.prototype.trim] of the host. *)
Variables (toLowerCase trim : string -> string).

(** The [addSite] command on the stored value of the sites key: the list
    sent back and the stored value afterwards. *)
Definition addSite (domain : string) (stored : option (list string))
  : list string * option (list string) :=
  let sites := StorageAdapter.getDistractingSites stored in
  let domain := trim (DistractionTracking.strip_www (toLowerCase domain)) in
  if negb (String.eqb domain "") && negb (existsb (String.eqb domain) sites)
  then (sites ++ [domain], Some (sites ++ [domain]))
  else (sites, stored).

(** The [removeSite] command. *)
Definition removeSite (domain : string) (stored : option (list string))
  : list string * option (list string) :=
  let sites := List.filter (fun s => negb (String.eqb s domain))
                           (StorageAdapter.getDistractingSites stored) in
  (sites, Some sites).
End Sites.

End Background.

(** ** Asynchronous execution

    The definitions above run each [async] function as one step.  In the
    extension a call of an [async] function runs until it awaits a browser
    call ([chrome.storage.local.get] or [set], [chrome.tabs.get]) and is
    resumed when the browser answers; in between, other listeners and
    other answers run.  Here the same functions are written with their
    await points, and run by a machine that keeps the awaited calls in a
    queue and answers them in the order in which they were made. *)

Section Machine.
Context {Env : Type}.

(** What is left to run of a call: nothing; synchronous code, which reads
    the host where it runs; an awaited browser call [m] and what follows
    its answer; or the call of another [async] function that is not
    awaited (it runs up to its first await before [k] goes on). *)
Inductive Task : Type :=
| Done
| Sync {R : Type} (m : Host -> M Env R) (k : R -> Task)
| Await {R : Type} (m : M Env R) (k : R -> Task)
| Fork (t : Task) (k : Task).

(** An [async] function returning an [A], in continuation-passing style. *)
Definition Async (A : Type) : Type := (A -> Task) -> Task.

#[global] Instance Async_ret : MRet Async := fun A (a : A) k => k a.
#[global] Instance Async_bind : MBind Async :=
  fun A B (f : A -> Async B) (c : Async A) k => c (fun a => f a k).

Definition sync {R : Type} (m : Host -> M Env R) : Async R := fun k => Sync m k.
Definition await {R : Type} (m : M Env R) : Async R := fun k => Await m k.
Definition fork (t : Async unit) : Async unit :=
  fun k => Fork (t (fun _ => Done)) (k tt).
(** A value read from the host: [Date.now ()], [new Date ()],
    [Math.random ()], [new URL (...)]. *)
Definition clock {R : Type} (f : Host -> R) : Async R := sync (fun h => mret (f h)).

(** An awaited browser call and the code waiting for its answer. *)
Inductive Pending : Type :=
| Pend {R : Type} (m : M Env R) (k : R -> Task).

(** The extension between two macrotasks: the world, and the awaited
    calls not yet answered, oldest first. *)
Record Sys := mkSys { world : World Env; pending : list Pending }.

(** Runs [t] at host [h] until it finishes or awaits. *)
Fixpoint advance (h : Host) (t : Task) (w : World Env) (q : list Pending) : Sys :=
  match t with
  | Done => mkSys w q
  | Sync m k => let '(r, w') := m h w in advance h (k r) w' q
  | Await m k => mkSys w (q ++ [Pend m k])
  | Fork t' k => let s := advance h t' w q in advance h k (world s) (pending s)
  end.

(** The browser answers the oldest awaited call: the call takes effect and
    the code waiting for it runs, at host [h], up to its next await. *)
Definition serve (h : Host) (s : Sys) : Sys :=
  match pending s with
  | [] => s
  | Pend m k :: q => let '(r, w') := m (world s) in advance h (k r) w' q
  end.

(** With no new event arriving, the awaited calls are answered one after
    the other, all at host [h], until none is left. *)
Inductive settles (h : Host) : Sys -> World Env -> Prop :=
| settles_idle w : settles h (mkSys w []) w
| settles_serve w p q w' :
    settles h (serve h (mkSys w (p :: q))) w' -> settles h (mkSys w (p :: q)) w'.
End Machine.

Arguments Task : clear implicits.
Arguments Async : clear implicits.
Arguments Pending : clear implicits.
Arguments Sys : clear implicits.
Arguments Done {Env}.

(** ** The modules with their await points, as wired by [bootstrap] *)

Module Wired.

Section WithEnv.
Context {Env : Type}.

(** *** core/storageAdapter *)

Definition getState : Async Env FocusState := await StorageAdapter.getState.

Definition setState (next : FocusState) : Async Env unit :=
  await (StorageAdapter.setState next).

Definition patchState (patch : StatePatch) : Async Env FocusState :=
  current ← getState;
  let next := StorageAdapter.spread current patch in
  _ ← setState next;
  mret next.

Definition getSessions : Async Env (list SessionObject) := await StorageAdapter.getSessions.

Definition appendSession (session : SessionObject) : Async Env (list SessionObject) :=
  sessions ← getSessions;
  let sessions := sessions ++ [session] in
  let sessions :=
    if (200 <? length sessions)%nat
    then drop (length sessions - 200) sessions else sessions in
  _ ← await (modify_storage
               (fun s => mkStorage (STATE s) (STATS s) (Some sessions) (WEEKLY s)));
  mret sessions.

Definition getWeeklyData : Async Env WeeklyData :=
  wk ← clock StorageAdapter._weekKey;
  data ← await (read (fun w => WEEKLY (storage w)));
  match data with
  | Some d =>
      if String.eqb (weekStart d) wk then mret d
      else
        let fresh := mkWeekly wk ∅ in
        _ ← await (modify_storage
                     (fun s => mkStorage (STATE s) (STATS s) (SESSIONS s) (Some fresh)));
        mret fresh
  | None =>
      let fresh := mkWeekly wk ∅ in
      _ ← await (modify_storage
                   (fun s => mkStorage (STATE s) (STATS s) (SESSIONS s) (Some fresh)));
      mret fresh
  end.

(** *** features/distractionTracking *)

Definition _leaveDistraction : Async Env unit :=
  start ← sync (fun _ => read (fun w => _distractionStart (tracker w)));
  match start with
  | None => mret tt
  | Some start =>
      elapsed ← clock (fun h => ScoringEngine.Math_round_div (now h - start) 1000);
      _ ← sync (fun _ => modify_tracker (fun _ => mkTracker None None));
      state ← getState;
      match currentSession state with
      | None => mret tt
      | Some session =>
          let updated := SessionManager.addDistractionTime session elapsed in
          _ ← patchState
                (mkPatch None None None None None None (Some (Some updated)) None);
          mret tt
      end
  end.

Definition leaveDistraction : Async Env unit := _leaveDistraction.

(** *** core/eventBus, with the subscriber of [distraction.init ()]

    [bootstrap] subscribes [() => _leaveDistraction ()] to the session-end
    hook before anything else can subscribe, and keeps no way to
    unsubscribe it.  A dispatch of that hook therefore calls
    [_leaveDistraction] without awaiting it: it runs up to its first await
    inside [emit], and the rest when its answers come.  The subscribers of
    [insights.init ()] and [visual.init ()] write neither the timer state,
    the history, the alarms nor the tracker and are left out. *)
Definition emit (hookName : string) (payload : EventBus.Payload) : Async Env Z :=
  n ← sync (fun _ => emit hookName payload);
  _ ← (if String.eqb hookName EventBus.HOOKS.SESSION_END
       then fork _leaveDistraction else mret tt);
  mret n.

Definition enterDistraction (tabId : Z) (url : string) : Async Env unit :=
  now ← clock now;
  _ ← sync (fun _ => modify_tracker (fun _ => mkTracker (Some now) (Some tabId)));
  state ← getState;
  match currentSession state with
  | None => mret tt
  | Some session =>
      domain ← clock (fun h => DistractionTracking.extractDomain h url);
      let updated := SessionManager.recordDistractionVisit session domain in
      _ ← patchState
            (mkPatch None None None None None None (Some (Some updated)) None);
      _ ← emit EventBus.HOOKS.DISTRACTION (EventBus.PDistraction domain tabId);
      mret tt
  end.

(** *** core/sessionManager *)

Definition setStats (next : DailyStats) : Async Env unit :=
  await (SessionManager.setStats next).

Definition getDailyStats : Async Env DailyStats :=
  today ← clock SessionManager._todayKey;
  stored ← await (read (fun w => STATS (storage w)));
  let rollover : Async Env DailyStats :=
    streak ← clock (fun h => SessionManager._calcStreak h stored);
    let fresh := mkStats today 0 0 0 0 0 streak in
    _ ← setStats fresh;
    mret fresh in
  match stored with
  | None => rollover
  | Some st => if String.eqb (date st) today then mret st else rollover
  end.

Definition _updateDailyStats (session : SessionObject) (score : Z) : Async Env unit :=
  stats ← getDailyStats;
  let focusMins := ScoringEngine.Math_round_div (s_duration session) 60 in
  let next :=
    mkStats (date stats)
      (totalFocusMinutes stats + focusMins)
      (sessionsCompleted stats + 1)
      (totalTabSwitches stats + tabSwitchCount session)
      (totalDistractionVisits stats + distractionVisits session)
      (totalDistractionSeconds stats + distractionSeconds session)
      (streak stats) in
  setStats next.

Definition _updateWeeklyData (session : SessionObject) (score : Z) (ql : string)
  : Async Env unit :=
  weekly ← getWeeklyData;
  today ← clock SessionManager._todayKey;
  let prev := default (mkDay 0 0 0 0 0 SessionManager.emptyQualityCounts)
                      (days weekly !! today) in
  let qc := qualityCounts prev in
  let qc := <[ql := default 0 (qc !! ql) + 1]> qc in
  let day :=
    mkDay (focusMinutes prev + ScoringEngine.Math_round_div (s_duration session) 60)
          (sessions prev + 1)
          (distractionMinutes prev
           + ScoringEngine.Math_round_div (distractionSeconds session) 60)
          (totalScore prev + score)
          (scoreCount prev + 1)
          qc in
  let weekly := mkWeekly (weekStart weekly) (<[today := day]> (days weekly)) in
  await (modify_storage (fun s => mkStorage (STATE s) (STATS s) (SESSIONS s) (Some weekly))).

Definition completeSession (session : SessionObject) (actualDuration : Z)
  : Async Env SessionObject :=
  let result := ScoringEngine.score (ScoringEngine.metricsOf session) in
  completed ← clock (fun h => SessionManager.completedRecord h session actualDuration);
  _ ← appendSession completed;
  _ ← _updateDailyStats completed (ScoringEngine.r_score result);
  _ ← _updateWeeklyData completed (ScoringEngine.r_score result)
        (ScoringEngine.r_qualityLabel result);
  _ ← emit EventBus.HOOKS.SCORE_CALCULATED
        (EventBus.PScoreCalculated (ScoringEngine.r_score result)
           (ScoringEngine.r_qualityLabel result) completed);
  _ ← emit EventBus.HOOKS.SESSION_END
        (EventBus.PSessionEnd completed (ScoringEngine.r_score result)
           (ScoringEngine.r_qualityLabel result));
  mret completed.

(** *** core/timerEngine *)

Definition start (duration : Z) : Async Env FocusState :=
  session ← clock (fun h => SessionManager.createSession h duration);
  now ← clock now;
  newState ← patchState
    {| p_status := Some running;
       p_duration := Some duration;
       p_remaining := Some duration;
       p_startedAt := Some (Some now);
       p_pausedAt := Some None;
       p_elapsedBeforePause := Some 0;
       p_pendingReflection := Some None;
       p_currentSession := Some (Some session) |};
  _ ← sync (fun _ => TimerEngine._setAlarms duration);
  _ ← sync (fun _ => TimerEngine.updateBadge running duration);
  _ ← emit EventBus.HOOKS.SESSION_START (EventBus.PSessionStart session duration);
  _ ← emit EventBus.HOOKS.FOCUS_MODE_ENABLED EventBus.PEmpty;
  mret newState.

Definition pause : Async Env FocusState :=
  state ← getState;
  if negb (bool_decide (status state = running)) then mret state
  else
    now ← clock now;
    let elapsed :=
      (now - TimerEngine.toNumber (startedAt state)) / 1000 + elapsedBeforePause state in
    let remaining := Z.max 0 (duration state - elapsed) in
    newState ← patchState
      {| p_status := Some paused;
         p_duration := None;
         p_remaining := Some remaining;
         p_startedAt := None;
         p_pausedAt := Some (Some now);
         p_elapsedBeforePause := Some elapsed;
         p_currentSession :=
           Some (match currentSession state with
                 | Some s => Some (SessionManager.markInterrupted s)
                 | None => None
                 end);
         p_pendingReflection := None |};
    _ ← sync (fun _ => TimerEngine._clearAlarms);
    _ ← sync (fun _ => TimerEngine.updateBadge paused remaining);
    mret newState.

Definition resume : Async Env FocusState :=
  state ← getState;
  if negb (bool_decide (status state = paused)) then mret state
  else
    now ← clock now;
    newState ← patchState
      {| p_status := Some running;
         p_duration := None;
         p_remaining := None;
         p_startedAt := Some (Some now);
         p_pausedAt := Some None;
         p_elapsedBeforePause := None;
         p_currentSession := None;
         p_pendingReflection := None |};
    _ ← sync (fun _ => TimerEngine._setAlarms (remaining state));
    _ ← sync (fun _ => TimerEngine.updateBadge running (remaining state));
    mret newState.

Definition reset : Async Env FocusState :=
  state ← getState;
  _ ← sync (fun _ => TimerEngine._clearAlarms);
  newState ← patchState
    (StorageAdapter.patch_spread StorageAdapter.defaultState_patch
       {| p_status := None;
          p_duration := Some (duration state);
          p_remaining := Some (duration state);
          p_startedAt := None;
          p_pausedAt := None;
          p_elapsedBeforePause := None;
          p_currentSession := None;
          p_pendingReflection := None |});
  _ ← sync (fun _ => TimerEngine.updateBadge idle 0);
  _ ← emit EventBus.HOOKS.FOCUS_MODE_DISABLED EventBus.PEmpty;
  mret newState.

Definition complete : Async Env (FocusState * SessionObject) :=
  _ ← sync (fun _ => TimerEngine._clearAlarms);
  state ← getState;
  session ← clock (fun h => match currentSession state with
                            | Some s => s
                            | None => SessionManager.createSession h (duration state)
                            end);
  completedSession ← completeSession session (duration state);
  let reflection :=
    mkReflection (id completedSession) (s_score completedSession)
                 (s_qualityLabel completedSession) (s_duration completedSession) in
  newState ← patchState
    (StorageAdapter.patch_spread StorageAdapter.defaultState_patch
       {| p_status := None;
          p_duration := Some (duration state);
          p_remaining := Some (duration state);
          p_startedAt := None;
          p_pausedAt := None;
          p_elapsedBeforePause := None;
          p_currentSession := None;
          p_pendingReflection := Some (Some reflection) |});
  _ ← sync (fun _ => TimerEngine.updateBadge idle 0);
  _ ← emit EventBus.HOOKS.FOCUS_MODE_DISABLED EventBus.PEmpty;
  mret (newState, completedSession).

Definition tick : Async Env (FocusState * bool) :=
  state ← getState;
  if negb (bool_decide (status state = running)) then mret (state, false)
  else
    now ← clock now;
    let elapsed :=
      (now - TimerEngine.toNumber (startedAt state)) / 1000 + elapsedBeforePause state in
    let remaining := Z.max 0 (duration state - elapsed) in
    newState ← patchState
      (mkPatch None None (Some remaining) None None None None None);
    _ ← sync (fun _ => TimerEngine.updateBadge running remaining);
    _ ← emit EventBus.HOOKS.TICK (EventBus.PTick remaining);
    if remaining <=? 0 then
      result ← complete;
      mret (fst result, true)
    else mret (newState, false).

Definition recover : Async Env FocusState :=
  state ← getState;
  if negb (bool_decide (status state = running)) then mret state
  else
    now ← clock now;
    let elapsed :=
      (now - TimerEngine.toNumber (startedAt state)) / 1000 + elapsedBeforePause state in
    let remaining := Z.max 0 (duration state - elapsed) in
    if remaining <=? 0 then
      result ← complete;
      mret (fst result)
    else
      newState ← patchState
        (mkPatch None None (Some remaining) None None None None None);
      _ ← sync (fun _ => TimerEngine._setAlarms remaining);
      _ ← sync (fun _ => TimerEngine.updateBadge running remaining);
      mret newState.

(** *** background.js: the listeners, without their calls into the
    presentation layer *)

(** [chrome.alarms.onAlarm] listener. *)
Definition onAlarm (name : string) : Async Env unit :=
  if String.eqb name TimerEngine.ALARMS.COMPLETE then
    _ ← complete;
    mret tt
  else if String.eqb name TimerEngine.ALARMS.TICK then
    _ ← tick;
    mret tt
  else mret tt.

Definition _handleMessage (msg : Background.Message) : Async Env Background.Response :=
  match msg with
  | Background.MsgStart duration =>
      state ← start duration;
      stats ← getDailyStats;
      mret (Background.RState state stats)
  | Background.MsgPause =>
      state ← pause;
      stats ← getDailyStats;
      mret (Background.RState state stats)
  | Background.MsgResume =>
      state ← resume;
      stats ← getDailyStats;
      mret (Background.RState state stats)
  | Background.MsgReset =>
      _ ← leaveDistraction;
      state ← reset;
      stats ← getDailyStats;
      mret (Background.RState state stats)
  | Background.MsgContentOverlayReturn =>
      _ ← leaveDistraction;
      mret Background.ROk
  | Background.MsgOther =>
      state ← getState;
      stats ← getDailyStats;
      mret (Background.RState state stats)
  end.

(** [chrome.tabs.onActivated] listener; [tab] is what
    [await chrome.tabs.get (tabId)] yields, [None] when it throws, and
    [sites] what [await storage.getDistractingSites ()] yields. *)
Definition onActivated (tab : option Background.Tab) (sites : list string) (tabId : Z)
  : Async Env unit :=
  state ← getState;
  if negb (bool_decide (status state = running))
     || negb (bool_decide (currentSession state <> None))
  then mret tt
  else
    current ← getState;
    match currentSession current with
    | None => mret tt
    | Some session =>
        let updated := SessionManager.recordTabSwitch session in
        newState ← patchState
          (mkPatch None None None None None None (Some (Some updated)) None);
        _ ← leaveDistraction;
        tab ← await (mret tab);
        match tab with
        | None => mret tt
        | Some tab =>
            let url := Background.urlOf tab in
            sites ← await (mret sites);
            distracting ← clock (fun h => DistractionTracking.isDistracting h url sites);
            if distracting : bool then
              _ ← enterDistraction tabId url;
              mret tt
            else mret tt
        end
    end.

(** [chrome.webNavigation.onCommitted] listener. *)
Definition onCommitted (sites : list string) (tabId : Z) (url : string) (frameId : Z)
  : Async Env unit :=
  if negb (frameId =? 0) then mret tt
  else
    state ← getState;
    if negb (bool_decide (status state = running))
       || negb (bool_decide (currentSession state <> None))
    then mret tt
    else if negb (VisualEnforcement.isInjectableUrl url) then mret tt
    else
      sites ← await (mret sites);
      wasDistracting ← sync (fun _ => read (fun w =>
        bool_decide (DistractionTracking.getDistractionTabId w = Some tabId)));
      nowDistracting ← clock (fun h => DistractionTracking.isDistracting h url sites);
      if wasDistracting && negb nowDistracting then leaveDistraction
      else if negb wasDistracting && nowDistracting
           then enterDistraction tabId url
           else mret tt.
End WithEnv.

End Wired.

(** ** Events and schedules *)

(** What the browser delivers to the listeners. *)
Inductive Event :=
| EvAlarm (name : string)
| EvMessage (msg : Background.Message)
| EvActivated (tab : option Background.Tab) (sites : list string) (tabId : Z)
| EvCommitted (sites : list string) (tabId : Z) (url : string) (frameId : Z).

Section Schedules.
Context {Env : Type}.

(** The call a listener makes of its [async] body; the result is sent to
    the presentation layer or dropped. *)
Definition listener (e : Event) : Task Env :=
  match e with
  | EvAlarm name => Wired.onAlarm name (fun _ => Done)
  | EvMessage msg => Wired._handleMessage msg (fun _ => Done)
  | EvActivated tab sites tabId => Wired.onActivated tab sites tabId (fun _ => Done)
  | EvCommitted sites tabId url frameId =>
      Wired.onCommitted sites tabId url frameId (fun _ => Done)
  end.

(** An event arriving in a world where nothing is in flight. *)
Definition arrive (h : Host) (e : Event) (w : World Env) : Sys Env :=
  advance h (listener e) w [].

(** One macrotask: an event is delivered to its listener, or the oldest
    awaited call is answered. *)
Inductive Step :=
| Arrive (h : Host) (e : Event)
| Serve (h : Host).

Definition step (s : Sys Env) (st : Step) : Sys Env :=
  match st with
  | Arrive h e => advance h (listener e) (world s) (pending s)
  | Serve h => serve h s
  end.

Definition exec (schedule : list Step) (s : Sys Env) : Sys Env := foldl step s schedule.
End Schedules.

(** ** Vocabulary of the statements *)

Abbreviation stateOf := StorageAdapter.stateOf.
Abbreviation historyOf := StorageAdapter.historyOf.

Arguments StorageAdapter.stateOf {Env} !w /.
Arguments StorageAdapter.historyOf {Env} !w /.

(** History after one append under the cap of 200 entries. *)
Definition appended (old : list SessionObject) (c : SessionObject) : list SessionObject :=
  let l := old ++ [c] in
  if (200 <? length l)%nat then drop (length l - 200) l else l.

(** The session that [complete] finalises: the current one, or a blank one
    created on the spot. *)
Definition sessionToFinalise (h : Host) (st : FocusState) : SessionObject :=
  match currentSession st with
  | Some s => s
  | None => SessionManager.createSession h (duration st)
  end.

(** The timer state [complete] leaves behind. *)
Definition stateAfterComplete (h : Host) (st : FocusState) : FocusState :=
  let c := SessionManager.completedRecord h (sessionToFinalise h st) (duration st) in
  {| status := idle;
     duration := duration st;
     remaining := duration st;
     startedAt := None;
     pausedAt := None;
     elapsedBeforePause := 0;
     currentSession := None;
     pendingReflection :=
       Some (mkReflection (id c) (s_score c) (s_qualityLabel c) (s_duration c)) |}.

(** The score as the formula reads: 100, minus 5 per tab switch, minus 10
    per distraction visit, minus the distracted minutes rounded to the
    nearest integer, plus 10 without interruption, clamped to [0, 100]. *)
Definition nearestMinute (seconds : Z) : Z := (seconds + 30) / 60.

Definition formulaScore (tabSwitches visits seconds : Z) (interrupted : bool) : Z :=
  let raw := 100 - 5 * tabSwitches - 10 * visits - nearestMinute seconds
             + (if interrupted then 0 else 10) in
  Z.max 0 (Z.min 100 raw).

(** What a dispatch over the handler list [hs] leaves in the subscribers'
    state: every callback has run once, in list order, whether or not an
    earlier one threw. *)
Definition dispatchEnv {Env} (payload : EventBus.Payload) (e : Env)
           (hs : list (EventBus.SafeHandler Env)) : Env :=
  foldl (fun e h => (EventBus.sh_fn h payload e).1.1) e hs.

(** The console lines of that dispatch: one error line per callback that
    threw, naming its source and hook, in list order. *)
Fixpoint dispatchLog {Env} (payload : EventBus.Payload) (e : Env)
         (hs : list (EventBus.SafeHandler Env)) : list EventBus.LogLine :=
  match hs with
  | [] => []
  | h :: rest =>
      match EventBus.sh_fn h payload e with
      | (e', Some err, _) =>
          EventBus.LogError
            (EventBus.handler_error_msg (EventBus.sh_source h) (EventBus.sh_hookName h)) err
          :: dispatchLog payload e' rest
      | (e', None, _) => dispatchLog payload e' rest
      end
  end.

(** No callback of [hs] calls an unsubscribe function when it is called
    with [payload]. *)
Definition quiet {Env} (payload : EventBus.Payload)
           (hs : list (EventBus.SafeHandler Env)) : Prop :=
  forall h e, h ∈ hs -> (EventBus.sh_fn h payload e).2 = [].

(** The timer state [pause] stores at instant [t] for a running [st]. *)
Definition stateAfterPause (t : Z) (st : FocusState) : FocusState :=
  {| status := paused;
     duration := duration st;
     remaining := TimerEngine.remainingAt t st;
     startedAt := startedAt st;
     pausedAt := Some t;
     elapsedBeforePause := TimerEngine.elapsedAt t st;
     currentSession := SessionManager.markInterrupted <$> currentSession st;
     pendingReflection := pendingReflection st |}.

(** The timer state [resume] stores at instant [t] for a paused [st]. *)
Definition stateAfterResume (t : Z) (st : FocusState) : FocusState :=
  {| status := running;
     duration := duration st;
     remaining := remaining st;
     startedAt := Some t;
     pausedAt := None;
     elapsedBeforePause := elapsedBeforePause st;
     currentSession := currentSession st;
     pendingReflection := pendingReflection st |}.

(** [st] with a new [remaining]. *)
Definition withRemaining (r : Z) (st : FocusState) : FocusState :=
  {| status := status st;
     duration := duration st;
     remaining := r;
     startedAt := startedAt st;
     pausedAt := pausedAt st;
     elapsedBeforePause := elapsedBeforePause st;
     currentSession := currentSession st;
     pendingReflection := pendingReflection st |}.

(** The timer state [reset] stores. *)
Definition stateAfterReset (st : FocusState) : FocusState :=
  {| status := idle;
     duration := duration st;
     remaining := duration st;
     startedAt := None;
     pausedAt := None;
     elapsedBeforePause := 0;
     currentSession := None;
     pendingReflection := None |}.

(** [st] with a new [currentSession]. *)
Definition withSession (s : SessionObject) (st : FocusState) : FocusState :=
  {| status := status st;
     duration := duration st;
     remaining := remaining st;
     startedAt := startedAt st;
     pausedAt := pausedAt st;
     elapsedBeforePause := elapsedBeforePause st;
     currentSession := Some s;
     pendingReflection := pendingReflection st |}.

(** Both wake-ups scheduled for [seconds] from now. *)
Definition scheduled (seconds : Z) (al : gmap string AlarmInfo) : gmap string AlarmInfo :=
  <[TimerEngine.ALARMS.TICK := mkAlarm None (Some (Qmake 1 1))]>
    (<[TimerEngine.ALARMS.COMPLETE := mkAlarm (Some (Qmake seconds 60)) None]> al).

(** Both wake-ups cancelled. *)
Definition cancelled (al : gmap string AlarmInfo) : gmap string AlarmInfo :=
  delete TimerEngine.ALARMS.TICK (delete TimerEngine.ALARMS.COMPLETE al).

(** The operations that write the timer state. *)
Inductive Operation :=
| Start (duration : Z)
| Pause
| Resume
| Reset
| Tick
| Complete
| Recover
| EnterDistraction (tabId : Z) (url : string)
| LeaveDistraction.

Definition perform {Env} (h : Host) (op : Operation) (w : World Env) : World Env :=
  match op with
  | Start d => (TimerEngine.start h d w).2
  | Pause => (TimerEngine.pause h w).2
  | Resume => (TimerEngine.resume h w).2
  | Reset => (TimerEngine.reset w).2
  | Tick => (TimerEngine.tick h w).2
  | Complete => (TimerEngine.complete h w).2
  | Recover => (TimerEngine.recover h w).2
  | EnterDistraction tabId url => (DistractionTracking.enterDistraction h tabId url w).2
  | LeaveDistraction => (DistractionTracking.leaveDistraction h w).2
  end.

(** An idle timer holds no session. *)
Definition idleHasNoSession (st : FocusState) : Prop :=
  status st = idle -> currentSession st = None.

(** Every handler in the registry was allocated before [next_id]. *)
Definition fresh_ids {Env} (b : EventBus.Bus Env) : Prop :=
  forall hookName hs h,
    EventBus._registry b !! hookName = Some hs -> h ∈ hs ->
    (EventBus.sh_id h < EventBus.next_id b)%nat.

(** The entries of a plugin's hook map that name [hookName] and hold a
    function. *)
Definition entriesFor {Env} (hookName : string)
           (hooks : list (string * option (EventBus.Handler Env))) : nat :=
  length (List.filter
            (fun e => String.eqb (fst e) hookName
                      && match snd e with Some _ => true | None => false end)
            hooks).

(** The daily record after the rollover check: the stored one when it is
    dated today, a zeroed one otherwise. *)
Definition rolledStats (h : Host) (stored : option DailyStats) : DailyStats :=
  match stored with
  | Some st =>
      if String.eqb (date st) (SessionManager._todayKey h) then st
      else mkStats (SessionManager._todayKey h) 0 0 0 0 0 (SessionManager._calcStreak h stored)
  | None => mkStats (SessionManager._todayKey h) 0 0 0 0 0 (SessionManager._calcStreak h stored)
  end.

(** The weekly record after the rollover check. *)
Definition rolledWeek (h : Host) (stored : option WeeklyData) : WeeklyData :=
  match stored with
  | Some d =>
      if String.eqb (weekStart d) (StorageAdapter._weekKey h) then d
      else mkWeekly (StorageAdapter._weekKey h) ∅
  | None => mkWeekly (StorageAdapter._weekKey h) ∅
  end.

(** A day without sessions. *)
Definition zeroDay : DayAggregate := mkDay 0 0 0 0 0 SessionManager.emptyQualityCounts.

(** The timer state after an operation, as a function of the timer state
    before it and of the start of the open distraction interval. *)
Definition transition (h : Host) (op : Operation) (st : FocusState)
           (opened : option Z) : FocusState :=
  let r := TimerEngine.remainingAt (now h) st in
  match op with
  | Start d =>
      mkState running d d (Some (now h)) None 0
              (Some (SessionManager.createSession h d)) None
  | Pause =>
      if bool_decide (status st = running) then stateAfterPause (now h) st else st
  | Resume =>
      if bool_decide (status st = paused) then stateAfterResume (now h) st else st
  | Reset => stateAfterReset st
  | Tick =>
      if bool_decide (status st = running) then
        if r <=? 0 then stateAfterComplete h (withRemaining r st) else withRemaining r st
      else st
  | Complete => stateAfterComplete h st
  | Recover =>
      if bool_decide (status st = running) then
        if r <=? 0 then stateAfterComplete h st else withRemaining r st
      else st
  | EnterDistraction tabId url =>
      match currentSession st with
      | Some s =>
          withSession (SessionManager.recordDistractionVisit s
                         (DistractionTracking.extractDomain h url)) st
      | None => st
      end
  | LeaveDistraction =>
      match opened, currentSession st with
      | Some t, Some s =>
          withSession (SessionManager.addDistractionTime s
                         (ScoringEngine.Math_round_div (now h - t) 1000)) st
      | _, _ => st
      end
  end.

(** The scheduled wake-ups after an operation. *)
Definition alarmsAfter (h : Host) (op : Operation) (st : FocusState)
           (al : gmap string AlarmInfo) : gmap string AlarmInfo :=
  let r := TimerEngine.remainingAt (now h) st in
  match op with
  | Start d => scheduled d al
  | Pause => if bool_decide (status st = running) then cancelled al else al
  | Resume => if bool_decide (status st = paused) then scheduled (remaining st) al else al
  | Reset | Complete => cancelled al
  | Tick =>
      if bool_decide (status st = running) && (r <=? 0) then cancelled al else al
  | Recover =>
      if bool_decide (status st = running) then
        if r <=? 0 then cancelled al else scheduled r al
      else al
  | EnterDistraction _ _ | LeaveDistraction => al
  end.

(** Whether an operation finalises a session, given the state before. *)
Definition finalises (h : Host) (op : Operation) (st : FocusState) : bool :=
  match op with
  | Complete => true
  | Tick | Recover =>
      bool_decide (status st = running) && (TimerEngine.remainingAt (now h) st <=? 0)
  | _ => false
  end.

(** An operation as the callers issue it: sessions are started with a
    duration that is not negative. *)
Definition wellFormed (op : Operation) : Prop :=
  match op with Start d => 0 <= d | _ => True end.

(** Worlds reached from the default timer state by well-formed operations,
    each run to its end before the next, under a clock that never runs
    backwards; the index is the instant of the last operation. *)
Inductive clocked {Env} : Z -> World Env -> Prop :=
| clocked_initial t w :
    stateOf w = StorageAdapter.defaultState -> clocked t w
| clocked_step t h op w :
    clocked t w -> t <= now h -> wellFormed op -> clocked (now h) (perform h op w).

(** What the clock discipline maintains of a timer state at instant [t]. *)
Definition timed (t : Z) (st : FocusState) : Prop :=
  0 <= remaining st <= duration st
  /\ 0 <= elapsedBeforePause st
  /\ (status st <> idle -> exists s, startedAt st = Some s /\ s <= t)
  /\ (status st = running ->
      forall t', t <= t' -> TimerEngine.remainingAt t' st <= remaining st)
  /\ (status st = paused ->
      Z.max 0 (duration st - elapsedBeforePause st) <= remaining st).

(** A history entry as [completeSession] writes it. *)
Definition finalised (c : SessionObject) : Prop :=
  completed c = Some true
  /\ exists sc, s_score c = Some sc /\ 0 <= sc <= 100
                /\ s_qualityLabel c = Some (ScoringEngine.qualityLabel sc).

(** Wake-ups are scheduled exactly while the timer runs. *)
Definition alarmsMatch {Env} (w : World Env) : Prop :=
  if bool_decide (status (stateOf w) = running)
  then is_Some (alarms w !! TimerEngine.ALARMS.COMPLETE)
       /\ is_Some (alarms w !! TimerEngine.ALARMS.TICK)
  else alarms w !! TimerEngine.ALARMS.COMPLETE = None
       /\ alarms w !! TimerEngine.ALARMS.TICK = None.

Definition tabIsDistracting (h : Host) (tab : option Background.Tab) (sites : list string)
  : bool :=
  match tab with
  | Some tab => DistractionTracking.isDistracting h (Background.urlOf tab) sites
  | None => false
  end.

(** The number a stored array holds at an index once normalised: 0 for a
    missing array, a missing index, or an entry that is not a number. *)
Definition entryAt (arr : option (list InsightsEngine.Entry)) (i : nat) : Z :=
  match arr with
  | Some l => match l !! i with Some (Some v) => v | _ => 0 end
  | None => 0
  end.

(** [v] at the index [idx], 0 elsewhere. *)
Definition atIndex (idx : Z) (v : Z) (i : nat) : Z :=
  if bool_decide (Z.of_nat i = idx) then v else 0.

(** What calling handlers can do to a bus: the registry lists only
    shrink, no identity is allocated and the trace of emits is kept. *)
Definition shrinks {Env} (b b' : EventBus.Bus Env) : Prop :=
  EventBus.next_id b' = EventBus.next_id b
  /\ EventBus.emitted b' = EventBus.emitted b
  /\ EventBus._plugins b' = EventBus._plugins b
  /\ forall hookName hs', EventBus._registry b' !! hookName = Some hs' ->
       exists hs, EventBus._registry b !! hookName = Some hs
                  /\ forall h, h ∈ hs' -> h ∈ hs.

(** ** Vocabulary of the asynchronous machine *)

(** Run with nothing else in flight, the call [c] reaches, by its own
    awaits being answered, the point the atomic step [f] reaches at once:
    whatever follows settles the same way after either. *)
Definition Prefix {Env A} (h : Host) (c : Async Env A) (f : M Env A) : Prop :=
  forall (k : A -> Task Env) (w w'' : World Env),
    settles h (advance h (c k) w []) w''
    <-> settles h (advance h (k (f w).1) (f w).2 []) w''.

(** The call of an operation whose result is dropped. *)
Definition call {Env} (op : Operation) : Task Env :=
  match op with
  | Start d => Wired.start d (fun _ => Done)
  | Pause => Wired.pause (fun _ => Done)
  | Resume => Wired.resume (fun _ => Done)
  | Reset => Wired.reset (fun _ => Done)
  | Tick => Wired.tick (fun _ => Done)
  | Complete => Wired.complete (fun _ => Done)
  | Recover => Wired.recover (fun _ => Done)
  | EnterDistraction tabId url => Wired.enterDistraction tabId url (fun _ => Done)
  | LeaveDistraction => Wired.leaveDistraction (fun _ => Done)
  end.

(** The timer state [complete] reads when [op] runs it: [tick] has stored
    the remaining time by then. *)
Definition stateRead (h : Host) (op : Operation) (st : FocusState) : FocusState :=
  match op with
  | Tick => withRemaining (TimerEngine.remainingAt (now h) st) st
  | _ => st
  end.

(** The world [w'] after the session-end subscriber has closed the
    interval opened at [t]: it read the timer state [st] before [complete]
    stored the idle state and writes [st] back afterwards, the interval's
    seconds added to its session.  When [st] holds no session it writes
    nothing. *)
Definition writtenBack {Env} (h : Host) (t : Z) (st : FocusState) (w' : World Env)
  : World Env :=
  mkWorld
    (match currentSession st with
     | Some s =>
         mkStorage
           (Some (withSession
                    (SessionManager.addDistractionTime s
                       (ScoringEngine.Math_round_div (now h - t) 1000))
                    st))
           (STATS (storage w')) (SESSIONS (storage w')) (WEEKLY (storage w'))
     | None => storage w'
     end)
    (alarms w') (badge w') (bus w') (mkTracker None None).

(** The world in which the call of [op], made with nothing else in flight,
    settles.  It is the world of the atomic step, except when the operation
    finalises a session while a distraction interval is open. *)
Definition settled {Env} (h : Host) (op : Operation) (w : World Env) : World Env :=
  match _distractionStart (tracker w) with
  | Some t =>
      if finalises h op (stateOf w)
      then writtenBack h t (stateRead h op (stateOf w)) (perform h op w)
      else perform h op w
  | None => perform h op w
  end.

(** The zone offset with which the local time [k] days before now is read,
    and the offset in force [k] whole days before now, are the offset in
    force now: no daylight-saving change in between. *)
Definition sameOffsetDaysBack (h : Host) (k : Z) : Prop :=
  let tz := utcOffsetMinutes h in
  tz (JsDate.LocalTime tz (now h) - k * JsDate.msPerDay) false = tz (now h) true
  /\ tz (now h - k * JsDate.msPerDay) true = tz (now h) true.

(** The instant at which the local clock read, [k] calendar days ago, what
    it reads now. *)
Definition sameLocalTimeDaysBack (h : Host) (k : Z) : Z :=
  let tz := utcOffsetMinutes h in
  JsDate.UTC tz (JsDate.LocalTime tz (now h) - k * JsDate.msPerDay).

(** ** Concrete inputs *)

(** No URL parses. *)
Definition noURL : string -> option string := fun _ => None.

(** 2023-12-31T23:30:00Z, read on a host one hour east of UTC, where it is
    Monday 2024-01-01, 00:30. *)
Definition hostNewYear : Host := mkHost 1704065400000 (JsDate.fixed 60) "k3f9" noURL.

(** 2024-03-10T23:30:00Z in New York: Sunday 19:30 local, daylight saving
    time having begun that morning; the Monday of the week, six days
    back, was still on standard time. *)
Definition hostSpringForward : Host :=
  mkHost 1710113400000 JsDate.newYork2024 "k3f9" noURL.

(** A fresh profile: empty storage, no alarms, nothing subscribed. *)
Definition freshWorld : World unit :=
  mkWorld (mkStorage None None None None) ∅ (mkBadge "" "")
          (EventBus.initial_bus tt) (mkTracker None None).

(** A host in UTC whose URL parser knows one address. *)
Definition hostAt (t : Z) : Host :=
  mkHost t (JsDate.fixed 0) "a1b2"
    (fun url => if String.eqb url "https://www.youtube.com/watch"
                then Some "www.youtube.com" else None).

Definition t0 : Z := 1700000000000.

(** A 5-minute session started at [t0]. *)
Definition fiveMinuteSession : World unit := (TimerEngine.start (hostAt t0) 300 freshWorld).2.

(** A 25-minute session started at [t0], with a distracting tab entered
    one minute in. *)
Definition distractedSession : World unit :=
  (DistractionTracking.enterDistraction (hostAt (t0 + 60000)) 7
     "https://www.youtube.com/watch"
     (TimerEngine.start (hostAt t0) 1500 freshWorld).2).2.

(** The 25-minute session paused two minutes in. *)
Definition pausedSession : World unit :=
  (TimerEngine.pause (hostAt (t0 + 120000))
     (TimerEngine.start (hostAt t0) 1500 freshWorld).2).2.

(** A plugin with two usable hooks, one entry that is not a function and
    one entry for a hook that does not exist. *)
Definition samplePlugin : EventBus.PluginDefinition (list string) :=
  EventBus.mkPlugin (Some "logger") (Some "1.0.0")
    (Some [ (EventBus.HOOKS.SESSION_END, Some (fun _ e => (e ++ ["end"], None, [])));
            ("onNothing", Some (fun _ e => (e, None, [])));
            (EventBus.HOOKS.TICK, None);
            (EventBus.HOOKS.SESSION_END, Some (fun _ e => (e ++ ["end2"], None, []))) ]).

(** Storage holding a week that began on 2023-12-18, a week that began on
    2023-12-31, and a daily record of 2023-12-30. *)
Definition staleWeekWorld : World unit :=
  mkWorld (mkStorage None None None
             (Some (mkWeekly "2023-12-18" (<["2023-12-19" := mkDay 25 1 0 90 1 ∅]> ∅))))
          ∅ (mkBadge "" "") (EventBus.initial_bus tt) (mkTracker None None).

Definition currentWeekWorld : World unit :=
  mkWorld (mkStorage None None None
             (Some (mkWeekly "2023-12-31" (<["2023-12-31" := mkDay 25 1 0 90 1 ∅]> ∅))))
          ∅ (mkBadge "" "") (EventBus.initial_bus tt) (mkTracker None None).


(** A subscriber that throws, and one that records that it ran. *)
Definition throwing : EventBus.Handler (list string) :=
  fun _ e => (e, Some "boom", []).
Definition recording (tag : string) : EventBus.Handler (list string) :=
  fun _ e => (e ++ [tag], None, []).

(** A subscriber that records that it ran and unsubscribes itself:
    [const unsub = on (hookName, () => { ...; unsub (); })], [token]
    being the result of that [on]. *)
Definition runsOnce (tag hookName : string) (token : nat) : EventBus.Handler (list string) :=
  fun _ e => (e ++ [tag], None, [(hookName, token)]).

(** * Proofs *)

Create HintDb focus discriminated.

#[global] Hint Unfold
  mbind M_bind mret M_ret read
  modify_storage modify_alarms modify_badge modify_tracker
  StorageAdapter.getState StorageAdapter.setState StorageAdapter.patchState
  StorageAdapter.getSessions StorageAdapter.appendSession
  SessionManager.setStats
  TimerEngine.updateBadge TimerEngine._setAlarms TimerEngine._clearAlarms
  : focus.

Arguments EventBus.emit : simpl never.
Arguments emit : simpl never.

Ltac fold_views :=
  repeat match goal with
  | |- context [default StorageAdapter.defaultState (STATE (storage ?w))] =>
      progress change (default StorageAdapter.defaultState (STATE (storage w)))
        with (stateOf w)
  | |- context [default [] (SESSIONS (storage ?w))] =>
      progress change (default [] (SESSIONS (storage w))) with (historyOf w)
  end.

Ltac run := autounfold with focus; cbn; fold_views.

Section Steps.
Context {Env : Type}.
Implicit Types (w : World Env) (h : Host).

Lemma emit_run hookName payload w :
  emit hookName payload w =
  ((EventBus.emit hookName payload (bus w)).1,
   mkWorld (storage w) (alarms w) (badge w)
           (EventBus.emit hookName payload (bus w)).2 (tracker w)).
Proof. unfold emit. by destruct (EventBus.emit _ _ _). Qed.

Lemma getWeeklyData_run h w :
  exists wk, StorageAdapter.getWeeklyData h w =
    (wk, mkWorld (mkStorage (STATE (storage w)) (STATS (storage w))
                            (SESSIONS (storage w)) (Some wk))
                 (alarms w) (badge w) (bus w) (tracker w)).
Proof.
  destruct w as [[st sts ss [wk|]] al bd b tr];
    unfold StorageAdapter.getWeeklyData; run; [|by eexists].
  destruct (String.eqb _ _); by eexists.
Qed.

Lemma getDailyStats_run h w :
  exists ds, SessionManager.getDailyStats h w =
    (ds, mkWorld (mkStorage (STATE (storage w)) (Some ds)
                            (SESSIONS (storage w)) (WEEKLY (storage w)))
                 (alarms w) (badge w) (bus w) (tracker w)).
Proof.
  destruct w as [[st [ds|] ss wk] al bd b tr];
    unfold SessionManager.getDailyStats; run; [|by eexists].
  destruct (String.eqb _ _); by eexists.
Qed.

Lemma completeSession_run h s d w :
  exists ds wk b,
    SessionManager.completeSession h s d w =
    (SessionManager.completedRecord h s d,
     mkWorld (mkStorage (STATE (storage w)) (Some ds)
                (Some (appended (historyOf w) (SessionManager.completedRecord h s d)))
                (Some wk))
             (alarms w) (badge w) b (tracker w)).
Proof.
  unfold SessionManager.completeSession, SessionManager._updateDailyStats,
    SessionManager._updateWeeklyData.
  run.
  match goal with |- context [SessionManager.getDailyStats h ?w0] =>
    destruct (getDailyStats_run h w0) as [ds ->] end.
  cbn.
  match goal with |- context [StorageAdapter.getWeeklyData h ?w0] =>
    destruct (getWeeklyData_run h w0) as [wk ->] end.
  cbn. rewrite !emit_run. cbn.
  by eexists _, _, _.
Qed.

Lemma complete_run h w :
  exists ds wk b,
    TimerEngine.complete h w =
    ((stateAfterComplete h (stateOf w),
      SessionManager.completedRecord h (sessionToFinalise h (stateOf w))
        (duration (stateOf w))),
     mkWorld (mkStorage (Some (stateAfterComplete h (stateOf w))) (Some ds)
                (Some (appended (historyOf w)
                         (SessionManager.completedRecord h
                            (sessionToFinalise h (stateOf w)) (duration (stateOf w)))))
                (Some wk))
             (cancelled (alarms w))
             (mkBadge "" (badgeBackgroundColor (badge w))) b (tracker w)).
Proof.
  unfold TimerEngine.complete, cancelled. run.
  match goal with |- context [SessionManager.completeSession h ?s ?d ?w0] =>
    destruct (completeSession_run h s d w0) as (ds & wk & b & ->) end.
  cbn. rewrite emit_run. cbn.
  by eexists _, _, _.
Qed.

Lemma world_eta w :
  mkWorld (storage w) (alarms w) (badge w) (bus w) (tracker w) = w.
Proof. by destruct w. Qed.

Lemma reset_run w :
  TimerEngine.reset w =
  (stateAfterReset (stateOf w),
   mkWorld (mkStorage (Some (stateAfterReset (stateOf w))) (STATS (storage w))
              (SESSIONS (storage w)) (WEEKLY (storage w)))
           (cancelled (alarms w))
           (mkBadge "" (badgeBackgroundColor (badge w)))
           (EventBus.emit EventBus.HOOKS.FOCUS_MODE_DISABLED EventBus.PEmpty (bus w)).2
           (tracker w)).
Proof. unfold TimerEngine.reset. run. rewrite emit_run. reflexivity. Qed.

Lemma pause_skip h w :
  status (stateOf w) <> running -> TimerEngine.pause h w = (stateOf w, w).
Proof.
  intros Hs. unfold TimerEngine.pause. run.
  by rewrite bool_decide_eq_false_2.
Qed.

Lemma pause_run h w :
  status (stateOf w) = running ->
  TimerEngine.pause h w =
  (stateAfterPause (now h) (stateOf w),
   mkWorld (mkStorage (Some (stateAfterPause (now h) (stateOf w))) (STATS (storage w))
              (SESSIONS (storage w)) (WEEKLY (storage w)))
           (cancelled (alarms w))
           (mkBadge "⏸" "#64748b") (bus w) (tracker w)).
Proof.
  intros Hs. unfold TimerEngine.pause. run.
  rewrite bool_decide_eq_true_2 by done. cbn.
  unfold stateAfterPause, StorageAdapter.spread. cbn.
  by destruct (currentSession (stateOf w)).
Qed.

Lemma resume_skip h w :
  status (stateOf w) <> paused -> TimerEngine.resume h w = (stateOf w, w).
Proof.
  intros Hs. unfold TimerEngine.resume. run.
  by rewrite bool_decide_eq_false_2.
Qed.

Lemma resume_run h w :
  status (stateOf w) = paused ->
  TimerEngine.resume h w =
  (stateAfterResume (now h) (stateOf w),
   mkWorld (mkStorage (Some (stateAfterResume (now h) (stateOf w))) (STATS (storage w))
              (SESSIONS (storage w)) (WEEKLY (storage w)))
           (scheduled (remaining (stateOf w)) (alarms w))
           (mkBadge (pretty (TimerEngine.ceil_div60 (remaining (stateOf w))) +:+ "m")
                    "#818cf8")
           (bus w) (tracker w)).
Proof.
  intros Hs. unfold TimerEngine.resume. run.
  by rewrite bool_decide_eq_true_2.
Qed.

Lemma tick_skip h w :
  status (stateOf w) <> running -> TimerEngine.tick h w = ((stateOf w, false), w).
Proof.
  intros Hs. unfold TimerEngine.tick. run.
  by rewrite bool_decide_eq_false_2.
Qed.

Lemma recover_skip h w :
  status (stateOf w) <> running -> TimerEngine.recover h w = (stateOf w, w).
Proof.
  intros Hs. unfold TimerEngine.recover. run.
  by rewrite bool_decide_eq_false_2.
Qed.

Lemma recover_expired h w :
  status (stateOf w) = running ->
  TimerEngine.remainingAt (now h) (stateOf w) <= 0 ->
  TimerEngine.recover h w = ((TimerEngine.complete h w).1.1, (TimerEngine.complete h w).2).
Proof.
  intros Hs Hr. unfold TimerEngine.recover. run.
  rewrite bool_decide_eq_true_2 by done. cbn.
  fold (TimerEngine.elapsedAt (now h) (stateOf w)).
  fold (TimerEngine.remainingAt (now h) (stateOf w)).
  destruct (Z.leb_spec (TimerEngine.remainingAt (now h) (stateOf w)) 0); [|lia].
  by destruct (TimerEngine.complete h w) as [[? ?] ?].
Qed.

Lemma recover_run h w :
  status (stateOf w) = running ->
  0 < TimerEngine.remainingAt (now h) (stateOf w) ->
  TimerEngine.recover h w =
  (withRemaining (TimerEngine.remainingAt (now h) (stateOf w)) (stateOf w),
   mkWorld (mkStorage
              (Some (withRemaining (TimerEngine.remainingAt (now h) (stateOf w))
                       (stateOf w)))
              (STATS (storage w)) (SESSIONS (storage w)) (WEEKLY (storage w)))
           (scheduled (TimerEngine.remainingAt (now h) (stateOf w)) (alarms w))
           (mkBadge (pretty (TimerEngine.ceil_div60
                               (TimerEngine.remainingAt (now h) (stateOf w))) +:+ "m")
                    "#818cf8")
           (bus w) (tracker w)).
Proof.
  intros Hs Hr. unfold TimerEngine.recover. run.
  rewrite bool_decide_eq_true_2 by done. cbn.
  fold (TimerEngine.elapsedAt (now h) (stateOf w)).
  fold (TimerEngine.remainingAt (now h) (stateOf w)).
  destruct (Z.leb_spec (TimerEngine.remainingAt (now h) (stateOf w)) 0); [lia|].
  reflexivity.
Qed.
End Steps.

(** ** Host functions on sample values *)

Example toISOString_samples :
  JsDate.toISOString 0 = "1970-01-01T00:00:00.000Z"
  /\ JsDate.toISOString (-1) = "1969-12-31T23:59:59.999Z"
  /\ JsDate.toISOString 951782400000 = "2000-02-29T00:00:00.000Z"
  /\ JsDate.toISOString 1704065400000 = "2023-12-31T23:30:00.000Z".
Proof. repeat split; vm_compute; reflexivity. Qed.

Example toString36_samples :
  SessionManager.toString36 35 = "z"
  /\ SessionManager.toString36 36 = "10"
  /\ SessionManager.toString36 1700000000000 = "loyw3v28".
Proof. repeat split; vm_compute; reflexivity. Qed.

(** ** Scoring *)

Lemma orZero_default (x : option Z) : ScoringEngine.orZero x = default 0 x.
Proof. destruct x as [v|]; cbn; [|done]. destruct (Z.eqb_spec v 0); congruence. Qed.

Lemma Math_round_div_60 (n : Z) : ScoringEngine.Math_round_div n 60 = nearestMinute n.
Proof.
  unfold ScoringEngine.Math_round_div, nearestMinute.
  replace (2 * n + 60) with ((n + 30) * 2) by lia.
  replace (2 * 60) with (60 * 2) by lia.
  by rewrite Z.div_mul_cancel_r by lia.
Qed.

Lemma Math_round_div_1 (n : Z) : ScoringEngine.Math_round_div n 1 = n.
Proof.
  unfold ScoringEngine.Math_round_div.
  replace (2 * n + 1) with (1 + n * 2) by lia.
  rewrite Z.div_add by lia. reflexivity.
Qed.

Lemma nearestMinute_nearest (n : Z) :
  60 * nearestMinute n - 30 <= n < 60 * nearestMinute n + 30.
Proof.
  unfold nearestMinute.
  pose proof (Z.div_mod (n + 30) 60 ltac:(lia)).
  pose proof (Z.mod_pos_bound (n + 30) 60 ltac:(lia)). lia.
Qed.

(** C5: for every session input, missing fields read as 0 (and a missing
    [interrupted] as false), [calcFocusScore] is 100 - 5 per tab switch
    - 10 per distraction visit - round (distractionSeconds / 60)
    + 10 when not interrupted, clamped to [0, 100]; the rounded minutes are
    the nearest integer; the result is an integer in [0, 100]; and 2 tab
    switches, 1 visit, 180 distracted seconds in an interrupted session
    score exactly 77, labelled "Focused". *)
Theorem calcFocusScore_formula :
  (forall m : ScoringEngine.SessionMetrics,
     ScoringEngine.calcFocusScore m =
       formulaScore (default 0 (ScoringEngine.m_tabSwitchCount m))
                    (default 0 (ScoringEngine.m_distractionVisits m))
                    (default 0 (ScoringEngine.m_distractionSeconds m))
                    (default false (ScoringEngine.m_interrupted m))
     /\ 0 <= ScoringEngine.calcFocusScore m <= 100)
  /\ (forall seconds : Z,
        60 * nearestMinute seconds - 30 <= seconds < 60 * nearestMinute seconds + 30)
  /\ ScoringEngine.r_score
       (ScoringEngine.score (ScoringEngine.mkMetrics (Some 2) (Some 1) (Some 180) (Some true)))
     = 77
  /\ ScoringEngine.r_qualityLabel
       (ScoringEngine.score (ScoringEngine.mkMetrics (Some 2) (Some 1) (Some 180) (Some true)))
     = "Focused".
Proof.
  split; [|split; [exact nearestMinute_nearest | split; reflexivity]].
  intros [ts dv ds i]. unfold ScoringEngine.calcFocusScore, formulaScore. cbn [
    ScoringEngine.m_tabSwitchCount ScoringEngine.m_distractionVisits
    ScoringEngine.m_distractionSeconds ScoringEngine.m_interrupted].
  rewrite !orZero_default, Math_round_div_1, Math_round_div_60.
  split; [|lia].
  destruct i as [[|]|]; cbn -[Z.mul Z.add Z.sub Z.max Z.min]; lia.
Qed.

(** ** Event bus *)

Section BusProofs.
Context {Env : Type}.
Implicit Types (b : EventBus.Bus Env) (hs : list (EventBus.SafeHandler Env)).

Lemma shrinks_refl b : shrinks b b.
Proof. repeat split. intros hookName hs' E. by exists hs'. Qed.

Lemma shrinks_trans b1 b2 b3 : shrinks b1 b2 -> shrinks b2 b3 -> shrinks b1 b3.
Proof.
  intros (Hn & He & Hp & Hr) (Hn' & He' & Hp' & Hr').
  split; [congruence|]. split; [congruence|]. split; [congruence|].
  intros hookName hs3 E3. destruct (Hr' _ _ E3) as (hs2 & E2 & H32).
  destruct (Hr _ _ E2) as (hs1 & E1 & H21). exists hs1. split; [done|]. auto.
Qed.

Lemma remove_first_elem hid hs (h : EventBus.SafeHandler Env) :
  h ∈ EventBus.remove_first hid hs -> h ∈ hs.
Proof.
  induction hs as [|x rest IH]; cbn; [done|].
  destruct (Nat.eqb _ _); intros Hin.
  - by right.
  - apply elem_of_cons in Hin as [->|Hin]; [left | right; auto].
Qed.

Lemma off_shrinks hookName hid b : shrinks b (EventBus.off hookName hid b).
Proof.
  unfold EventBus.off. destruct (EventBus._registry b !! hookName) as [l|] eqn:E;
    [|apply shrinks_refl].
  repeat split. cbn. intros hook' hs' E'.
  destruct (decide (hook' = hookName)) as [->|Hne].
  - rewrite lookup_alter_eq, E in E'. injection E' as <-.
    exists l. split; [done|]. apply remove_first_elem.
  - rewrite lookup_alter_ne in E' by done. by exists hs'.
Qed.

Lemma offs_shrinks (us : list (string * nat)) : forall b,
  shrinks b (foldl (fun acc '(hookName, hid) => EventBus.off hookName hid acc) b us).
Proof.
  induction us as [|[hookName hid] us IH]; intros b; [apply shrinks_refl|].
  cbn [foldl]. eapply shrinks_trans; [apply off_shrinks | apply IH].
Qed.

Lemma safeHandler_shrinks (h : EventBus.SafeHandler Env) payload b :
  shrinks b (EventBus.safeHandler h payload b).
Proof.
  unfold EventBus.safeHandler.
  destruct (EventBus.sh_fn h payload (EventBus.env b)) as [[e' thrown] us].
  assert (H0 : shrinks b (EventBus.mkBus (EventBus._registry b) (EventBus._plugins b) e'
                            (EventBus.console b) (EventBus.next_id b) (EventBus.emitted b)))
    by (by repeat split; [intros ? hs' ?; exists hs']).
  pose proof (shrinks_trans _ _ _ H0 (offs_shrinks us _)) as H1.
  destruct thrown; [|exact H1].
  eapply shrinks_trans; [exact H1|]. repeat split. intros ? hs' ?. by exists hs'.
Qed.

Lemma emit_from_shrinks hookName payload : forall fuel i b,
  shrinks b (EventBus.emit_from fuel i hookName payload b).
Proof.
  induction fuel as [|fuel IH]; intros i b; cbn [EventBus.emit_from];
    [apply shrinks_refl|].
  destruct (default [] (EventBus._registry b !! hookName) !! i) as [h|];
    [|apply shrinks_refl].
  eapply shrinks_trans; [apply safeHandler_shrinks | apply IH].
Qed.

(** Whatever the handlers do, [emit] adds its call to the trace, keeps
    the allocation counter, and leaves in every hook's list only handlers
    that were there. *)
Lemma emit_shrinks hookName payload b :
  let b' := (EventBus.emit hookName payload b).2 in
  EventBus.next_id b' = EventBus.next_id b
  /\ EventBus.emitted b' = EventBus.emitted b ++ [(hookName, payload)]
  /\ EventBus._plugins b' = EventBus._plugins b
  /\ forall hook hs', EventBus._registry b' !! hook = Some hs' ->
       exists hs, EventBus._registry b !! hook = Some hs
                  /\ forall h, h ∈ hs' -> h ∈ hs.
Proof.
  cbn zeta. unfold EventBus.emit. cbn [EventBus._registry].
  destruct (EventBus._registry b !! hookName) as [hs|] eqn:E; cbn [snd].
  - destruct (Nat.eqb (length hs) 0); cbn [snd].
    + repeat split. intros ? hs' ?. by exists hs'.
    + match goal with |- context [EventBus.emit_from ?f ?i _ _ ?b0] =>
        destruct (emit_from_shrinks hookName payload f i b0) as (Hn & He & Hp & Hr) end.
      split; [exact Hn|]. split; [exact He|]. split; [exact Hp|]. exact Hr.
  - repeat split. intros ? hs' ?. by exists hs'.
Qed.

Lemma emit_emitted hookName payload b :
  EventBus.emitted (EventBus.emit hookName payload b).2
  = EventBus.emitted b ++ [(hookName, payload)].
Proof. apply emit_shrinks. Qed.

Lemma safeHandler_quiet (h : EventBus.SafeHandler Env) payload b :
  (EventBus.sh_fn h payload (EventBus.env b)).2 = [] ->
  EventBus.safeHandler h payload b
  = EventBus.mkBus (EventBus._registry b) (EventBus._plugins b)
      (dispatchEnv payload (EventBus.env b) [h])
      (EventBus.console b ++ dispatchLog payload (EventBus.env b) [h])
      (EventBus.next_id b) (EventBus.emitted b).
Proof.
  unfold EventBus.safeHandler, dispatchEnv. cbn [foldl dispatchLog].
  destruct (EventBus.sh_fn h payload (EventBus.env b)) as [[e' thrown] us].
  cbn [fst snd]. intros ->. cbn [foldl].
  destruct thrown; cbn; [done|]. by rewrite app_nil_r.
Qed.

Lemma emit_from_quiet hookName payload hs : quiet payload hs ->
  forall fuel i b,
    EventBus._registry b !! hookName = Some hs ->
    (length hs <= i + fuel)%nat ->
    EventBus.emit_from fuel i hookName payload b
    = EventBus.mkBus (EventBus._registry b) (EventBus._plugins b)
        (dispatchEnv payload (EventBus.env b) (drop i hs))
        (EventBus.console b ++ dispatchLog payload (EventBus.env b) (drop i hs))
        (EventBus.next_id b) (EventBus.emitted b).
Proof.
  intros Hq. induction fuel as [|fuel IH]; intros i b E Hlen.
  - rewrite drop_ge by lia. destruct b; cbn. by rewrite app_nil_r.
  - cbn [EventBus.emit_from]. rewrite E. simpl default.
    destruct (hs !! i) as [h|] eqn:Ei; cbv iota.
    + rewrite (drop_S _ _ _ Ei).
      rewrite safeHandler_quiet by (apply Hq; by eapply list_elem_of_lookup_2).
      rewrite IH; [|exact E|lia]. cbn [EventBus._registry EventBus._plugins EventBus.env
        EventBus.console EventBus.next_id EventBus.emitted].
      unfold dispatchEnv. cbn [foldl dispatchLog].
      destruct (EventBus.sh_fn h payload (EventBus.env b)) as [[e' [err|]] us]; cbn.
      * by rewrite <- app_assoc.
      * by rewrite app_nil_r.
    + apply lookup_ge_None in Ei. rewrite drop_ge by lia.
      destruct b; cbn. by rewrite app_nil_r.
Qed.

(** With handlers that unsubscribe nothing, [emit] is a fold over the
    hook's list. *)
Lemma emit_spec hookName payload b :
  quiet payload (default [] (EventBus._registry b !! hookName)) ->
  EventBus.emit hookName payload b =
  let hs := default [] (EventBus._registry b !! hookName) in
  (Z.of_nat (length hs),
   EventBus.mkBus (EventBus._registry b) (EventBus._plugins b)
     (dispatchEnv payload (EventBus.env b) hs)
     (EventBus.console b ++ dispatchLog payload (EventBus.env b) hs)
     (EventBus.next_id b) (EventBus.emitted b ++ [(hookName, payload)])).
Proof.
  intros Hq. unfold EventBus.emit. cbn [EventBus._registry].
  destruct (EventBus._registry b !! hookName) as [hs|] eqn:E; cbn [default] in *.
  - destruct hs as [|h rest]; [cbn; by rewrite app_nil_r|].
    cbn [length Nat.eqb].
    rewrite (emit_from_quiet hookName payload (h :: rest) Hq); [|exact E|cbn; lia].
    cbn [EventBus._registry]. rewrite E. reflexivity.
  - cbn. by rewrite app_nil_r.
Qed.
End BusProofs.

(** C6 (what the code does): [emit] walks the hook's array as it is at
    each step.  With handlers that call no unsubscribe function during
    the dispatch it does what the claim says: every handler of the list
    runs once, in list order (which is registration order, [on] appending
    at the end), each on the state its predecessor left, whether or not a
    predecessor threw; every thrown error ends as one console error line;
    [emit] returns the number of handlers; the registry is unchanged.
    But when a handler unsubscribes itself during the dispatch, the
    handler registered after it is shifted into its place and is never
    called: of two subscribers to the tick hook, the first unsubscribing
    itself, only the first runs, [emit] returns 1, and the second runs
    only at the next emit. *)
Theorem emit_skips_handler_after_unsubscribe {Env}
    (hookName : string) (payload : EventBus.Payload) (b : EventBus.Bus Env) :
  let hs := default [] (EventBus._registry b !! hookName) in
  let r := EventBus.emit hookName payload b in
  (quiet payload hs ->
   r.1 = Z.of_nat (length hs)
   /\ r.1 = EventBus.handlerCount hookName b
   /\ EventBus.env r.2 = dispatchEnv payload (EventBus.env b) hs
   /\ EventBus.console r.2 = EventBus.console b ++ dispatchLog payload (EventBus.env b) hs
   /\ EventBus._registry r.2 = EventBus._registry b)
  /\ (forall fn : EventBus.Handler Env,
        EventBus._registry (EventBus.on hookName fn b).2 !! hookName =
        (fun l => l ++ [EventBus.mkSafe (EventBus.next_id b) "internal" hookName fn])
          <$> (EventBus._registry b !! hookName))
  /\ (let b0 := EventBus.initial_bus [] in
      let b1 := (EventBus.on EventBus.HOOKS.TICK
                   (runsOnce "first" EventBus.HOOKS.TICK 0) b0) in
      let b2 := (EventBus.on EventBus.HOOKS.TICK (recording "second") b1.2).2 in
      let r1 := EventBus.emit EventBus.HOOKS.TICK EventBus.PEmpty b2 in
      let r2 := EventBus.emit EventBus.HOOKS.TICK EventBus.PEmpty r1.2 in
      b1.1 = Some 0%nat
      /\ EventBus.handlerCount EventBus.HOOKS.TICK b2 = 2
      /\ r1.1 = 1 /\ EventBus.env r1.2 = ["first"]
      /\ r2.1 = 1 /\ EventBus.env r2.2 = ["first"; "second"]).
Proof.
  cbn zeta. split; [|split].
  - intros Hq. rewrite emit_spec by exact Hq.
    cbn [fst snd EventBus.env EventBus.console EventBus._registry].
    repeat split.
    unfold EventBus.handlerCount. by destruct (EventBus._registry b !! hookName).
  - intros fn. unfold EventBus.on.
    destruct (EventBus._registry b !! hookName) as [l|] eqn:E; cbn.
    + rewrite lookup_alter_eq, E. reflexivity.
    + exact E.
  - vm_compute. repeat split; reflexivity.
Qed.

(** Two recording subscribers, neither of which unsubscribes. *)
Lemma emit_skips_handler_after_unsubscribe_witness :
  let b0 := EventBus.initial_bus [] in
  let b1 := (EventBus.on EventBus.HOOKS.TICK (recording "first") b0).2 in
  let b2 := (EventBus.on EventBus.HOOKS.TICK (recording "second") b1).2 in
  EventBus.env (EventBus.emit EventBus.HOOKS.TICK EventBus.PEmpty b2).2
  = ["first"; "second"].
Proof.
  cbn zeta.
  refine (eq_trans (proj1 (proj2 (proj2 (proj1
            (emit_skips_handler_after_unsubscribe EventBus.HOOKS.TICK EventBus.PEmpty
               (EventBus.on EventBus.HOOKS.TICK (recording "second")
                  (EventBus.on EventBus.HOOKS.TICK (recording "first")
                     (EventBus.initial_bus [])).2).2) _)))) _);
    [|vm_compute; reflexivity].
  intros h e Hin. vm_compute in Hin.
  inversion Hin as [|? ? ? Hin']; subst; [reflexivity|].
  inversion Hin' as [|? ? ? Hin'']; subst; [reflexivity|]. inversion Hin''.
Defined.

(** The scenario of the bus contract: a throwing subscriber registered
    before a recording one does not keep the second from running, and the
    emitter gets the handler count back. *)
Example emit_isolates_throwing_handler :
  let b0 := EventBus.initial_bus [] in
  let b1 := (EventBus.on EventBus.HOOKS.SESSION_END throwing b0).2 in
  let b2 := (EventBus.on EventBus.HOOKS.SESSION_END (recording "second") b1).2 in
  let r := EventBus.emit EventBus.HOOKS.SESSION_END EventBus.PEmpty b2 in
  r.1 = 2 /\ EventBus.env r.2 = ["second"] /\ length (EventBus.console r.2) = 1%nat.
Proof. vm_compute. done. Qed.

(** ** Timer engine *)

(** C10: in every world, [reset] returns and stores a state without
    pending reflection, whatever reflection was pending before, and keeps
    the configured duration. *)
Theorem reset_clears_pendingReflection {Env} (w : World Env) :
  pendingReflection (TimerEngine.reset w).1 = None
  /\ pendingReflection (stateOf (TimerEngine.reset w).2) = None
  /\ duration (TimerEngine.reset w).1 = duration (stateOf w)
  /\ duration (stateOf (TimerEngine.reset w).2) = duration (stateOf w).
Proof. rewrite reset_run. cbn. done. Qed.

(** A reflection that the user has not consumed is gone after [reset]. *)
Example reset_drops_unconsumed_reflection :
  pendingReflection
    (stateOf (TimerEngine.complete (hostAt (t0 + 300000)) fiveMinuteSession).2) <> None
  /\ pendingReflection
       (stateOf (TimerEngine.reset
                   (TimerEngine.complete (hostAt (t0 + 300000)) fiveMinuteSession).2).2)
     = None.
Proof. split; [vm_compute; discriminate | vm_compute; reflexivity]. Qed.

(** C7: [recover] leaves a world whose timer is not running untouched and
    returns its state.  For a running timer it recomputes
    remaining = max (0, duration - (floor ((now - startedAt) / 1000)
    + elapsedBeforePause)); when that is 0 the outcome is that of a single
    [complete]: the timer is idle with the reflection pending and the
    history is the old one with the finalised session appended (below the
    cap of 200, exactly one entry longer); otherwise the recomputed
    remaining is stored, nothing else of the state changes, the history is
    untouched, and the completion wake-up (remaining seconds out) and the
    one-minute tick are scheduled. *)
Theorem recover_reconciles {Env} (h : Host) (w : World Env) :
  let st := stateOf w in
  let rem := Z.max 0 (duration st
                      - ((now h - default 0 (startedAt st)) / 1000 + elapsedBeforePause st)) in
  let finalised :=
    SessionManager.completedRecord h (sessionToFinalise h st) (duration st) in
  (status st <> running -> TimerEngine.recover h w = (st, w))
  /\ (status st = running -> rem <= 0 ->
      TimerEngine.recover h w = ((TimerEngine.complete h w).1.1, (TimerEngine.complete h w).2)
      /\ (TimerEngine.recover h w).1 = stateAfterComplete h st
      /\ stateOf (TimerEngine.recover h w).2 = stateAfterComplete h st
      /\ historyOf (TimerEngine.recover h w).2 = appended (historyOf w) finalised
      /\ ((length (historyOf w) < 200)%nat ->
          historyOf (TimerEngine.recover h w).2 = historyOf w ++ [finalised]))
  /\ (status st = running -> 0 < rem ->
      (TimerEngine.recover h w).1 = withRemaining rem st
      /\ stateOf (TimerEngine.recover h w).2 = withRemaining rem st
      /\ historyOf (TimerEngine.recover h w).2 = historyOf w
      /\ alarms (TimerEngine.recover h w).2 = scheduled rem (alarms w)
      /\ alarms (TimerEngine.recover h w).2 !! TimerEngine.ALARMS.COMPLETE
         = Some (mkAlarm (Some (Qmake rem 60)) None)
      /\ alarms (TimerEngine.recover h w).2 !! TimerEngine.ALARMS.TICK
         = Some (mkAlarm None (Some (Qmake 1 1)))).
Proof.
  cbn zeta. split; [apply recover_skip|]. split.
  - intros Hs Hr. rewrite (recover_expired h w Hs Hr).
    destruct (complete_run h w) as (ds & wk & b & ->). cbn.
    repeat split.
    intros Hlen. unfold appended. rewrite length_app. cbn [length].
    destruct (Nat.ltb_spec 200 (length (historyOf w) + 1)); [lia|done].
  - intros Hs Hr. rewrite (recover_run h w Hs Hr). cbn.
    repeat split.
    + rewrite lookup_insert_ne by done. by rewrite lookup_insert_eq.
    + by rewrite lookup_insert_eq.
Qed.

(** A 10-minute gap on a 5-minute session; two minutes into it; and an
    idle profile. *)
Lemma recover_reconciles_witness :
  length (historyOf (TimerEngine.recover (hostAt (t0 + 600000)) fiveMinuteSession).2) = 1%nat
  /\ status (stateOf (TimerEngine.recover (hostAt (t0 + 600000)) fiveMinuteSession).2) = idle
  /\ remaining (TimerEngine.recover (hostAt (t0 + 120000)) fiveMinuteSession).1 = 180
  /\ TimerEngine.recover (hostAt t0) freshWorld = (StorageAdapter.defaultState, freshWorld).
Proof.
  pose proof (recover_reconciles (hostAt (t0 + 600000)) fiveMinuteSession) as (_ & H1 & _).
  pose proof (recover_reconciles (hostAt (t0 + 120000)) fiveMinuteSession) as (_ & _ & H2).
  pose proof (recover_reconciles (hostAt t0) freshWorld) as (H3 & _).
  destruct H1 as (_ & _ & E1 & _ & E2); [reflexivity | vm_compute; discriminate |].
  destruct H2 as (E3 & _); [reflexivity | reflexivity |].
  split; [rewrite E2; [reflexivity | vm_compute; lia] |].
  split; [rewrite E1; reflexivity |].
  split; [rewrite E3; reflexivity |].
  apply H3. discriminate.
Defined.

(** C8: pausing a running timer at one instant and resuming it at any
    other leaves the remaining time where the pause recorded it:
    [elapsedBeforePause] takes the elapsed time up to the pause,
    [startedAt] becomes the resume instant, and the remaining time
    recomputed at the resume instant is the one recorded at the pause,
    whatever the length of the gap. *)
Theorem pause_resume_keeps_remaining {Env} (h1 h2 : Host) (w : World Env) :
  status (stateOf w) = running ->
  let st := stateOf w in
  let elapsed := (now h1 - default 0 (startedAt st)) / 1000 + elapsedBeforePause st in
  let st1 := stateOf (TimerEngine.pause h1 w).2 in
  let st2 := stateOf (TimerEngine.resume h2 (TimerEngine.pause h1 w).2).2 in
  status st1 = paused
  /\ elapsedBeforePause st1 = elapsed
  /\ remaining st1 = Z.max 0 (duration st - elapsed)
  /\ status st2 = running
  /\ startedAt st2 = Some (now h2)
  /\ elapsedBeforePause st2 = elapsed
  /\ duration st2 = duration st
  /\ remaining st2 = remaining st1
  /\ Z.max 0 (duration st2
              - ((now h2 - default 0 (startedAt st2)) / 1000 + elapsedBeforePause st2))
     = remaining st1.
Proof.
  intros Hs. cbn zeta. rewrite (pause_run h1 w Hs).
  cbn [snd]. rewrite resume_run by reflexivity. cbn.
  unfold TimerEngine.remainingAt, TimerEngine.elapsedAt, TimerEngine.toNumber.
  repeat split.
  rewrite Z.sub_diag. cbn. reflexivity.
Qed.

(** A session paused two minutes in and resumed an hour later. *)
Lemma pause_resume_keeps_remaining_witness :
  remaining
    (stateOf (TimerEngine.resume (hostAt (t0 + 3720000))
                (TimerEngine.pause (hostAt (t0 + 120000))
                   (TimerEngine.start (hostAt t0) 1500 freshWorld).2).2).2)
  = 1380.
Proof.
  pose proof (pause_resume_keeps_remaining (hostAt (t0 + 120000)) (hostAt (t0 + 3720000))
                (TimerEngine.start (hostAt t0) 1500 freshWorld).2) as H.
  destruct H as (_ & _ & E1 & _ & _ & _ & _ & E2 & _); [reflexivity|].
  rewrite E2, E1. reflexivity.
Defined.

Section Invariant.
Context {Env : Type}.
Implicit Types (w : World Env) (h : Host).

Lemma start_state h d w :
  status (stateOf (TimerEngine.start h d w).2) = running.
Proof. unfold TimerEngine.start. run. rewrite !emit_run. reflexivity. Qed.

Lemma complete_state h w :
  stateOf (TimerEngine.complete h w).2 = stateAfterComplete h (stateOf w).
Proof. by destruct (complete_run h w) as (ds & wk & b & ->). Qed.

Lemma tick_state h w :
  status (stateOf w) = running ->
  status (stateOf (TimerEngine.tick h w).2) = running
  \/ exists st, stateOf (TimerEngine.tick h w).2 = stateAfterComplete h st.
Proof.
  intros Hs. unfold TimerEngine.tick. run.
  rewrite bool_decide_eq_true_2 by done. cbn. rewrite emit_run. cbn.
  destruct (Z.leb _ 0).
  - right. match goal with |- context [TimerEngine.complete h ?w0] =>
      destruct (complete_run h w0) as (ds & wk & b & ->) end.
    cbn. by eexists.
  - left. cbn. exact Hs.
Qed.

Lemma enterDistraction_state h tabId url w :
  status (stateOf (DistractionTracking.enterDistraction h tabId url w).2)
    = status (stateOf w)
  /\ (currentSession (stateOf w) = None ->
      currentSession (stateOf (DistractionTracking.enterDistraction h tabId url w).2)
        = None).
Proof.
  unfold DistractionTracking.enterDistraction. run.
  destruct (currentSession (stateOf w)) as [s|] eqn:E; cbn.
  - rewrite emit_run. cbn. done.
  - done.
Qed.

Lemma leaveDistraction_state h w :
  status (stateOf (DistractionTracking.leaveDistraction h w).2) = status (stateOf w)
  /\ (currentSession (stateOf w) = None ->
      currentSession (stateOf (DistractionTracking.leaveDistraction h w).2) = None).
Proof.
  unfold DistractionTracking.leaveDistraction, DistractionTracking._leaveDistraction. run.
  destruct (_distractionStart (tracker w)) as [t|]; cbn; fold_views; [|done].
  destruct (currentSession (stateOf w)) as [s|] eqn:E; cbn; done.
Qed.

Lemma perform_preserves h op w :
  idleHasNoSession (stateOf w) -> idleHasNoSession (stateOf (perform h op w)).
Proof.
  intros Hinv. unfold idleHasNoSession in *.
  destruct op as [d| | | | | | |tabId url|]; cbn [perform].
  - rewrite start_state. discriminate.
  - destruct (decide (status (stateOf w) = running)) as [Hs|Hs].
    + rewrite (pause_run h w Hs). cbn. discriminate.
    + by rewrite (pause_skip h w Hs).
  - destruct (decide (status (stateOf w) = paused)) as [Hs|Hs].
    + rewrite (resume_run h w Hs). cbn. discriminate.
    + by rewrite (resume_skip h w Hs).
  - rewrite reset_run. cbn. done.
  - destruct (decide (status (stateOf w) = running)) as [Hs|Hs].
    + destruct (tick_state h w Hs) as [-> | [st ->]]; [discriminate | done].
    + by rewrite (tick_skip h w Hs).
  - rewrite complete_state. done.
  - destruct (decide (status (stateOf w) = running)) as [Hs|Hs].
    + destruct (Z.le_gt_cases (TimerEngine.remainingAt (now h) (stateOf w)) 0) as [Hr|Hr].
      * rewrite (recover_expired h w Hs Hr). cbn [snd]. rewrite complete_state. done.
      * rewrite (recover_run h w Hs Hr). cbn. by rewrite Hs.
    + by rewrite (recover_skip h w Hs).
  - destruct (enterDistraction_state h tabId url w) as [-> Hc]. auto.
  - destruct (leaveDistraction_state h w) as [-> Hc]. auto.
Qed.
End Invariant.

(** ** Distraction tracking *)

(** C3 (what the code does): pausing a running session through the
    message router while a distraction interval is open marks the session
    interrupted, stores the paused state and cancels both wake-ups, but
    leaves the interval open and the session's [distractionSeconds]
    unchanged. *)
Theorem pause_leaves_interval_open {Env} (h : Host) (w : World Env)
    (s : SessionObject) (opened : Z) :
  status (stateOf w) = running ->
  currentSession (stateOf w) = Some s ->
  _distractionStart (tracker w) = Some opened ->
  let w' := (Background._handleMessage h Background.MsgPause w).2 in
  tracker w' = tracker w
  /\ DistractionTracking.isInDistraction w' = true
  /\ status (stateOf w') = paused
  /\ currentSession (stateOf w') = Some (SessionManager.markInterrupted s)
  /\ distractionSeconds (SessionManager.markInterrupted s) = distractionSeconds s
  /\ interrupted (SessionManager.markInterrupted s) = true
  /\ alarms w' = cancelled (alarms w).
Proof.
  intros Hs Hc Ho. cbn zeta.
  unfold Background._handleMessage, mbind, M_bind.
  rewrite (pause_run h w Hs).
  match goal with |- context [SessionManager.getDailyStats h ?w0] =>
    destruct (getDailyStats_run h w0) as [ds ->] end.
  cbn. rewrite Hc. unfold DistractionTracking.isInDistraction. cbn. rewrite Ho.
  repeat split.
Qed.

(** The distracted session, paused 30 seconds after the distracting tab
    was entered: the interval is still open and no second was added. *)
Lemma pause_leaves_interval_open_witness :
  DistractionTracking.isInDistraction
    (Background._handleMessage (hostAt (t0 + 90000)) Background.MsgPause
       distractedSession).2 = true
  /\ (distractionSeconds
        <$> currentSession
              (stateOf (Background._handleMessage (hostAt (t0 + 90000)) Background.MsgPause
                          distractedSession).2)) = Some 0.
Proof.
  pose proof (pause_leaves_interval_open (hostAt (t0 + 90000)) distractedSession
                (SessionManager.recordDistractionVisit
                   (SessionManager.createSession (hostAt t0) 1500) "youtube.com")
                (t0 + 60000)) as H.
  destruct H as (_ & E1 & _ & E2 & _); [reflexivity | reflexivity | reflexivity |].
  split; [exact E1 | rewrite E2; reflexivity].
Defined.

(** What the flush would have recorded, and what the open interval costs
    later: leaving the distracting tab ten seconds after a five-minute
    pause charges the session 340 seconds, the pause included. *)
Example pause_without_flush_divergence :
  (distractionSeconds
     <$> currentSession
           (stateOf (TimerEngine.pause (hostAt (t0 + 90000))
                       (DistractionTracking.leaveDistraction (hostAt (t0 + 90000))
                          distractedSession).2).2)) = Some 30
  /\ (distractionSeconds
        <$> currentSession
              (stateOf
                 (DistractionTracking.leaveDistraction (hostAt (t0 + 400000))
                    (Background._handleMessage (hostAt (t0 + 390000)) Background.MsgResume
                       (Background._handleMessage (hostAt (t0 + 90000)) Background.MsgPause
                          distractedSession).2).2).2)) = Some 340.
Proof. split; vm_compute; reflexivity. Qed.

(** C4 (as amended): [enterDistraction] always opens the interval at now
    for the given tab.  Without a current session it does nothing else:
    storage, and so every session counter, is untouched and nothing is
    emitted.  With a current session it stores the session with
    [distractionVisits] one higher and [lastDistractionDomain] set to the
    URL's domain, every other field of the state and of the session as it
    was, and emits the distraction hook once with that domain and the tab
    id. *)
Theorem enterDistraction_effect {Env} (h : Host) (tabId : Z) (url : string)
    (w : World Env) :
  let w' := (DistractionTracking.enterDistraction h tabId url w).2 in
  let domain := DistractionTracking.extractDomain h url in
  tracker w' = mkTracker (Some (now h)) (Some tabId)
  /\ (currentSession (stateOf w) = None ->
      storage w' = storage w /\ bus w' = bus w
      /\ alarms w' = alarms w /\ badge w' = badge w)
  /\ (forall s : SessionObject,
      currentSession (stateOf w) = Some s ->
      stateOf w' = withSession (SessionManager.recordDistractionVisit s domain) (stateOf w)
      /\ distractionVisits (SessionManager.recordDistractionVisit s domain)
         = distractionVisits s + 1
      /\ lastDistractionDomain (SessionManager.recordDistractionVisit s domain)
         = Some domain
      /\ distractionSeconds (SessionManager.recordDistractionVisit s domain)
         = distractionSeconds s
      /\ tabSwitchCount (SessionManager.recordDistractionVisit s domain)
         = tabSwitchCount s
      /\ bus w' = (EventBus.emit EventBus.HOOKS.DISTRACTION
                     (EventBus.PDistraction domain tabId) (bus w)).2
      /\ EventBus.emitted (bus w')
         = EventBus.emitted (bus w)
           ++ [(EventBus.HOOKS.DISTRACTION, EventBus.PDistraction domain tabId)]).
Proof.
  cbn zeta. unfold DistractionTracking.enterDistraction. run.
  destruct (currentSession (stateOf w)) as [s0|] eqn:E; cbn.
  - rewrite emit_run. cbn. split; [done|]. split; [done|].
    intros s [= <-]. rewrite emit_emitted.
    unfold withSession, StorageAdapter.spread. cbn. done.
  - split; [done|]. split; [|done]. intros _. by destruct w as [[] ? ? ? ?].
Qed.

(** An idle profile, and the running 25-minute session. *)
Lemma enterDistraction_effect_witness :
  storage (DistractionTracking.enterDistraction (hostAt t0) 7
             "https://www.youtube.com/watch" freshWorld).2 = storage freshWorld
  /\ (distractionVisits
        <$> currentSession (stateOf distractedSession)) = Some 1
  /\ (lastDistractionDomain
        <$> currentSession (stateOf distractedSession)) = Some (Some "youtube.com").
Proof.
  pose proof (enterDistraction_effect (hostAt t0) 7 "https://www.youtube.com/watch"
                freshWorld) as (_ & H1 & _).
  pose proof (enterDistraction_effect (hostAt (t0 + 60000)) 7
                "https://www.youtube.com/watch"
                (TimerEngine.start (hostAt t0) 1500 freshWorld).2) as (_ & _ & H2).
  destruct H1 as (E1 & _); [reflexivity|].
  destruct (H2 (SessionManager.createSession (hostAt t0) 1500)) as (E2 & _); [reflexivity|].
  split; [exact E1|].
  unfold distractedSession. rewrite E2. split; reflexivity.
Defined.

(** C4, as stated, fails: on an idle profile, with no session, the call
    opens a distraction interval. *)
Lemma enterDistraction_without_session_opens_interval :
  currentSession (stateOf freshWorld) = None
  /\ DistractionTracking.isInDistraction freshWorld = false
  /\ DistractionTracking.isInDistraction
       (DistractionTracking.enterDistraction (hostAt t0) 7
          "https://www.youtube.com/watch" freshWorld).2 = true
  /\ tracker (DistractionTracking.enterDistraction (hostAt t0) 7
                "https://www.youtube.com/watch" freshWorld).2
     = mkTracker (Some t0) (Some 7).
Proof. repeat split. Qed.

(** ** Rollover keys *)

(** C2 (what the code does): on a host one hour east of UTC, at
    2023-12-31T23:30:00Z, the local calendar says Monday 2024-01-01, but
    the daily key is the UTC date 2023-12-31, the weekly anchor is
    2023-12-31 (a Sunday) where the local Monday is 2024-01-01, and the
    streak is continued from a record dated 2023-12-30, not from the
    local yesterday 2023-12-31. *)
Theorem rollover_keys_follow_utc_date :
  SessionManager._todayKey hostNewYear = "2023-12-31"
  /\ InsightsEngine._localISODate hostNewYear (now hostNewYear) = "2024-01-01"
  /\ StorageAdapter._weekKey hostNewYear = "2023-12-31"
  /\ InsightsEngine._localWeekAnchor hostNewYear (now hostNewYear) = "2024-01-01"
  /\ JsDate.getDay (utcOffsetMinutes hostNewYear) (now hostNewYear) = 1
  /\ JsDate.WeekDay (now hostNewYear) = 0
  /\ SessionManager._calcStreak hostNewYear (Some (mkStats "2023-12-31" 45 2 0 0 0 3)) = 0
  /\ SessionManager._calcStreak hostNewYear (Some (mkStats "2023-12-30" 45 2 0 0 0 3)) = 4.
Proof. repeat split; vm_compute; reflexivity. Qed.

(** * Further properties of the modelled code *)

(** ** Calendar arithmetic behind the rollover keys *)

Lemma civil_roundtrip (z k : Z) :
  let '(y, m, d) := JsDate.civil_from_days z in
  JsDate.days_from_civil y m k = z - d + k /\ 1 <= m <= 12 /\ 1 <= d <= 31.
Proof.
  unfold JsDate.civil_from_days, JsDate.days_from_civil.
  set (zz := z + 719468).
  set (era := zz / 146097).
  set (doe := zz - era * 146097).
  assert (Hdoe : 0 <= doe < 146097) by (subst doe era; Z.div_mod_to_equations; lia).
  set (yoe := (doe - doe / 1460 + doe / 36524 - doe / 146096) / 365).
  set (doy := doe - (365 * yoe + yoe / 4 - yoe / 100)).
  assert (Hb : 0 <= yoe <= 399 /\ 0 <= doy <= 365)
    by (subst doy yoe; Z.div_mod_to_equations; lia).
  set (mp := (5 * doy + 2) / 153).
  assert (Hmp : 0 <= mp <= 11) by (subst mp; Z.div_mod_to_equations; lia).
  assert (Hera : (yoe + era * 400) / 400 = era) by (Z.div_mod_to_equations; lia).
  destruct (Z.ltb_spec mp 10).
  - destruct (Z.leb_spec (mp + 3) 2); [lia|].
    destruct (Z.ltb_spec 2 (mp + 3)); [|lia].
    replace (mp + 3 - 3) with mp by lia.
    rewrite Hera. replace (yoe + era * 400 - era * 400) with yoe by lia.
    subst doy mp zz. Z.div_mod_to_equations. lia.
  - destruct (Z.leb_spec (mp - 9) 2); [|lia].
    destruct (Z.ltb_spec 2 (mp - 9)); [lia|].
    replace (mp - 9 + 9) with mp by lia.
    replace (yoe + era * 400 + 1 - 1) with (yoe + era * 400) by lia.
    rewrite Hera. replace (yoe + era * 400 - era * 400) with yoe by lia.
    subst doy mp zz. Z.div_mod_to_equations. lia.
Qed.

Lemma setDate_keeps_local_time (tz : Z -> bool -> Z) (t k : Z) :
  JsDate.setDate tz t (JsDate.getDate tz t - k)
  = JsDate.UTC tz (JsDate.LocalTime tz t - k * JsDate.msPerDay).
Proof.
  unfold JsDate.setDate, JsDate.getDate, JsDate.YearFromTime, JsDate.MonthFromTime,
    JsDate.DateFromTime.
  set (lt := JsDate.LocalTime tz t).
  pose proof (civil_roundtrip (JsDate.Day lt) 1) as H.
  destruct (JsDate.civil_from_days (JsDate.Day lt)) as [[y m] d]. cbn [fst snd].
  destruct H as (H & _ & _).
  replace (m - 1 + 1) with m by lia. rewrite H. f_equal.
  unfold JsDate.TimeWithinDay, JsDate.Day, JsDate.msPerDay.
  Z.div_mod_to_equations. lia.
Qed.

Lemma setDate_shifts_whole_days (tz : Z -> bool -> Z) (t k : Z) :
  tz (JsDate.LocalTime tz t - k * JsDate.msPerDay) false = tz t true ->
  JsDate.setDate tz t (JsDate.getDate tz t - k) = t - k * JsDate.msPerDay.
Proof.
  intros Hz. rewrite setDate_keeps_local_time. unfold JsDate.UTC. rewrite Hz.
  unfold JsDate.LocalTime. lia.
Qed.

Lemma calcStreak_yesterday (h : Host) (prev : DailyStats) :
  SessionManager._calcStreak h (Some prev)
  = if String.eqb (date prev)
         (JsDate.slice0 10 (JsDate.toISOString (sameLocalTimeDaysBack h 1)))
       && (30 <=? totalFocusMinutes prev)
    then streak prev + 1 else 0.
Proof.
  unfold SessionManager._calcStreak, sameLocalTimeDaysBack.
  rewrite setDate_keeps_local_time. by rewrite Z.mul_1_l.
Qed.

(** X1: the weekly key is the UTC date of the instant at which the local
    clock read, k calendar days ago, what it reads now, k (0 to 6) being
    the days since the local Monday; the streak compares the stored date
    with the UTC date of the like instant one calendar day ago.  While the
    zone offset does not change in between, these are the instants
    exactly k whole days, and exactly 24 hours, before now, the first a
    Monday in local time whose local date is the insights engine's week
    anchor; month and year boundaries make no difference.  Across a
    daylight-saving change they are not: in New York at 19:30 on Sunday
    2024-03-10 the weekly key is 2024-03-05, where six whole days back it
    was 2024-03-04. *)
Theorem rollover_dates_keep_local_time (h : Host) :
  let tz := utcOffsetMinutes h in
  let k := (JsDate.getDay tz (now h) + 6) mod 7 in
  0 <= k <= 6
  /\ StorageAdapter._weekKey h
     = JsDate.slice0 10 (JsDate.toISOString (sameLocalTimeDaysBack h k))
  /\ (forall prev : DailyStats,
        SessionManager._calcStreak h (Some prev)
        = if String.eqb (date prev)
               (JsDate.slice0 10 (JsDate.toISOString (sameLocalTimeDaysBack h 1)))
             && (30 <=? totalFocusMinutes prev)
          then streak prev + 1 else 0)
  /\ (sameOffsetDaysBack h k ->
      sameLocalTimeDaysBack h k = now h - k * JsDate.msPerDay
      /\ JsDate.getDay tz (now h - k * JsDate.msPerDay) = 1
      /\ InsightsEngine._localWeekAnchor h (now h)
         = InsightsEngine._localISODate h (now h - k * JsDate.msPerDay))
  /\ (sameOffsetDaysBack h 1 ->
      sameLocalTimeDaysBack h 1 = now h - JsDate.msPerDay)
  /\ StorageAdapter._weekKey hostSpringForward = "2024-03-05"
  /\ JsDate.slice0 10
       (JsDate.toISOString (now hostSpringForward - 6 * JsDate.msPerDay)) = "2024-03-04".
Proof.
  cbn zeta. split; [Z.div_mod_to_equations; lia|]. split; [|split; [|split; [|split]]].
  - unfold StorageAdapter._weekKey, sameLocalTimeDaysBack.
    by rewrite setDate_keeps_local_time.
  - apply calcStreak_yesterday.
  - intros [Hl Hu]. cbn zeta in Hl, Hu.
    assert (E : sameLocalTimeDaysBack h ((JsDate.getDay (utcOffsetMinutes h) (now h) + 6) mod 7)
                = now h - (JsDate.getDay (utcOffsetMinutes h) (now h) + 6) mod 7
                          * JsDate.msPerDay).
    { unfold sameLocalTimeDaysBack, JsDate.UTC. rewrite Hl. unfold JsDate.LocalTime. lia. }
    split; [exact E|]. split.
    + unfold JsDate.getDay at 1. unfold JsDate.LocalTime at 1. rewrite Hu.
      unfold JsDate.getDay, JsDate.WeekDay, JsDate.Day, JsDate.LocalTime, JsDate.msPerDay,
        JsDate.msPerMinute.
      Z.div_mod_to_equations. lia.
    + unfold InsightsEngine._localWeekAnchor.
      by rewrite setDate_shifts_whole_days.
  - intros [Hl _]. cbn zeta in Hl.
    unfold sameLocalTimeDaysBack, JsDate.UTC. rewrite Z.mul_1_l in *. rewrite Hl.
    unfold JsDate.LocalTime. lia.
  - split; vm_compute; reflexivity.
Qed.

(** On the host one hour east of UTC, whose offset never changes. *)
Lemma rollover_dates_keep_local_time_witness :
  sameLocalTimeDaysBack hostNewYear 1 = now hostNewYear - JsDate.msPerDay.
Proof.
  refine (proj1 (proj2 (proj2 (proj2 (proj2
            (rollover_dates_keep_local_time hostNewYear))))) _).
  split; reflexivity.
Defined.

(** ** Scoring engine *)

(** X2: the quality label of any integer score follows the thresholds 90,
    70 and 40 exactly, negative scores included; and the label reported by
    [score] is the label of the score it reports. *)
Theorem qualityLabel_thresholds (s : Z) :
  ScoringEngine.qualityLabel s
  = (if 90 <=? s then "Deep Work"
     else if 70 <=? s then "Focused"
     else if 40 <=? s then "Fragmented"
     else "Distracted")
  /\ (forall m : ScoringEngine.SessionMetrics,
        ScoringEngine.r_qualityLabel (ScoringEngine.score m)
        = ScoringEngine.qualityLabel (ScoringEngine.r_score (ScoringEngine.score m))).
Proof.
  split; [|reflexivity].
  unfold ScoringEngine.qualityLabel, ScoringEngine.getTier, ScoringEngine.QUALITY_TIERS.
  cbn [List.find ScoringEngine.min].
  destruct (Z.leb_spec 90 s); [reflexivity|].
  destruct (Z.leb_spec 70 s); [reflexivity|].
  destruct (Z.leb_spec 40 s); [reflexivity|].
  destruct (Z.leb_spec 0 s); reflexivity.
Qed.

(** X3: with the interruption flag fixed, more tab switches, more
    distraction visits or more distracted seconds never raise the score. *)
Theorem calcFocusScore_antitone (ts ts' dv dv' ds ds' : Z) (i : option bool) :
  ts <= ts' -> dv <= dv' -> ds <= ds' ->
  ScoringEngine.calcFocusScore (ScoringEngine.mkMetrics (Some ts') (Some dv') (Some ds') i)
  <= ScoringEngine.calcFocusScore (ScoringEngine.mkMetrics (Some ts) (Some dv) (Some ds) i).
Proof.
  intros Hts Hdv Hds.
  unfold ScoringEngine.calcFocusScore. cbn [ScoringEngine.m_tabSwitchCount
    ScoringEngine.m_distractionVisits ScoringEngine.m_distractionSeconds
    ScoringEngine.m_interrupted].
  rewrite !orZero_default, !Math_round_div_1, !Math_round_div_60.
  unfold nearestMinute. simpl default.
  assert ((ds + 30) / 60 <= (ds' + 30) / 60) by (apply Z.div_le_mono; lia).
  destruct (ScoringEngine.falsy i); lia.
Qed.

(** Two tab switches, two visits and 210 seconds more, on a session that
    was not interrupted. *)
Lemma calcFocusScore_antitone_witness :
  ScoringEngine.calcFocusScore
    (ScoringEngine.mkMetrics (Some 3) (Some 2) (Some 240) (Some false))
  <= ScoringEngine.calcFocusScore
       (ScoringEngine.mkMetrics (Some 1) (Some 0) (Some 30) (Some false)).
Proof. apply (calcFocusScore_antitone 1 3 0 2 30 240 (Some false)); lia. Defined.

(** ** Event bus *)

Section BusExtras.
Context {Env : Type}.
Implicit Types (b : EventBus.Bus Env) (hs : list (EventBus.SafeHandler Env)).

Lemma remove_first_last hs (h : EventBus.SafeHandler Env) :
  (forall h', h' ∈ hs -> EventBus.sh_id h' <> EventBus.sh_id h) ->
  EventBus.remove_first (EventBus.sh_id h) (hs ++ [h]) = hs.
Proof.
  induction hs as [|x rest IH]; intros Hne; cbn.
  - by rewrite Nat.eqb_refl.
  - destruct (Nat.eqb_spec (EventBus.sh_id x) (EventBus.sh_id h)) as [E|_].
    + exfalso. apply (Hne x); [left | exact E].
    + f_equal. apply IH. intros h' Hin. apply Hne. by right.
Qed.

Lemma remove_first_subset hid hs h :
  h ∈ EventBus.remove_first hid hs -> h ∈ hs.
Proof.
  induction hs as [|x rest IH]; cbn; [done|].
  destruct (Nat.eqb _ _); intros Hin.
  - by right.
  - apply elem_of_cons in Hin as [->|Hin]; [left | right; auto].
Qed.

Lemma fresh_ids_push hookName (h : EventBus.SafeHandler Env) b :
  fresh_ids b -> (EventBus.sh_id h < EventBus.next_id b)%nat ->
  fresh_ids (EventBus.push_handler hookName h b).
Proof.
  intros Hf Hh k hs x. unfold EventBus.push_handler. cbn.
  destruct (decide (hookName = k)) as [->|Hne].
  - rewrite lookup_alter_eq.
    destruct (EventBus._registry b !! k) as [l|] eqn:E; cbn; [|done].
    intros [= <-] Hin. apply elem_of_app in Hin as [Hin|Hin].
    + by apply (Hf k l).
    + apply list_elem_of_singleton in Hin as ->. exact Hh.
  - rewrite lookup_alter_ne by done. apply Hf.
Qed.

Lemma fresh_ids_next b (b' : EventBus.Bus Env) :
  EventBus._registry b' = EventBus._registry b ->
  (EventBus.next_id b <= EventBus.next_id b')%nat ->
  fresh_ids b -> fresh_ids b'.
Proof.
  intros Hr Hn Hf k hs x Hk Hin. rewrite Hr in Hk.
  specialize (Hf k hs x Hk Hin). lia.
Qed.
End BusExtras.

(** X4: handler identities stay fresh and unsubscribing undoes
    subscribing.  No handler of a newly created bus, or of a bus after
    [on], [off] or [emit], carries an identity at or above the allocation
    counter; and on such a bus the token returned by [on], passed to
    [off], puts the registry back exactly as it was, leaving every other
    handler in place and in order. *)
Theorem on_off_roundtrip {Env} (hookName : string) (fn : EventBus.Handler Env)
    (b : EventBus.Bus Env) :
  (forall e : Env, fresh_ids (EventBus.initial_bus e))
  /\ (fresh_ids b ->
      fresh_ids (EventBus.on hookName fn b).2
      /\ (forall hid, fresh_ids (EventBus.off hookName hid b))
      /\ (forall payload, fresh_ids (EventBus.emit hookName payload b).2)
      /\ (forall tok,
            (EventBus.on hookName fn b).1 = Some tok ->
            EventBus._registry (EventBus.off hookName tok (EventBus.on hookName fn b).2)
            = EventBus._registry b)).
Proof.
  split.
  - intros e k hs x Hk Hin. unfold EventBus.initial_bus, EventBus.initial_registry in Hk.
    cbn [EventBus._registry] in Hk.
    apply elem_of_list_to_map_2 in Hk. apply list_elem_of_fmap in Hk as (y & [= -> ->] & _).
    by apply elem_of_nil in Hin.
  - intros Hf. repeat split.
    + unfold EventBus.on.
      destruct (EventBus._registry b !! hookName) as [l|] eqn:E; cbn.
      * apply fresh_ids_push; cbn; [|lia].
        eapply fresh_ids_next; [| |exact Hf]; cbn; [done|lia].
      * eapply fresh_ids_next; [| |exact Hf]; cbn; [done|lia].
    + intros hid. unfold EventBus.off.
      destruct (EventBus._registry b !! hookName) as [l|] eqn:E; [|done].
      intros k hs x. cbn.
      destruct (decide (hookName = k)) as [->|Hne].
      * rewrite lookup_alter_eq, E. cbn. intros [= <-] Hin.
        apply (Hf k l); [done|]. by eapply remove_first_subset.
      * rewrite lookup_alter_ne by done. apply Hf.
    + intros payload k hs x Hk Hin.
      destruct (emit_shrinks hookName payload b) as (Hn & _ & _ & Hr).
      destruct (Hr k hs Hk) as (hs0 & Hk0 & Hsub). rewrite Hn.
      apply (Hf k hs0); [exact Hk0 | by apply Hsub].
    + intros tok. unfold EventBus.on, EventBus.off.
      destruct (EventBus._registry b !! hookName) as [l|] eqn:E; cbn; [|done].
      intros [= <-]. rewrite lookup_alter_eq, E. cbn.
      apply map_eq. intros k.
      destruct (decide (hookName = k)) as [->|Hne].
      * rewrite !lookup_alter_eq, E. cbn. f_equal.
        apply (remove_first_last l (EventBus.mkSafe (EventBus.next_id b) "internal" k fn)).
        intros h' Hin. specialize (Hf k l h' E Hin). cbn. lia.
      * by rewrite !lookup_alter_ne.
Qed.

(** Subscribing twice to a fresh bus and unsubscribing the second
    handler. *)
Lemma on_off_roundtrip_witness :
  EventBus._registry
    (EventBus.off EventBus.HOOKS.TICK 1%nat
       (EventBus.on EventBus.HOOKS.TICK (recording "b")
          (EventBus.on EventBus.HOOKS.TICK (recording "a") (EventBus.initial_bus [])).2).2)
  = EventBus._registry
      (EventBus.on EventBus.HOOKS.TICK (recording "a") (EventBus.initial_bus [])).2.
Proof.
  pose proof (on_off_roundtrip EventBus.HOOKS.TICK (recording "a") (EventBus.initial_bus []))
    as (Hi & H0).
  destruct (H0 (Hi [])) as (Hf1 & _).
  pose proof (on_off_roundtrip EventBus.HOOKS.TICK (recording "b")
                (EventBus.on EventBus.HOOKS.TICK (recording "a") (EventBus.initial_bus [])).2)
    as (_ & H1).
  destruct (H1 Hf1) as (_ & _ & _ & H2).
  apply H2. reflexivity.
Defined.

Section PluginExtras.
Context {Env : Type}.
Implicit Types (b : EventBus.Bus Env).

Lemma log_fields l b :
  EventBus._registry (EventBus.log l b) = EventBus._registry b
  /\ EventBus._plugins (EventBus.log l b) = EventBus._plugins b
  /\ EventBus.env (EventBus.log l b) = EventBus.env b
  /\ EventBus.next_id (EventBus.log l b) = EventBus.next_id b.
Proof. done. Qed.

Lemma register_hooks_spec name (hooks : list (string * option (EventBus.Handler Env))) :
  forall n b,
    EventBus._plugins (EventBus.register_hooks name hooks n b).2 = EventBus._plugins b
    /\ EventBus.env (EventBus.register_hooks name hooks n b).2 = EventBus.env b
    /\ dom (EventBus._registry (EventBus.register_hooks name hooks n b).2)
       = dom (EventBus._registry b)
    /\ (forall k,
          length <$> (EventBus._registry (EventBus.register_hooks name hooks n b).2 !! k)
          = (fun hs => (length hs + entriesFor k hooks)%nat) <$> (EventBus._registry b !! k)).
Proof.
  induction hooks as [|[hookName handler] rest IH]; intros n b.
  - cbn. repeat split. intros k. destruct (EventBus._registry b !! k); cbn; [|done].
    f_equal. unfold entriesFor. cbn. lia.
  - cbn [EventBus.register_hooks].
    destruct (EventBus._registry b !! hookName) as [l|] eqn:E.
    + destruct handler as [fn|].
      * cbn. specialize (IH (n + 1)
          (EventBus.push_handler hookName (EventBus.mkSafe (EventBus.next_id b) name hookName fn)
             (EventBus.mkBus (EventBus._registry b) (EventBus._plugins b) (EventBus.env b)
                (EventBus.console b) (S (EventBus.next_id b)) (EventBus.emitted b)))).
        destruct IH as (IH1 & IH2 & IH3 & IH4). cbn in *.
        split; [done|]. split; [done|]. split; [by rewrite IH3, dom_alter_L|].
        intros k. rewrite IH4. unfold entriesFor. cbn [List.filter fst snd].
        destruct (decide (hookName = k)) as [->|Hne].
        -- rewrite lookup_alter_eq, E, String.eqb_refl. cbn. f_equal.
           rewrite length_app. cbn. lia.
        -- rewrite lookup_alter_ne by done.
           assert (String.eqb hookName k = false) as -> by by apply String.eqb_neq.
           cbn. reflexivity.
      * specialize (IH n (EventBus.log
          (EventBus.LogWarn ("[EventBus] Plugin " +:+ EventBus.dq +:+ name +:+ EventBus.dq +:+
             " hook " +:+ EventBus.dq +:+ hookName +:+ EventBus.dq +:+ " must be a function."))
          b)).
        destruct IH as (IH1 & IH2 & IH3 & IH4). cbn in *.
        split; [done|]. split; [done|]. split; [done|].
        intros k. rewrite IH4. unfold entriesFor. cbn [List.filter fst snd].
        by rewrite andb_false_r.
    + specialize (IH n (EventBus.log
        (EventBus.LogWarn ("[EventBus] Plugin " +:+ EventBus.dq +:+ name +:+ EventBus.dq +:+
           " tried to register unknown hook: " +:+ EventBus.dq +:+ hookName +:+ EventBus.dq))
        b)).
      cbv beta iota.
      destruct IH as (IH1 & IH2 & IH3 & IH4). cbn in *.
      split; [done|]. split; [done|]. split; [done|].
      intros k. rewrite IH4. unfold entriesFor. cbn [List.filter fst snd].
      destruct (decide (hookName = k)) as [->|Hne].
      * by rewrite E.
      * assert (String.eqb hookName k = false) as -> by by apply String.eqb_neq.
        reflexivity.
Qed.

Lemma existsb_plugin_app name (ps : list (string * EventBus.PluginMeta)) m :
  existsb (fun '(n, _) => String.eqb n name) (ps ++ [(name, m)]) = true.
Proof.
  rewrite existsb_app. cbn. rewrite String.eqb_refl. by rewrite orb_true_r.
Qed.

Lemma registerPlugin_invalid (plugin : EventBus.PluginDefinition Env) b :
  negb (EventBus.truthy (EventBus.pd_name plugin))
  || negb (EventBus.truthy (EventBus.pd_version plugin)) = true ->
  EventBus.registerPlugin plugin b
  = (false, EventBus.log
              (EventBus.LogWarn "[EventBus] registerPlugin: plugin must have name and version.")
              b).
Proof. intros Hn. unfold EventBus.registerPlugin. by rewrite Hn. Qed.

Lemma registerPlugin_duplicate (plugin : EventBus.PluginDefinition Env) b :
  negb (EventBus.truthy (EventBus.pd_name plugin))
  || negb (EventBus.truthy (EventBus.pd_version plugin)) = false ->
  existsb (fun '(n, _) => String.eqb n (default "" (EventBus.pd_name plugin)))
          (EventBus._plugins b) = true ->
  EventBus.registerPlugin plugin b
  = (false, EventBus.log
              (EventBus.LogWarn ("[EventBus] Plugin " +:+ EventBus.dq +:+
                                 default "" (EventBus.pd_name plugin) +:+ EventBus.dq +:+
                                 " is already registered."))
              b).
Proof. intros Hn Hd. unfold EventBus.registerPlugin. rewrite Hn. cbn zeta. by rewrite Hd. Qed.

Lemma registerPlugin_accepted (plugin : EventBus.PluginDefinition Env) b :
  negb (EventBus.truthy (EventBus.pd_name plugin))
  || negb (EventBus.truthy (EventBus.pd_version plugin)) = false ->
  existsb (fun '(n, _) => String.eqb n (default "" (EventBus.pd_name plugin)))
          (EventBus._plugins b) = false ->
  exists b1,
    EventBus._plugins b1
    = EventBus._plugins b
      ++ [(default "" (EventBus.pd_name plugin),
           EventBus.mkMeta (default "" (EventBus.pd_name plugin))
                           (default "" (EventBus.pd_version plugin)))]
    /\ EventBus.registerPlugin plugin b = (true, b1).
Proof.
  intros Hn Hd. unfold EventBus.registerPlugin. rewrite Hn. cbn zeta. rewrite Hd.
  pose proof (register_hooks_spec (default "" (EventBus.pd_name plugin))
                (default [] (EventBus.pd_hooks plugin)) 0 b) as (Hp & _).
  destruct (EventBus.register_hooks _ _ _ _) as [n b1]. cbn in Hp.
  eexists. split; [|reflexivity]. cbn. by rewrite Hp.
Qed.
End PluginExtras.

(** X5: a successful [registerPlugin] adds to each existing hook exactly as
    many handlers as the plugin's hook map has function-valued entries for
    it; entries naming an unknown hook or holding something that is not a
    function are skipped, and no hook name is ever added to the
    registry. *)
Theorem registerPlugin_counts {Env} (plugin : EventBus.PluginDefinition Env)
    (b : EventBus.Bus Env) (k : string) :
  (EventBus.registerPlugin plugin b).1 = true ->
  EventBus.handlerCount k (EventBus.registerPlugin plugin b).2
  = match EventBus._registry b !! k with
    | Some hs => Z.of_nat (length hs + entriesFor k (default [] (EventBus.pd_hooks plugin)))
    | None => 0
    end
  /\ dom (EventBus._registry (EventBus.registerPlugin plugin b).2)
     = dom (EventBus._registry b).
Proof.
  unfold EventBus.registerPlugin.
  destruct (negb _ || negb _); [discriminate|].
  destruct (existsb _ _); [discriminate|]. intros _.
  pose proof (register_hooks_spec (default "" (EventBus.pd_name plugin))
                (default [] (EventBus.pd_hooks plugin)) 0 b) as (_ & _ & Hd & Hc).
  destruct (EventBus.register_hooks _ _ _ _) as [n b1]. cbn in *.
  split; [|exact Hd].
  unfold EventBus.handlerCount. cbn. specialize (Hc k).
  destruct (EventBus._registry b1 !! k), (EventBus._registry b !! k); cbn in Hc;
    try discriminate; [|done].
  injection Hc as ->. reflexivity.
Qed.

(** The sample plugin on a fresh bus: two handlers on session end, none on
    tick, none on the hook that does not exist. *)
Lemma registerPlugin_counts_witness :
  EventBus.handlerCount EventBus.HOOKS.SESSION_END
    (EventBus.registerPlugin samplePlugin (EventBus.initial_bus [])).2 = 2
  /\ EventBus.handlerCount EventBus.HOOKS.TICK
       (EventBus.registerPlugin samplePlugin (EventBus.initial_bus [])).2 = 0
  /\ EventBus.handlerCount "onNothing"
       (EventBus.registerPlugin samplePlugin (EventBus.initial_bus [])).2 = 0.
Proof.
  destruct (registerPlugin_counts samplePlugin (EventBus.initial_bus [])
              EventBus.HOOKS.SESSION_END) as (E1 & _); [reflexivity|].
  destruct (registerPlugin_counts samplePlugin (EventBus.initial_bus [])
              EventBus.HOOKS.TICK) as (E2 & _); [reflexivity|].
  destruct (registerPlugin_counts samplePlugin (EventBus.initial_bus []) "onNothing")
    as (E3 & _); [reflexivity|].
  rewrite E1, E2, E3. repeat split.
Defined.

(** X6: a rejected [registerPlugin] (no name, no version, or a name already
    taken) changes nothing but the console; an accepted one lists the
    plugin last; and registering the same plugin a second time is always
    rejected. *)
Theorem registerPlugin_once {Env} (plugin : EventBus.PluginDefinition Env)
    (b : EventBus.Bus Env) :
  let r := EventBus.registerPlugin plugin b in
  (r.1 = false ->
     EventBus._registry r.2 = EventBus._registry b
     /\ EventBus._plugins r.2 = EventBus._plugins b
     /\ EventBus.env r.2 = EventBus.env b
     /\ exists line, EventBus.console r.2 = EventBus.console b ++ [EventBus.LogWarn line])
  /\ (r.1 = true ->
      EventBus.listPlugins r.2
      = EventBus.listPlugins b
        ++ [EventBus.mkMeta (default "" (EventBus.pd_name plugin))
                            (default "" (EventBus.pd_version plugin))])
  /\ (EventBus.registerPlugin plugin r.2).1 = false.
Proof.
  cbn zeta.
  destruct (negb (EventBus.truthy (EventBus.pd_name plugin))
            || negb (EventBus.truthy (EventBus.pd_version plugin))) eqn:Hn.
  { rewrite !(registerPlugin_invalid plugin _ Hn). cbn.
    split; [intros _; repeat split; by eexists|]. split; [discriminate|done]. }
  destruct (existsb (fun '(n, _) => String.eqb n (default "" (EventBus.pd_name plugin)))
              (EventBus._plugins b)) eqn:Hd.
  { rewrite (registerPlugin_duplicate plugin b Hn Hd). cbn.
    split; [intros _; repeat split; by eexists|]. split; [discriminate|].
    rewrite registerPlugin_duplicate; [done | exact Hn | exact Hd]. }
  destruct (registerPlugin_accepted plugin b Hn Hd) as (b1 & Hp & ->). cbn.
  split; [discriminate|]. split.
  - intros _. unfold EventBus.listPlugins. rewrite Hp, fmap_app. reflexivity.
  - rewrite registerPlugin_duplicate; [done|exact Hn|].
    rewrite Hp. apply existsb_plugin_app.
Qed.

(** The sample plugin registered twice, and a plugin without a name. *)
Lemma registerPlugin_once_witness :
  (EventBus.registerPlugin samplePlugin
     (EventBus.registerPlugin samplePlugin (EventBus.initial_bus [])).2).1 = false
  /\ EventBus.listPlugins (EventBus.registerPlugin samplePlugin (EventBus.initial_bus [])).2
     = [EventBus.mkMeta "logger" "1.0.0"]
  /\ EventBus._registry
       (EventBus.registerPlugin (@EventBus.mkPlugin (list string) None (Some "1") None)
          (EventBus.initial_bus [])).2
     = EventBus._registry (EventBus.initial_bus []).
Proof.
  pose proof (registerPlugin_once samplePlugin (EventBus.initial_bus [])) as (_ & H1 & H2).
  pose proof (registerPlugin_once (@EventBus.mkPlugin (list string) None (Some "1") None)
                (EventBus.initial_bus [])) as (H3 & _).
  split; [exact H2|]. split; [rewrite H1; reflexivity|].
  destruct H3 as (E & _); [reflexivity | exact E].
Defined.

(** ** Storage adapter *)

Lemma appended_facts (old : list SessionObject) (c : SessionObject) :
  length (appended old c) = Nat.min 200 (length old + 1)
  /\ last (appended old c) = Some c
  /\ appended old c `suffix_of` (old ++ [c]).
Proof.
  unfold appended. rewrite length_app. cbn [length].
  destruct (Nat.ltb_spec 200 (length old + 1)) as [Hlt|Hge].
  - split; [rewrite length_drop, length_app; cbn [length]; lia|]. split.
    + rewrite drop_app_le by lia. apply last_snoc.
    + apply suffix_drop.
  - split; [rewrite length_app; cbn [length]; lia|]. split; [apply last_snoc|done].
Qed.

(** X7: [appendSession] returns what it stores; the stored history is the
    old one with the session added at the end and, beyond 200 entries, the
    oldest dropped: it ends with the new session, is a suffix of the old
    history plus the session, and has min (200, old length + 1) entries.
    The timer state is not touched. *)
Theorem appendSession_cap {Env} (session : SessionObject) (w : World Env) :
  let r := StorageAdapter.appendSession session w in
  r.1 = historyOf r.2
  /\ length r.1 = Nat.min 200 (length (historyOf w) + 1)
  /\ last r.1 = Some session
  /\ r.1 `suffix_of` (historyOf w ++ [session])
  /\ stateOf r.2 = stateOf w.
Proof.
  cbn zeta. unfold StorageAdapter.appendSession. run.
  fold (appended (historyOf w) session).
  destruct (appended_facts (historyOf w) session) as (H1 & H2 & H3).
  done.
Qed.

Lemma spread_spread (st : FocusState) (p q : StatePatch) :
  StorageAdapter.spread (StorageAdapter.spread st p) q
  = StorageAdapter.spread st (StorageAdapter.patch_spread p q).
Proof.
  destruct q as [[?|] [?|] [?|] [?|] [?|] [?|] [?|] [?|]]; reflexivity.
Qed.

(** X8: two successive [patchState] calls amount to one call with the
    second patch spread over the first, key by key the later value
    winning; and the state a call returns is the state a reader then
    finds in storage. *)
Theorem patchState_compose {Env} (p q : StatePatch) (w : World Env) :
  StorageAdapter.patchState q (StorageAdapter.patchState p w).2
  = StorageAdapter.patchState (StorageAdapter.patch_spread p q) w
  /\ (StorageAdapter.patchState p w).1 = stateOf (StorageAdapter.patchState p w).2.
Proof.
  run. by rewrite spread_spread.
Qed.

(** X9: [getWeeklyData] always returns, and leaves in storage, a record
    whose [weekStart] is the current week key; asking again changes
    nothing; a stored record of the current week comes back as it is,
    and any other stored value, or none, gives a week without days. *)
Theorem getWeeklyData_rollover {Env} (h : Host) (w : World Env) :
  let r := StorageAdapter.getWeeklyData h w in
  weekStart r.1 = StorageAdapter._weekKey h
  /\ WEEKLY (storage r.2) = Some r.1
  /\ StorageAdapter.getWeeklyData h r.2 = r
  /\ (forall d, WEEKLY (storage w) = Some d ->
        weekStart d = StorageAdapter._weekKey h -> r = (d, w))
  /\ (forall d, WEEKLY (storage w) = Some d ->
        weekStart d <> StorageAdapter._weekKey h -> days r.1 = ∅)
  /\ (WEEKLY (storage w) = None -> days r.1 = ∅).
Proof.
  cbn zeta. destruct w as [[st ds ss [wk|]] al bd b tr];
    unfold StorageAdapter.getWeeklyData; run.
  - destruct (String.eqb_spec (weekStart wk) (StorageAdapter._weekKey h)) as [E|E]; cbn.
    + rewrite E, String.eqb_refl. repeat split; try done.
      * by intros d [= <-] _.
      * by intros d [= <-] Hne.
    + rewrite String.eqb_refl. repeat split; try done.
      by intros d [= <-] He.
  - rewrite String.eqb_refl. repeat split; done.
Qed.

(** A week stored two weeks back is replaced by an empty current week;
    the week of the current key comes back as it is. *)
Lemma getWeeklyData_rollover_witness :
  days (StorageAdapter.getWeeklyData hostNewYear staleWeekWorld).1 = ∅
  /\ StorageAdapter.getWeeklyData hostNewYear currentWeekWorld
     = (mkWeekly "2023-12-31" (<["2023-12-31" := mkDay 25 1 0 90 1 ∅]> ∅), currentWeekWorld).
Proof.
  pose proof (getWeeklyData_rollover hostNewYear staleWeekWorld) as (_ & _ & _ & _ & H1 & _).
  pose proof (getWeeklyData_rollover hostNewYear currentWeekWorld) as (_ & _ & _ & H2 & _).
  split.
  - apply (H1 (mkWeekly "2023-12-18" (<["2023-12-19" := mkDay 25 1 0 90 1 ∅]> ∅)));
      [reflexivity | vm_compute; discriminate].
  - apply H2; [reflexivity | vm_compute; reflexivity].
Defined.

Arguments SessionManager._calcStreak : simpl never.



(** ** Session manager *)

Section RollupSteps.
Context {Env : Type}.
Implicit Types (w : World Env) (h : Host).

Lemma getDailyStats_eq h w :
  SessionManager.getDailyStats h w
  = (rolledStats h (STATS (storage w)),
     mkWorld (mkStorage (STATE (storage w)) (Some (rolledStats h (STATS (storage w))))
                (SESSIONS (storage w)) (WEEKLY (storage w)))
             (alarms w) (badge w) (bus w) (tracker w)).
Proof.
  destruct w as [[st [ds|] ss wk] al bd b tr];
    unfold SessionManager.getDailyStats, rolledStats; run; [|done].
  by destruct (String.eqb _ _).
Qed.

Lemma getWeeklyData_eq h w :
  StorageAdapter.getWeeklyData h w
  = (rolledWeek h (WEEKLY (storage w)),
     mkWorld (mkStorage (STATE (storage w)) (STATS (storage w)) (SESSIONS (storage w))
                (Some (rolledWeek h (WEEKLY (storage w)))))
             (alarms w) (badge w) (bus w) (tracker w)).
Proof.
  destruct w as [[st ds ss [wk|]] al bd b tr];
    unfold StorageAdapter.getWeeklyData, rolledWeek; run; [|done].
  by destruct (String.eqb _ _).
Qed.
End RollupSteps.

(** X11: after [ensureTodayInWeekly] the stored week is the current one
    and has an entry for today: the entry it already had, or a zeroed one;
    every other day of the week is as the rollover check leaves it, the
    timer state and the history are untouched, and a second call changes
    nothing. *)
Theorem ensureTodayInWeekly_keeps_today {Env} (h : Host) (w : World Env) :
  let w' := (SessionManager.ensureTodayInWeekly h w).2 in
  let before := rolledWeek h (WEEKLY (storage w)) in
  exists wk,
    WEEKLY (storage w') = Some wk
    /\ weekStart wk = StorageAdapter._weekKey h
    /\ days wk !! SessionManager._todayKey h
       = Some (default zeroDay (days before !! SessionManager._todayKey h))
    /\ (forall k, k <> SessionManager._todayKey h -> days wk !! k = days before !! k)
    /\ stateOf w' = stateOf w /\ historyOf w' = historyOf w
    /\ (SessionManager.ensureTodayInWeekly h w').2 = w'.
Proof.
  cbn zeta. unfold SessionManager.ensureTodayInWeekly, mbind, M_bind.
  rewrite getWeeklyData_eq.
  assert (Hk : weekStart (rolledWeek h (WEEKLY (storage w))) = StorageAdapter._weekKey h).
  { unfold rolledWeek. destruct (WEEKLY (storage w)) as [d|]; [|done].
    destruct (String.eqb_spec (weekStart d) (StorageAdapter._weekKey h)); done. }
  set (rw := rolledWeek h (WEEKLY (storage w))) in *.
  destruct (days rw !! SessionManager._todayKey h) as [day|] eqn:E.
  - exists rw. cbn. rewrite getWeeklyData_eq. cbn.
    unfold rolledWeek. rewrite Hk, String.eqb_refl. fold rw. rewrite E.
    repeat split; try done.
  - unfold modify_storage. cbn. eexists. split; [reflexivity|]. cbn.
    rewrite getWeeklyData_eq. cbn.
    unfold rolledWeek. cbn. rewrite Hk, String.eqb_refl. cbn. rewrite lookup_insert_eq.
    repeat split; try done.
    intros k Hne. by rewrite lookup_insert_ne.
Qed.

Section CompletionSteps.
Context {Env : Type}.
Implicit Types (w : World Env) (h : Host).

Lemma completeSession_eq h s d w :
  let c := SessionManager.completedRecord h s d in
  let sc := ScoringEngine.r_score (ScoringEngine.score (ScoringEngine.metricsOf s)) in
  let ql := ScoringEngine.r_qualityLabel (ScoringEngine.score (ScoringEngine.metricsOf s)) in
  let ds := rolledStats h (STATS (storage w)) in
  let wk := rolledWeek h (WEEKLY (storage w)) in
  let prev := default zeroDay (days wk !! SessionManager._todayKey h) in
  SessionManager.completeSession h s d w
  = (c,
     mkWorld
       (mkStorage (STATE (storage w))
          (Some (mkStats (date ds)
                   (totalFocusMinutes ds + ScoringEngine.Math_round_div d 60)
                   (sessionsCompleted ds + 1)
                   (totalTabSwitches ds + tabSwitchCount s)
                   (totalDistractionVisits ds + distractionVisits s)
                   (totalDistractionSeconds ds + distractionSeconds s)
                   (streak ds)))
          (Some (appended (historyOf w) c))
          (Some (mkWeekly (weekStart wk)
                   (<[SessionManager._todayKey h :=
                        mkDay (focusMinutes prev + ScoringEngine.Math_round_div d 60)
                              (sessions prev + 1)
                              (distractionMinutes prev
                               + ScoringEngine.Math_round_div (distractionSeconds s) 60)
                              (totalScore prev + sc)
                              (scoreCount prev + 1)
                              (<[ql := default 0 (qualityCounts prev !! ql) + 1]>
                                 (qualityCounts prev))]>
                      (days wk)))))
       (alarms w) (badge w)
       (EventBus.emit EventBus.HOOKS.SESSION_END (EventBus.PSessionEnd c sc ql)
          (EventBus.emit EventBus.HOOKS.SCORE_CALCULATED
             (EventBus.PScoreCalculated sc ql c) (bus w)).2).2
       (tracker w)).
Proof.
  cbn zeta.
  unfold SessionManager.completeSession, SessionManager._updateDailyStats,
    SessionManager._updateWeeklyData.
  run. rewrite getDailyStats_eq. cbn. rewrite getWeeklyData_eq. cbn.
  rewrite !emit_run. cbn. reflexivity.
Qed.

Lemma complete_bus h w :
  let s := sessionToFinalise h (stateOf w) in
  let c := SessionManager.completedRecord h s (duration (stateOf w)) in
  let sc := ScoringEngine.r_score (ScoringEngine.score (ScoringEngine.metricsOf s)) in
  let ql := ScoringEngine.r_qualityLabel (ScoringEngine.score (ScoringEngine.metricsOf s)) in
  bus (TimerEngine.complete h w).2
  = (EventBus.emit EventBus.HOOKS.FOCUS_MODE_DISABLED EventBus.PEmpty
       (EventBus.emit EventBus.HOOKS.SESSION_END (EventBus.PSessionEnd c sc ql)
          (EventBus.emit EventBus.HOOKS.SCORE_CALCULATED
             (EventBus.PScoreCalculated sc ql c) (bus w)).2).2).2.
Proof.
  cbn zeta. unfold TimerEngine.complete. run.
  rewrite completeSession_eq. cbn. rewrite emit_run. cbn. reflexivity.
Qed.
End CompletionSteps.

(** X12: [completeSession] adds the session to today's daily record: the
    record the rollover check yields gains the focus minutes (actual
    duration / 60, rounded), one completed session and the session's tab
    switches, distraction visits and distracted seconds; date and streak
    stay. *)
Theorem completeSession_daily_stats {Env} (h : Host) (s : SessionObject) (d : Z)
    (w : World Env) :
  let before := (SessionManager.getDailyStats h w).1 in
  STATS (storage (SessionManager.completeSession h s d w).2)
  = Some (mkStats (date before)
            (totalFocusMinutes before + nearestMinute d)
            (sessionsCompleted before + 1)
            (totalTabSwitches before + tabSwitchCount s)
            (totalDistractionVisits before + distractionVisits s)
            (totalDistractionSeconds before + distractionSeconds s)
            (streak before))
  /\ date before = SessionManager._todayKey h.
Proof.
  cbn zeta. rewrite completeSession_eq, getDailyStats_eq. cbn.
  rewrite Math_round_div_60. split; [done|].
  unfold rolledStats. destruct (STATS (storage w)) as [st|]; [|done].
  by destruct (String.eqb_spec (date st) (SessionManager._todayKey h)).
Qed.

(** X13: [completeSession] adds the session to today's entry of the current
    week: sessions and score count grow by one, the score is added to the
    score total, focus and distraction minutes grow by the rounded
    minutes, the count of the session's quality label grows by one and no
    other label's count changes; every other day of the week is
    untouched. *)
Theorem completeSession_weekly_bucket {Env} (h : Host) (s : SessionObject) (d : Z)
    (w : World Env) :
  let today := SessionManager._todayKey h in
  let sc := ScoringEngine.calcFocusScore (ScoringEngine.metricsOf s) in
  let ql := ScoringEngine.qualityLabel sc in
  let before := (StorageAdapter.getWeeklyData h w).1 in
  let prev := default zeroDay (days before !! today) in
  exists wk day,
    WEEKLY (storage (SessionManager.completeSession h s d w).2) = Some wk
    /\ weekStart wk = StorageAdapter._weekKey h
    /\ days wk !! today = Some day
    /\ (forall k, k <> today -> days wk !! k = days before !! k)
    /\ sessions day = sessions prev + 1
    /\ scoreCount day = scoreCount prev + 1
    /\ totalScore day = totalScore prev + sc
    /\ focusMinutes day = focusMinutes prev + nearestMinute d
    /\ distractionMinutes day
       = distractionMinutes prev + nearestMinute (distractionSeconds s)
    /\ qualityCounts day !! ql = Some (default 0 (qualityCounts prev !! ql) + 1)
    /\ (forall l, l <> ql -> qualityCounts day !! l = qualityCounts prev !! l).
Proof.
  cbn zeta. rewrite completeSession_eq, getWeeklyData_eq. cbn.
  eexists _, _. split; [reflexivity|]. cbn.
  split.
  { unfold rolledWeek. destruct (WEEKLY (storage w)) as [x|]; [|done].
    by destruct (String.eqb_spec (weekStart x) (StorageAdapter._weekKey h)). }
  split; [by rewrite lookup_insert_eq|].
  split; [intros k Hne; by rewrite lookup_insert_ne|].
  rewrite !Math_round_div_60. unfold ScoringEngine.qualityLabel.
  cbn [qualityCounts]. repeat split.
  - by rewrite lookup_insert_eq.
  - intros l Hne. by rewrite lookup_insert_ne.
Qed.

(** X14: the lifecycle events and their order.  [start] emits the session
    start, then focus mode enabled; [complete] emits the calculated score,
    then the session end, then focus mode disabled, the first two with
    the finalised session, its score and its label; [reset] emits focus
    mode disabled only, and no session end; [pause] and [resume] emit
    nothing. *)
Theorem lifecycle_event_order {Env} (h : Host) (d : Z) (w : World Env) :
  let s := sessionToFinalise h (stateOf w) in
  let c := SessionManager.completedRecord h s (duration (stateOf w)) in
  let sc := ScoringEngine.calcFocusScore (ScoringEngine.metricsOf s) in
  let ql := ScoringEngine.qualityLabel sc in
  EventBus.emitted (bus (TimerEngine.start h d w).2)
  = EventBus.emitted (bus w)
    ++ [(EventBus.HOOKS.SESSION_START,
         EventBus.PSessionStart (SessionManager.createSession h d) d);
        (EventBus.HOOKS.FOCUS_MODE_ENABLED, EventBus.PEmpty)]
  /\ EventBus.emitted (bus (TimerEngine.complete h w).2)
     = EventBus.emitted (bus w)
       ++ [(EventBus.HOOKS.SCORE_CALCULATED, EventBus.PScoreCalculated sc ql c);
           (EventBus.HOOKS.SESSION_END, EventBus.PSessionEnd c sc ql);
           (EventBus.HOOKS.FOCUS_MODE_DISABLED, EventBus.PEmpty)]
  /\ EventBus.emitted (bus (TimerEngine.reset w).2)
     = EventBus.emitted (bus w) ++ [(EventBus.HOOKS.FOCUS_MODE_DISABLED, EventBus.PEmpty)]
  /\ bus (TimerEngine.pause h w).2 = bus w
  /\ bus (TimerEngine.resume h w).2 = bus w.
Proof.
  cbn zeta. split; [|split; [|split; [|split]]].
  - unfold TimerEngine.start. run. rewrite !emit_run. cbn. rewrite !emit_emitted.
    by rewrite <- app_assoc.
  - rewrite complete_bus. rewrite !emit_emitted. by rewrite <- !app_assoc.
  - rewrite reset_run. cbn. by rewrite emit_emitted.
  - destruct (decide (status (stateOf w) = running)) as [Hs|Hs].
    + by rewrite (pause_run h w Hs).
    + by rewrite (pause_skip h w Hs).
  - destruct (decide (status (stateOf w) = paused)) as [Hs|Hs].
    + by rewrite (resume_run h w Hs).
    + by rewrite (resume_skip h w Hs).
Qed.


(** ** Timer engine: effects of every operation *)

Section OperationSteps.
Context {Env : Type}.
Implicit Types (w : World Env) (h : Host).

Lemma start_run h d w :
  TimerEngine.start h d w
  = (transition h (Start d) (stateOf w) (_distractionStart (tracker w)),
     mkWorld (mkStorage (Some (transition h (Start d) (stateOf w)
                                 (_distractionStart (tracker w))))
                (STATS (storage w)) (SESSIONS (storage w)) (WEEKLY (storage w)))
             (scheduled d (alarms w))
             (mkBadge (pretty (TimerEngine.ceil_div60 d) +:+ "m") "#818cf8")
             (EventBus.emit EventBus.HOOKS.FOCUS_MODE_ENABLED EventBus.PEmpty
                (EventBus.emit EventBus.HOOKS.SESSION_START
                   (EventBus.PSessionStart (SessionManager.createSession h d) d)
                   (bus w)).2).2
             (tracker w)).
Proof. unfold TimerEngine.start. run. rewrite !emit_run. reflexivity. Qed.

Lemma tick_run h w :
  status (stateOf w) = running ->
  let r := TimerEngine.remainingAt (now h) (stateOf w) in
  let w1 :=
    mkWorld (mkStorage (Some (withRemaining r (stateOf w))) (STATS (storage w))
               (SESSIONS (storage w)) (WEEKLY (storage w)))
            (alarms w)
            (mkBadge (pretty (TimerEngine.ceil_div60 r) +:+ "m") "#818cf8")
            (EventBus.emit EventBus.HOOKS.TICK (EventBus.PTick r) (bus w)).2
            (tracker w) in
  TimerEngine.tick h w
  = if r <=? 0 then (((TimerEngine.complete h w1).1.1, true), (TimerEngine.complete h w1).2)
    else ((withRemaining r (stateOf w), false), w1).
Proof.
  intros Hs. cbn zeta. unfold TimerEngine.tick. run.
  rewrite bool_decide_eq_true_2 by done. cbn. rewrite emit_run. cbn.
  fold (TimerEngine.elapsedAt (now h) (stateOf w)).
  fold (TimerEngine.remainingAt (now h) (stateOf w)).
  destruct (Z.leb _ 0); [|reflexivity].
  change (StorageAdapter.spread (stateOf w) _)
    with (withRemaining (TimerEngine.remainingAt (now h) (stateOf w)) (stateOf w)).
  match goal with |- context [TimerEngine.complete h ?w0] =>
    by destruct (TimerEngine.complete h w0) as [[? ?] ?] end.
Qed.

Lemma enterDistraction_run h tabId url w :
  DistractionTracking.enterDistraction h tabId url w
  = (tt,
     match currentSession (stateOf w) with
     | Some s =>
         mkWorld (mkStorage (Some (transition h (EnterDistraction tabId url) (stateOf w)
                                     (_distractionStart (tracker w))))
                    (STATS (storage w)) (SESSIONS (storage w)) (WEEKLY (storage w)))
                 (alarms w) (badge w)
                 (EventBus.emit EventBus.HOOKS.DISTRACTION
                    (EventBus.PDistraction (DistractionTracking.extractDomain h url) tabId)
                    (bus w)).2
                 (mkTracker (Some (now h)) (Some tabId))
     | None =>
         mkWorld (storage w) (alarms w) (badge w) (bus w)
                 (mkTracker (Some (now h)) (Some tabId))
     end).
Proof.
  unfold DistractionTracking.enterDistraction. run.
  destruct (currentSession (stateOf w)) as [s|] eqn:E; cbn; [|done].
  rewrite emit_run. cbn. unfold withSession, StorageAdapter.spread. cbn.
  by rewrite ?E.
Qed.

Lemma leaveDistraction_run h w :
  DistractionTracking.leaveDistraction h w
  = (tt,
     match _distractionStart (tracker w), currentSession (stateOf w) with
     | Some t, Some s =>
         mkWorld (mkStorage (Some (transition h LeaveDistraction (stateOf w)
                                     (_distractionStart (tracker w))))
                    (STATS (storage w)) (SESSIONS (storage w)) (WEEKLY (storage w)))
                 (alarms w) (badge w) (bus w) (mkTracker None None)
     | Some t, None =>
         mkWorld (storage w) (alarms w) (badge w) (bus w) (mkTracker None None)
     | None, _ => w
     end).
Proof.
  unfold DistractionTracking.leaveDistraction, DistractionTracking._leaveDistraction. run.
  destruct (_distractionStart (tracker w)) as [t|] eqn:Et; cbn; fold_views.
  - destruct (currentSession (stateOf w)) as [s|] eqn:E; cbn; [|done].
    unfold withSession, StorageAdapter.spread. cbn. by rewrite ?E.
  - by destruct (currentSession (stateOf w)).
Qed.

Lemma stateOf_stored (st : FocusState) ds ss wk al bd (b : EventBus.Bus Env) tr :
  stateOf (mkWorld (mkStorage (Some st) ds ss wk) al bd b tr) = st.
Proof. reflexivity. Qed.

(** State, wake-ups and history after any operation. *)
Lemma perform_effect h op w :
  stateOf (perform h op w)
    = transition h op (stateOf w) (_distractionStart (tracker w))
  /\ alarms (perform h op w) = alarmsAfter h op (stateOf w) (alarms w)
  /\ historyOf (perform h op w)
     = if finalises h op (stateOf w)
       then appended (historyOf w)
              (SessionManager.completedRecord h (sessionToFinalise h (stateOf w))
                 (duration (stateOf w)))
       else historyOf w.
Proof.
  destruct op as [d| | | | | | |tabId url|]; cbn [perform transition alarmsAfter finalises].
  - rewrite start_run. done.
  - destruct (decide (status (stateOf w) = running)) as [Hs|Hs].
    + rewrite (pause_run h w Hs), bool_decide_eq_true_2 by done. done.
    + rewrite (pause_skip h w Hs), bool_decide_eq_false_2 by done. done.
  - destruct (decide (status (stateOf w) = paused)) as [Hs|Hs].
    + rewrite (resume_run h w Hs), bool_decide_eq_true_2 by done. done.
    + rewrite (resume_skip h w Hs), bool_decide_eq_false_2 by done. done.
  - rewrite reset_run. done.
  - destruct (decide (status (stateOf w) = running)) as [Hs|Hs].
    + rewrite (tick_run h w Hs), bool_decide_eq_true_2 by done. cbn [andb].
      destruct (Z.leb _ 0); [|done].
      match goal with |- context [TimerEngine.complete h ?w0] =>
        destruct (complete_run h w0) as (ds & wk & b & ->) end.
      cbn. done.
    + rewrite (tick_skip h w Hs), bool_decide_eq_false_2 by done. done.
  - destruct (complete_run h w) as (ds & wk & b & ->). done.
  - destruct (decide (status (stateOf w) = running)) as [Hs|Hs].
    + rewrite bool_decide_eq_true_2 by done. cbn [andb].
      destruct (Z.leb_spec (TimerEngine.remainingAt (now h) (stateOf w)) 0) as [Hr|Hr].
      * rewrite (recover_expired h w Hs Hr). cbn [snd].
        destruct (complete_run h w) as (ds & wk & b & ->). done.
      * rewrite (recover_run h w Hs Hr). done.
    + rewrite (recover_skip h w Hs), bool_decide_eq_false_2 by done. done.
  - rewrite enterDistraction_run. cbn [snd].
    destruct (currentSession (stateOf w)) as [s|] eqn:E; cbn; [by rewrite E|].
    by destruct w as [[] ? ? ? ?].
  - rewrite leaveDistraction_run. cbn [snd].
    destruct (_distractionStart (tracker w)) as [t|] eqn:Et;
      destruct (currentSession (stateOf w)) as [s|] eqn:E; cbn; try (by rewrite ?Et, ?E).
    all: by destruct w as [[] ? ? ? ?].
Qed.
End OperationSteps.

(** ** Timer engine: what every operation keeps *)

Lemma remainingAt_withRemaining (t r : Z) (st : FocusState) :
  TimerEngine.remainingAt t (withRemaining r st) = TimerEngine.remainingAt t st.
Proof. reflexivity. Qed.

Lemma transition_tick_twice (h : Host) (st : FocusState) (o o' : option Z) :
  transition h Tick (transition h Tick st o) o' = transition h Tick st o
  /\ finalises h Tick (transition h Tick st o) = false.
Proof.
  cbn [transition finalises].
  destruct (decide (status st = running)) as [Hs|Hs].
  - rewrite (bool_decide_eq_true_2 _ Hs).
    destruct (Z.leb_spec (TimerEngine.remainingAt (now h) st) 0) as [Hr|Hr].
    + rewrite bool_decide_eq_false_2 by (cbn; discriminate). done.
    + rewrite bool_decide_eq_true_2 by exact Hs.
      rewrite remainingAt_withRemaining.
      destruct (Z.leb_spec (TimerEngine.remainingAt (now h) st) 0); [lia|]. done.
  - rewrite (bool_decide_eq_false_2 _ Hs), (bool_decide_eq_false_2 _ Hs). done.
Qed.

Lemma timed_transition (h : Host) (op : Operation) (st : FocusState) (o : option Z) (t : Z) :
  timed t st -> t <= now h -> wellFormed op -> timed (now h) (transition h op st o).
Proof.
  intros (Hr & He & Hs & Hj & Hp) Ht Hw.
  assert (Hmono : timed (now h) st).
  { repeat split; try lia.
    - intros Hi. destruct (Hs Hi) as (s & E & Hle). exists s. split; [done|lia].
    - intros Hrun t' Ht'. apply Hj; [done|lia].
    - by apply Hp. }
  assert (Hidle : forall c r, timed (now h)
            (mkState idle (duration st) (duration st) None None 0 c r)).
  { intros c r. repeat split; cbn; try lia; try discriminate. by intros []. }
  destruct op as [d| | | | | | |tabId url|]; cbn [transition] in *.
  - cbn in Hw. repeat split; cbn; try lia; try discriminate.
    + intros _. exists (now h). split; [done|lia].
    + intros _ t' Ht'. unfold TimerEngine.remainingAt, TimerEngine.elapsedAt. cbn.
      Z.div_mod_to_equations. lia.
  - destruct (decide (status st = running)) as [Hrun|Hrun].
    + rewrite (bool_decide_eq_true_2 _ Hrun).
      destruct (Hs ltac:(rewrite Hrun; discriminate)) as (s & Es & Hle).
      assert (Hb : 0 <= TimerEngine.remainingAt (now h) st <= duration st
                   /\ 0 <= TimerEngine.elapsedAt (now h) st).
      { unfold TimerEngine.remainingAt, TimerEngine.elapsedAt, TimerEngine.toNumber.
        rewrite Es. cbn -[Z.div Z.max Z.sub Z.add].
        Z.div_mod_to_equations. lia. }
      repeat split; cbn; try lia; try discriminate.
      * intros _. exists s. split; [done|lia].
      * intros _. unfold TimerEngine.remainingAt. lia.
    + by rewrite (bool_decide_eq_false_2 _ Hrun).
  - destruct (decide (status st = paused)) as [Hpa|Hpa].
    + rewrite (bool_decide_eq_true_2 _ Hpa).
      specialize (Hp Hpa).
      repeat split; cbn; try lia; try discriminate.
      * intros _. exists (now h). split; [done|lia].
      * intros _ t' Ht'. unfold TimerEngine.remainingAt, TimerEngine.elapsedAt. cbn.
        Z.div_mod_to_equations. lia.
    + by rewrite (bool_decide_eq_false_2 _ Hpa).
  - apply Hidle.
  - destruct (decide (status st = running)) as [Hrun|Hrun].
    + rewrite (bool_decide_eq_true_2 _ Hrun).
      destruct (Z.leb_spec (TimerEngine.remainingAt (now h) st) 0) as [Hz|Hz].
      * apply Hidle.
      * destruct (Hs ltac:(rewrite Hrun; discriminate)) as (s & Es & Hle).
        assert (Hb : 0 <= TimerEngine.remainingAt (now h) st <= duration st).
        { unfold TimerEngine.remainingAt, TimerEngine.elapsedAt, TimerEngine.toNumber.
          rewrite Es. cbn -[Z.div Z.max Z.sub Z.add].
        Z.div_mod_to_equations. lia. }
        repeat split; cbn; try lia; try (rewrite Hrun; discriminate).
        -- intros _. exists s. split; [done|lia].
        -- intros _ t' Ht'. rewrite remainingAt_withRemaining.
           unfold TimerEngine.remainingAt, TimerEngine.elapsedAt.
           Z.div_mod_to_equations. lia.
    + by rewrite (bool_decide_eq_false_2 _ Hrun).
  - apply Hidle.
  - destruct (decide (status st = running)) as [Hrun|Hrun].
    + rewrite (bool_decide_eq_true_2 _ Hrun).
      destruct (Z.leb_spec (TimerEngine.remainingAt (now h) st) 0) as [Hz|Hz].
      * apply Hidle.
      * destruct (Hs ltac:(rewrite Hrun; discriminate)) as (s & Es & Hle).
        assert (Hb : 0 <= TimerEngine.remainingAt (now h) st <= duration st).
        { unfold TimerEngine.remainingAt, TimerEngine.elapsedAt, TimerEngine.toNumber.
          rewrite Es. cbn -[Z.div Z.max Z.sub Z.add].
        Z.div_mod_to_equations. lia. }
        repeat split; cbn; try lia; try (rewrite Hrun; discriminate).
        -- intros _. exists s. split; [done|lia].
        -- intros _ t' Ht'. rewrite remainingAt_withRemaining.
           unfold TimerEngine.remainingAt, TimerEngine.elapsedAt.
           Z.div_mod_to_equations. lia.
    + by rewrite (bool_decide_eq_false_2 _ Hrun).
  - destruct (currentSession st); [|done]. exact Hmono.
  - destruct o; [|done]. destruct (currentSession st); [|done]. exact Hmono.
Qed.

Lemma clocked_timed {Env} (t : Z) (w : World Env) : clocked t w -> timed t (stateOf w).
Proof.
  induction 1 as [t w Hinit | t h op w Hc IH Ht Hw].
  - rewrite Hinit. repeat split; cbn; try lia; try discriminate. by intros [].
  - destruct (perform_effect h op w) as (-> & _). by apply (timed_transition h op _ _ t).
Qed.



(** X18: within a session the stored remaining time never increases: under
    a clock that never runs backwards, any operation other than [start]
    that leaves the timer running or paused leaves a remaining time no
    larger than before. *)
Theorem remaining_never_increases {Env} (t : Z) (h : Host) (op : Operation)
    (w : World Env) :
  clocked t w -> t <= now h ->
  (forall d, op <> Start d) ->
  status (stateOf (perform h op w)) <> idle ->
  remaining (stateOf (perform h op w)) <= remaining (stateOf w).
Proof.
  intros Hc Ht Hop. destruct (perform_effect h op w) as (-> & _).
  destruct (clocked_timed t w Hc) as (Hr & He & Hs & Hj & Hp).
  destruct op as [d| | | | | | |tabId url|]; cbn [transition].
  - by destruct (Hop d).
  - destruct (decide (status (stateOf w) = running)) as [Hrun|Hrun].
    + rewrite (bool_decide_eq_true_2 _ Hrun). intros _. cbn. by apply Hj.
    + rewrite (bool_decide_eq_false_2 _ Hrun). lia.
  - destruct (bool_decide _); cbn; lia.
  - by intros [].
  - destruct (decide (status (stateOf w) = running)) as [Hrun|Hrun].
    + rewrite (bool_decide_eq_true_2 _ Hrun).
      destruct (Z.leb _ 0); [by intros []|]. intros _. cbn. by apply Hj.
    + rewrite (bool_decide_eq_false_2 _ Hrun). lia.
  - by intros [].
  - destruct (decide (status (stateOf w) = running)) as [Hrun|Hrun].
    + rewrite (bool_decide_eq_true_2 _ Hrun).
      destruct (Z.leb _ 0); [by intros []|]. intros _. cbn. by apply Hj.
    + rewrite (bool_decide_eq_false_2 _ Hrun). lia.
  - destruct (currentSession (stateOf w)); cbn; lia.
  - destruct (_distractionStart (tracker w)); [|lia].
    destruct (currentSession (stateOf w)); cbn; lia.
Qed.

(** A tick seven minutes into a 25-minute session. *)
Lemma remaining_never_increases_witness :
  remaining (stateOf (perform (hostAt (t0 + 420000)) Tick
                        (perform (hostAt t0) (Start 1500) freshWorld)))
  <= remaining (stateOf (perform (hostAt t0) (Start 1500) freshWorld)).
Proof.
  apply (remaining_never_increases t0).
  - apply (clocked_step t0 (hostAt t0) (Start 1500)); [|cbn; lia | cbn; lia].
    apply clocked_initial. reflexivity.
  - cbn. lia.
  - discriminate.
  - vm_compute. discriminate.
Defined.

Lemma calcFocusScore_range (m : ScoringEngine.SessionMetrics) :
  0 <= ScoringEngine.calcFocusScore m <= 100.
Proof. unfold ScoringEngine.calcFocusScore. lia. Qed.

Lemma completedRecord_finalised (h : Host) (s : SessionObject) (d : Z) :
  finalised (SessionManager.completedRecord h s d)
  /\ endTime (SessionManager.completedRecord h s d) = Some (now h)
  /\ s_duration (SessionManager.completedRecord h s d) = d.
Proof.
  split; [|done]. split; [done|].
  exists (ScoringEngine.calcFocusScore (ScoringEngine.metricsOf s)).
  split; [done|]. split; [apply calcFocusScore_range|done].
Qed.

Lemma Forall_appended (P : SessionObject -> Prop) old c :
  Forall P old -> P c -> Forall P (appended old c).
Proof.
  intros Ho Hc. unfold appended.
  destruct (Nat.ltb _ _); [apply Forall_drop|]; apply Forall_app; split; auto.
Qed.

(** X20: the history only ever grows by finalised sessions.  Any operation
    either leaves the history as it is or appends one entry that is marked
    completed, ends now, and carries a score between 0 and 100 with the
    matching quality label; so a history of finalised sessions with at
    most 200 entries stays one. *)
Theorem history_holds_finalised_sessions {Env} (h : Host) (op : Operation)
    (w : World Env) :
  (historyOf (perform h op w) = historyOf w
   \/ exists c, finalised c /\ endTime c = Some (now h)
                /\ historyOf (perform h op w) = appended (historyOf w) c)
  /\ (Forall finalised (historyOf w) -> Forall finalised (historyOf (perform h op w)))
  /\ ((length (historyOf w) <= 200)%nat -> (length (historyOf (perform h op w)) <= 200)%nat).
Proof.
  destruct (perform_effect h op w) as (_ & _ & ->).
  destruct (completedRecord_finalised h (sessionToFinalise h (stateOf w))
              (duration (stateOf w))) as (Hf & He & _).
  destruct (finalises h op (stateOf w)).
  - split; [right; eexists; done|]. split.
    + intros Ho. by apply Forall_appended.
    + intros _. destruct (appended_facts (historyOf w)
        (SessionManager.completedRecord h (sessionToFinalise h (stateOf w))
           (duration (stateOf w)))) as (-> & _). lia.
  - split; [by left|]. done.
Qed.

(** The 5-minute session completed: one finalised entry. *)
Lemma history_holds_finalised_sessions_witness :
  Forall finalised
    (historyOf (perform (hostAt (t0 + 300000)) Complete fiveMinuteSession))
  /\ (length (historyOf (perform (hostAt (t0 + 300000)) Complete fiveMinuteSession))
      <= 200)%nat.
Proof.
  destruct (history_holds_finalised_sessions (hostAt (t0 + 300000)) Complete
              fiveMinuteSession) as (_ & H1 & H2).
  split; [apply H1; exact (@List.Forall_nil _ finalised) | apply H2; vm_compute; lia].
Defined.

Lemma scheduled_lookup (d : Z) (al : gmap string AlarmInfo) :
  is_Some (scheduled d al !! TimerEngine.ALARMS.COMPLETE)
  /\ is_Some (scheduled d al !! TimerEngine.ALARMS.TICK).
Proof.
  unfold scheduled. split.
  - rewrite lookup_insert_ne by done. rewrite lookup_insert_eq. by eexists.
  - rewrite lookup_insert_eq. by eexists.
Qed.

Lemma cancelled_lookup (al : gmap string AlarmInfo) :
  cancelled al !! TimerEngine.ALARMS.COMPLETE = None
  /\ cancelled al !! TimerEngine.ALARMS.TICK = None.
Proof.
  unfold cancelled. split.
  - rewrite lookup_delete_ne by done. by rewrite lookup_delete_eq.
  - by rewrite lookup_delete_eq.
Qed.

(** ** Distraction tracking *)

(** X22: [leaveDistraction] with no interval open does nothing at all;
    after any call no interval is open; so a second call, at any instant,
    changes nothing. *)
Theorem leaveDistraction_idempotent {Env} (h h' : Host) (w : World Env) :
  (_distractionStart (tracker w) = None ->
   DistractionTracking.leaveDistraction h w = (tt, w))
  /\ DistractionTracking.isInDistraction (DistractionTracking.leaveDistraction h w).2 = false
  /\ DistractionTracking.leaveDistraction h' (DistractionTracking.leaveDistraction h w).2
     = (tt, (DistractionTracking.leaveDistraction h w).2).
Proof.
  split; [|split].
  - intros Ho. by rewrite leaveDistraction_run, Ho.
  - rewrite leaveDistraction_run. cbn [snd]. unfold DistractionTracking.isInDistraction.
    destruct (_distractionStart (tracker w)) as [t|] eqn:Et;
      [destruct (currentSession (stateOf w)); done|].
    cbn. by rewrite Et.
  - rewrite (leaveDistraction_run h' _), (leaveDistraction_run h w). cbn [snd].
    destruct (_distractionStart (tracker w)) as [t|] eqn:Et;
      [destruct (currentSession (stateOf w)); done|].
    by rewrite Et.
Qed.

(** On a fresh profile there is no interval to close. *)
Lemma leaveDistraction_idempotent_witness :
  DistractionTracking.leaveDistraction (hostAt t0) freshWorld = (tt, freshWorld).
Proof.
  destruct (leaveDistraction_idempotent (hostAt t0) (hostAt t0) freshWorld) as (H & _).
  apply H. reflexivity.
Defined.

(** X23: entering a distraction and leaving it charges the current session
    one visit, the domain, and the elapsed time in seconds rounded to the
    nearest integer (within half a second of the real gap); the interval
    is closed afterwards and the timer status is untouched. *)
Theorem enter_then_leave_charges_elapsed {Env} (h1 h2 : Host) (tabId : Z) (url : string)
    (w : World Env) (s : SessionObject) :
  currentSession (stateOf w) = Some s ->
  let w' := (DistractionTracking.leaveDistraction h2
               (DistractionTracking.enterDistraction h1 tabId url w).2).2 in
  let secs := ScoringEngine.Math_round_div (now h2 - now h1) 1000 in
  currentSession (stateOf w')
  = Some (mkSession (id s) (startTime s) (s_duration s) (tabSwitchCount s)
            (distractionVisits s + 1) (distractionSeconds s + secs)
            (Some (DistractionTracking.extractDomain h1 url)) (interrupted s)
            (endTime s) (s_score s) (s_qualityLabel s) (completed s))
  /\ 1000 * secs - 500 <= now h2 - now h1 < 1000 * secs + 500
  /\ tracker w' = mkTracker None None
  /\ status (stateOf w') = status (stateOf w).
Proof.
  intros Hc. cbn zeta.
  rewrite leaveDistraction_run, enterDistraction_run, Hc.
  cbn [snd tracker _distractionStart]. rewrite !stateOf_stored.
  cbn [transition]. rewrite Hc. cbn.
  split; [reflexivity|]. split; [|done].
  unfold ScoringEngine.Math_round_div. Z.div_mod_to_equations. lia.
Qed.

(** The distracting tab of the distracted session, left 42.4 seconds
    after it was entered. *)
Lemma enter_then_leave_charges_elapsed_witness :
  (distractionSeconds
     <$> currentSession
           (stateOf (DistractionTracking.leaveDistraction (hostAt (t0 + 102400))
                       distractedSession).2)) = Some 42.
Proof.
  unfold distractedSession.
  destruct (enter_then_leave_charges_elapsed (hostAt (t0 + 60000)) (hostAt (t0 + 102400)) 7
              "https://www.youtube.com/watch"
              (TimerEngine.start (hostAt t0) 1500 freshWorld).2
              (SessionManager.createSession (hostAt t0) 1500)) as (E & _); [reflexivity|].
  rewrite E. reflexivity.
Defined.

Section StringFacts.

Lemma str_length_app (p s : string) :
  String.length (p +:+ s) = (String.length p + String.length s)%nat.
Proof. induction p as [|c p IH]; simpl; [done|]. by f_equal. Qed.

Lemma substring_all (s : string) : String.substring 0 (String.length s) s = s.
Proof. induction s as [|c s IH]; simpl; [done|]. by f_equal. Qed.

Lemma substring_skip (p s : string) (n : nat) :
  String.substring (String.length p) n (p +:+ s) = String.substring 0 n s.
Proof. induction p as [|c p IH]; cbn; [done|]. exact IH. Qed.

Lemma substring_split (s : string) : forall k : nat,
  (k <= String.length s)%nat ->
  s = String.substring 0 k s +:+ String.substring k (String.length s - k) s.
Proof.
  induction s as [|c s IH]; intros k Hk.
  - cbn in Hk. assert (k = 0%nat) as -> by lia. reflexivity.
  - destruct k as [|k].
    + simpl. by rewrite substring_all.
    + simpl.
      change (String c s
              = String c (String.substring 0 k s
                          +:+ String.substring k (String.length s - k) s)).
      f_equal. apply IH. simpl in Hk. lia.
Qed.

Lemma endsWith_spec (s suffix : string) :
  DistractionTracking.endsWith s suffix = true <-> exists p, s = p +:+ suffix.
Proof.
  unfold DistractionTracking.endsWith. split.
  - intros H. apply andb_true_iff in H as [Hl He].
    apply Nat.leb_le in Hl. apply String.eqb_eq in He.
    exists (String.substring 0 (String.length s - String.length suffix) s).
    pose proof (substring_split s (String.length s - String.length suffix)
                  ltac:(lia)) as Hs.
    replace (String.length s - (String.length s - String.length suffix))%nat
      with (String.length suffix) in Hs by lia.
    by rewrite He in Hs.
  - intros [p ->]. rewrite str_length_app. apply andb_true_iff. split.
    + apply Nat.leb_le. lia.
    + replace (String.length p + String.length suffix - String.length suffix)%nat
        with (String.length p) by lia.
      rewrite substring_skip, substring_all. apply String.eqb_refl.
Qed.

Lemma strip_www_prefixed (d : string) : DistractionTracking.strip_www ("www." +:+ d) = d.
Proof.
  unfold DistractionTracking.strip_www.
  change ("www." +:+ d) with (String "w" (String "w" (String "w" (String "." d)))).
  assert (Hp : String.prefix "" d = true) by (by destruct d).
  simpl. rewrite Hp.
  replace (String.length d - 0)%nat with (String.length d) by lia.
  apply substring_all.
Qed.
End StringFacts.

(** X24: a URL is distracting exactly when it parses to a non-empty domain
    that equals an entry of the site list or ends with a dot followed by
    an entry: whole labels only, so an entry never matches a longer name
    that merely ends with it.  A URL that does not parse is never
    distracting, and one leading "www." of the host name is ignored. *)
Theorem isDistracting_spec (h : Host) (url : string) (sites : list string) :
  (DistractionTracking.isDistracting h url sites = true <->
     DistractionTracking.extractDomain h url <> ""
     /\ exists site, site ∈ sites
          /\ (DistractionTracking.extractDomain h url = site
              \/ exists p, DistractionTracking.extractDomain h url = p +:+ "." +:+ site))
  /\ (URL_hostname h url = None -> DistractionTracking.isDistracting h url sites = false)
  /\ (forall d, URL_hostname h url = Some ("www." +:+ d) ->
                DistractionTracking.extractDomain h url = d).
Proof.
  split; [|split].
  - unfold DistractionTracking.isDistracting.
    destruct (String.eqb_spec (DistractionTracking.extractDomain h url) "") as [E|E].
    + split; [discriminate | by intros [? _]].
    + rewrite existsb_exists. split.
      * intros (site & Hin & Hm). split; [done|]. exists site.
        split; [by apply list_elem_of_In|].
        apply orb_true_iff in Hm as [Hm|Hm].
        -- left. by apply String.eqb_eq.
        -- right. by apply endsWith_spec.
      * intros (_ & site & Hin & Hm). exists site. split; [by apply list_elem_of_In|].
        apply orb_true_iff. destruct Hm as [Hm|Hm].
        -- left. by apply String.eqb_eq.
        -- right. by apply endsWith_spec.
  - intros Hn. unfold DistractionTracking.isDistracting, DistractionTracking.extractDomain.
    by rewrite Hn.
  - intros d Hd. unfold DistractionTracking.extractDomain. rewrite Hd.
    apply strip_www_prefixed.
Qed.

(** A video page under www is distracting for the default list; a host
    name that merely ends with an entry is not. *)
Lemma isDistracting_spec_witness :
  DistractionTracking.isDistracting (hostAt t0) "https://www.youtube.com/watch"
    StorageAdapter.DEFAULT_SITES = true
  /\ DistractionTracking.isDistracting
       (mkHost t0 (JsDate.fixed 0) "" (fun _ => Some "notyoutube.com")) "https://notyoutube.com/"
       StorageAdapter.DEFAULT_SITES = false
  /\ DistractionTracking.isDistracting (mkHost t0 (JsDate.fixed 0) "" noURL) "youtube.com"
       StorageAdapter.DEFAULT_SITES = false.
Proof.
  destruct (isDistracting_spec (hostAt t0) "https://www.youtube.com/watch"
              StorageAdapter.DEFAULT_SITES) as (H1 & _ & H3).
  destruct (isDistracting_spec (mkHost t0 (JsDate.fixed 0) "" noURL) "youtube.com"
              StorageAdapter.DEFAULT_SITES) as (_ & H2 & _).
  split; [|split; [reflexivity | apply H2; reflexivity]].
  apply H1. rewrite (H3 "youtube.com") by reflexivity.
  split; [discriminate|]. exists "youtube.com". split; [|by left].
  apply list_elem_of_In. left. reflexivity.
Defined.

(** ** Tab listeners *)

Lemma onActivated_skip {Env} (h : Host) tab sites tabId (w : World Env) :
  status (stateOf w) <> running \/ currentSession (stateOf w) = None ->
  Background.onActivated h tab sites tabId w = (tt, w).
Proof.
  intros Hs. unfold Background.onActivated. run.
  destruct Hs as [Hs|Hs].
  - by rewrite (bool_decide_eq_false_2 _ Hs).
  - rewrite Hs.
    rewrite (bool_decide_eq_false_2 (None <> None)) by (intros H; by apply H).
    by rewrite orb_true_r.
Qed.

Lemma onActivated_run {Env} (h : Host) tab sites tabId (w : World Env) s :
  status (stateOf w) = running -> currentSession (stateOf w) = Some s ->
  Background.onActivated h tab sites tabId w
  = (tt,
     let w1 := mkWorld (mkStorage (Some (withSession (SessionManager.recordTabSwitch s)
                                           (stateOf w)))
                          (STATS (storage w)) (SESSIONS (storage w)) (WEEKLY (storage w)))
                 (alarms w) (badge w) (bus w) (tracker w) in
     let w2 := (DistractionTracking.leaveDistraction h w1).2 in
     match tab with
     | Some tab =>
         if DistractionTracking.isDistracting h (Background.urlOf tab) sites
         then (DistractionTracking.enterDistraction h tabId (Background.urlOf tab) w2).2
         else w2
     | None => w2
     end).
Proof.
  intros Hr Hc. unfold Background.onActivated. run.
  rewrite Hc, (bool_decide_eq_true_2 _ Hr).
  rewrite (bool_decide_eq_true_2 (Some s <> None)) by done.
  cbn [negb orb]. cbv beta iota. rewrite Hc. cbv beta iota zeta.
  unfold withSession.
  destruct (DistractionTracking.leaveDistraction h _) as [[] w2]. cbn [snd].
  destruct tab as [tab|]; [|done].
  destruct (DistractionTracking.isDistracting h (Background.urlOf tab) sites); [|done].
  by destruct (DistractionTracking.enterDistraction h tabId _ w2) as [[] w3].
Qed.

(** X25: activating a tab outside a running session changes nothing.
    During a running session it counts exactly one tab switch, closes the
    open distraction interval and charges its rounded seconds, and, when
    the activated tab could be read and shows a distracting site, counts
    one visit and opens a new interval; the timer keeps running on the
    same session. *)
Theorem onActivated_counts_one_switch {Env} (h : Host) (tab : option Background.Tab)
    (sites : list string) (tabId : Z) (w : World Env) :
  let w' := (Background.onActivated h tab sites tabId w).2 in
  let nowDistracting := tabIsDistracting h tab sites in
  (status (stateOf w) <> running \/ currentSession (stateOf w) = None -> w' = w)
  /\ (forall s, status (stateOf w) = running -> currentSession (stateOf w) = Some s ->
      exists s', currentSession (stateOf w') = Some s'
        /\ id s' = id s
        /\ tabSwitchCount s' = tabSwitchCount s + 1
        /\ distractionSeconds s'
           = distractionSeconds s
             + match _distractionStart (tracker w) with
               | Some t => ScoringEngine.Math_round_div (now h - t) 1000
               | None => 0
               end
        /\ distractionVisits s'
           = distractionVisits s + (if nowDistracting then 1 else 0)
        /\ DistractionTracking.isInDistraction w' = nowDistracting
        /\ status (stateOf w') = running).
Proof.
  cbn zeta. split.
  - intros Hs. by rewrite onActivated_skip.
  - intros s Hr Hc. rewrite (onActivated_run h tab sites tabId w s Hr Hc).
    cbn [snd]. cbv zeta. unfold tabIsDistracting.
    rewrite leaveDistraction_run. cbn [snd tracker]. rewrite !stateOf_stored.
    cbn [transition withSession currentSession].
    destruct (_distractionStart (tracker w)) as [t|] eqn:Et.
    + destruct tab as [tab|];
        [destruct (DistractionTracking.isDistracting h (Background.urlOf tab) sites)|].
      * rewrite enterDistraction_run. cbn. 
        eexists. split; [reflexivity|]. cbn. rewrite ?Hr. repeat split; lia.
      * eexists. split; [reflexivity|]. cbn. rewrite ?Hr. repeat split; lia.
      * eexists. split; [reflexivity|]. cbn. rewrite ?Hr. repeat split; lia.
    + destruct tab as [tab|];
        [destruct (DistractionTracking.isDistracting h (Background.urlOf tab) sites)|].
      * rewrite enterDistraction_run. cbn. rewrite ?Hc. cbn.
        eexists. split; [reflexivity|]. cbn. rewrite ?Hr, ?Et. repeat split; lia.
      * cbn. rewrite ?Hc. eexists. split; [reflexivity|]. cbn. rewrite ?Hr.
        unfold DistractionTracking.isInDistraction. cbn. rewrite Et.
        repeat split; lia.
      * cbn. rewrite ?Hc. eexists. split; [reflexivity|]. cbn. rewrite ?Hr.
        unfold DistractionTracking.isInDistraction. cbn. rewrite Et.
        repeat split; lia.
Qed.

(** A switch to a tab that cannot be read, on the distracted session
    after 102.4 seconds: one switch more, 42 seconds charged. *)
Lemma onActivated_counts_one_switch_witness :
  exists s',
    currentSession (stateOf (Background.onActivated (hostAt (t0 + 102400)) None
                               StorageAdapter.DEFAULT_SITES 9 distractedSession).2)
    = Some s'
    /\ tabSwitchCount s' = 1 /\ distractionSeconds s' = 42.
Proof.
  destruct (onActivated_counts_one_switch (hostAt (t0 + 102400)) None
              StorageAdapter.DEFAULT_SITES 9 distractedSession) as [_ H].
  destruct (H (SessionManager.recordDistractionVisit
                 (SessionManager.createSession (hostAt t0) 1500) "youtube.com"))
    as (s' & E & _ & Hs & Hd & _); [reflexivity | reflexivity |].
  exists s'. split; [exact E|]. split; [exact Hs | exact Hd].
Defined.

(** X26: a committed navigation is ignored in a sub-frame, outside a
    running session, on a URL that is not http(s), and when the tab stays
    on the same side (distracting before and after, or neither); leaving
    the distracting tab's site closes the interval and entering one opens
    it.  It never changes the timer status or the tab-switch count. *)
Theorem onCommitted_tracks_crossings {Env} (h : Host) (sites : list string) (tabId : Z)
    (url : string) (frameId : Z) (w : World Env) :
  let was := bool_decide (_distractionTabId (tracker w) = Some tabId) in
  let nowD := DistractionTracking.isDistracting h url sites in
  let live := bool_decide (frameId = 0) && bool_decide (status (stateOf w) = running)
              && bool_decide (currentSession (stateOf w) <> None)
              && VisualEnforcement.isInjectableUrl url in
  let w' := (Background.onCommitted h sites tabId url frameId w).2 in
  Background.onCommitted h sites tabId url frameId w
  = (if live && was && negb nowD then DistractionTracking.leaveDistraction h w
     else if live && negb was && nowD
          then DistractionTracking.enterDistraction h tabId url w
          else (tt, w))
  /\ status (stateOf w') = status (stateOf w)
  /\ tabSwitchCount <$> currentSession (stateOf w')
     = tabSwitchCount <$> currentSession (stateOf w).
Proof.
  cbn zeta.
  assert (E : Background.onCommitted h sites tabId url frameId w
    = (if bool_decide (frameId = 0) && bool_decide (status (stateOf w) = running)
          && bool_decide (currentSession (stateOf w) <> None)
          && VisualEnforcement.isInjectableUrl url
          && bool_decide (_distractionTabId (tracker w) = Some tabId)
          && negb (DistractionTracking.isDistracting h url sites)
       then DistractionTracking.leaveDistraction h w
       else if bool_decide (frameId = 0) && bool_decide (status (stateOf w) = running)
               && bool_decide (currentSession (stateOf w) <> None)
               && VisualEnforcement.isInjectableUrl url
               && negb (bool_decide (_distractionTabId (tracker w) = Some tabId))
               && DistractionTracking.isDistracting h url sites
            then DistractionTracking.enterDistraction h tabId url w
            else (tt, w))).
  { unfold Background.onCommitted.
    destruct (Z.eqb_spec frameId 0) as [Hf|Hf].
    - rewrite (bool_decide_eq_true_2 _ Hf). run.
      destruct (bool_decide (status (stateOf w) = running)); [|done].
      destruct (bool_decide (currentSession (stateOf w) <> None)); [|done].
      destruct (VisualEnforcement.isInjectableUrl url); [|done].
      cbn. unfold DistractionTracking.getDistractionTabId.
      destruct (bool_decide (_distractionTabId (tracker w) = Some tabId));
        destruct (DistractionTracking.isDistracting h url sites); done.
    - by rewrite (bool_decide_eq_false_2 _ Hf). }
  split; [exact E|]. rewrite E.
  destruct (_ && negb (DistractionTracking.isDistracting h url sites)).
  - split; [apply leaveDistraction_state|].
    rewrite leaveDistraction_run. cbn [snd].
    destruct (_distractionStart (tracker w)); [|done].
    destruct (currentSession (stateOf w)) eqn:Ec; cbn; fold_views; rewrite ?Ec;
      reflexivity.
  - destruct (_ && DistractionTracking.isDistracting h url sites); [|done].
    split; [apply enterDistraction_state|].
    rewrite enterDistraction_run. cbn [snd].
    destruct (currentSession (stateOf w)) eqn:Ec; cbn; fold_views; rewrite ?Ec;
      reflexivity.
Qed.

(** ** The site list *)

Section SiteList.
Variables (toLowerCase trim : string -> string).

(** X27: [addSite] appends the normalised domain unless it is empty or
    already listed, so a duplicate-free list stays duplicate-free and
    adding the same domain again changes nothing; the list sent back is
    the list a later read finds. *)
Theorem addSite_adds_once (d : string) (stored : option (list string)) :
  let r := Background.addSite toLowerCase trim d stored in
  let d' := trim (DistractionTracking.strip_www (toLowerCase d)) in
  (NoDup (StorageAdapter.getDistractingSites stored) -> NoDup r.1)
  /\ StorageAdapter.getDistractingSites r.2 = r.1
  /\ (forall x, x ∈ r.1 <->
                x ∈ StorageAdapter.getDistractingSites stored \/ (x = d' /\ d' <> ""))
  /\ Background.addSite toLowerCase trim d r.2 = r.
Proof.
  cbn zeta. unfold Background.addSite.
  set (sites := StorageAdapter.getDistractingSites stored).
  set (d' := trim (DistractionTracking.strip_www (toLowerCase d))).
  destruct (String.eqb_spec d' "") as [He|He]; cbn [negb andb fst snd].
  - fold sites. split; [done|]. split; [done|]. split; [|done].
    intros x. split; [by left | by intros [?|[_ ?]]].
  - destruct (existsb (String.eqb d') sites) eqn:Ex; cbn [negb fst snd].
    + fold sites. rewrite Ex. cbn [negb andb]. split; [done|]. split; [done|].
      split; [|done]. intros x. split; [by left|]. intros [?|[-> _]]; [done|].
      apply existsb_exists in Ex as (y & Hy & Hyd).
      apply String.eqb_eq in Hyd as ->. by apply list_elem_of_In.
    + assert (Hn : d' ∉ sites).
      { intros Hin. apply list_elem_of_In in Hin.
        assert (existsb (String.eqb d') sites = true) as Ht; [|congruence].
        apply existsb_exists. exists d'. split; [done|]. apply String.eqb_refl. }
      split; [|split; [done|split]].
      * intros Hnd. apply NoDup_app. split; [done|]. split; [|apply NoDup_singleton].
        intros x Hx ->%list_elem_of_singleton. done.
      * intros x. rewrite elem_of_app, list_elem_of_singleton.
        split; [intros [?|?]; [by left | by right] | intros [?|[? _]]; [by left | by right]].
      * unfold StorageAdapter.getDistractingSites. simpl default.
        assert (existsb (String.eqb d') (sites ++ [d']) = true) as ->; [|done].
        rewrite existsb_app. cbn. by rewrite String.eqb_refl, orb_true_r.
Qed.

(** X28: [removeSite] drops exactly the entries equal to the given text
    (which, unlike in [addSite], is not normalised), stores the result,
    keeps a duplicate-free list duplicate-free, and removing again changes
    nothing; removing a domain that [addSite] has just appended gives back
    the list as it was before. *)
Theorem removeSite_removes_exact_match (d : string) (stored : option (list string)) :
  let r := Background.removeSite d stored in
  r.2 = Some r.1
  /\ (forall x, x ∈ r.1 <-> x ∈ StorageAdapter.getDistractingSites stored /\ x <> d)
  /\ (NoDup (StorageAdapter.getDistractingSites stored) -> NoDup r.1)
  /\ Background.removeSite d r.2 = r
  /\ (forall e, (Background.addSite toLowerCase trim e stored).1
                = StorageAdapter.getDistractingSites stored ++ [d] ->
                d ∉ StorageAdapter.getDistractingSites stored ->
                (Background.removeSite d (Background.addSite toLowerCase trim e stored).2).1
                = StorageAdapter.getDistractingSites stored).
Proof.
  cbn zeta. unfold Background.removeSite. cbn [fst snd].
  set (sites := StorageAdapter.getDistractingSites stored).
  assert (Hin : forall x l, x ∈ List.filter (fun s => negb (String.eqb s d)) l
                            <-> x ∈ l /\ x <> d).
  { intros x l. rewrite !list_elem_of_In, filter_In, negb_true_iff.
    by rewrite String.eqb_neq. }
  assert (Hid : forall l, d ∉ l -> List.filter (fun s => negb (String.eqb s d)) l = l).
  { induction l as [|y l IH]; intros Hd; [done|]. cbn.
    apply not_elem_of_cons in Hd as [Hy Hd].
    destruct (String.eqb_spec y d) as [->|_]; [done|]. cbn. by rewrite IH. }
  split; [done|]. split; [intros x; apply Hin|]. split; [|split].
  - intros Hnd. apply NoDup_ListNoDup. apply List.NoDup_filter. by apply NoDup_ListNoDup.
  - unfold StorageAdapter.getDistractingSites. simpl default.
    rewrite Hid; [done|]. rewrite Hin. by intros [_ ?].
  - intros e He Hd. unfold Background.addSite in *. fold sites in He |- *.
    destruct (negb _ && negb _); cbn [fst snd] in *.
    + apply app_inv_head in He as [= Hed]. rewrite Hed.
      unfold StorageAdapter.getDistractingSites. simpl default.
      rewrite List.filter_app, Hid by done. cbn. by rewrite String.eqb_refl, app_nil_r.
    + exfalso. apply (f_equal length) in He. rewrite length_app in He. cbn in He. lia.
Qed.
End SiteList.

(** The default list gains a normalised entry once; an entry is removed
    only under its stored spelling. *)
Lemma addSite_adds_once_witness :
  NoDup (Background.addSite (fun s => s) (fun s => s) "www.example.org" None).1.
Proof.
  refine (proj1 (addSite_adds_once (fun s => s) (fun s => s) "www.example.org" None) _).
  apply NoDup_ListNoDup. unfold StorageAdapter.getDistractingSites. simpl default.
  repeat constructor; cbn; intuition discriminate.
Defined.

Lemma removeSite_removes_exact_match_witness :
  (Background.removeSite "example.org"
     (Background.addSite (fun s => s) (fun s => s) "www.example.org" None).2).1
  = StorageAdapter.DEFAULT_SITES.
Proof.
  refine (proj2 (proj2 (proj2 (proj2
            (removeSite_removes_exact_match (fun s => s) (fun s => s) "example.org" None))))
            "www.example.org" _ _).
  - reflexivity.
  - intros H. apply list_elem_of_In in H. cbn in H. intuition discriminate.
Defined.

(** ** Pattern aggregation *)

Lemma ensureArrayLength_length (arr : list InsightsEngine.Entry) (len : nat) :
  length (InsightsEngine._ensureArrayLength arr len) = len.
Proof.
  unfold InsightsEngine._ensureArrayLength.
  rewrite length_fmap, length_take, length_app, length_replicate.
  apply Nat.min_l. lia.
Qed.

Lemma ensureArrayLength_lookup (arr : option (list InsightsEngine.Entry)) (len i : nat) :
  (i < len)%nat ->
  InsightsEngine._ensureArrayLength (default [] arr) len !! i = Some (Some (entryAt arr i)).
Proof.
  intros Hi. unfold InsightsEngine._ensureArrayLength, entryAt, InsightsEngine.Entry in *.
  rewrite list_lookup_fmap, lookup_take_lt by done.
  destruct arr as [l|]; simpl default.
  - destruct (l !! i) as [x|] eqn:El.
    + rewrite (lookup_app_l_Some _ _ _ _ El). by destruct x.
    + apply lookup_ge_None in El. rewrite lookup_app_r by done.
      assert (Hlt : (i - length l < len - length l)%nat) by lia.
      rewrite (lookup_replicate_2 _ _ _ Hlt). done.
  - cbn [app length].
    assert (Hlt : (i < len - 0)%nat) by lia.
    rewrite (lookup_replicate_2 _ _ _ Hlt). done.
Qed.

Lemma addAt_length idx v (l : list InsightsEngine.Entry) :
  length (InsightsEngine.addAt idx v l) = length l.
Proof. unfold InsightsEngine.addAt. destruct (idx <? 0); [done|]. apply length_alter. Qed.

Lemma addAt_lookup idx v (l : list InsightsEngine.Entry) (i : nat) (x : Z) :
  0 <= idx -> l !! i = Some (Some x) ->
  InsightsEngine.addAt idx v l !! i = Some (Some (x + atIndex idx v i)).
Proof.
  intros Hidx Hl. unfold InsightsEngine.addAt, atIndex, InsightsEngine.Entry in *.
  destruct (Z.ltb_spec idx 0) as [?|_]; [lia|].
  case_bool_decide as Hd.
  - assert (Z.to_nat idx = i) as -> by lia.
    rewrite list_lookup_alter_eq, Hl. done.
  - rewrite list_lookup_alter_ne by lia. rewrite Hl. do 2 f_equal. lia.
Qed.

Lemma recorded_lookup arr len idx v i :
  0 <= idx -> (i < len)%nat ->
  InsightsEngine.addAt idx v (InsightsEngine._ensureArrayLength (default [] arr) len) !! i
  = Some (Some (entryAt arr i + atIndex idx v i)).
Proof.
  intros Hidx Hi. apply addAt_lookup; [done|]. by apply ensureArrayLength_lookup.
Qed.

(** X29: [recordPattern] writes nothing for a session whose start time
    is not positive.  Otherwise the local hour lies in 0..23 and the
    weekday in 0..6, every array written has its exact length (24, 7, 24,
    24, 24), and every entry is a number: the stored entry (0 where it was
    missing or not a number) plus, at the session's hour (weekday),
    respectively the focus minutes, the focus minutes, the distraction
    minutes, 1, and the score clamped to 0..100. *)
Theorem recordPattern_normalises_and_adds (h : Host) (session : SessionObject) (score : Z)
    (stored : option InsightsEngine.Patterns) :
  (startTime session <= 0 -> InsightsEngine.recordPattern h session score stored = None)
  /\ (0 < startTime session ->
      let hour := JsDate.getHours (utcOffsetMinutes h) (startTime session) in
      let day := JsDate.getDay (utcOffsetMinutes h) (startTime session) in
      let old := InsightsEngine.getPatterns stored in
      let focusMins := InsightsEngine._safeMins (s_duration session) in
      let distractMins := InsightsEngine._safeMins (distractionSeconds session) in
      let safeScore := Z.max 0 (Z.min 100 score) in
      0 <= hour < 24 /\ 0 <= day < 7 /\ 0 <= focusMins /\ 0 <= distractMins /\
      exists a1 a2 a3 a4 a5,
        InsightsEngine.recordPattern h session score stored
        = Some (InsightsEngine.mkPatterns (Some a1) (Some a2) (Some a3) (Some a4) (Some a5))
        /\ length a1 = 24%nat /\ length a2 = 7%nat /\ length a3 = 24%nat
        /\ length a4 = 24%nat /\ length a5 = 24%nat
        /\ (forall i, (i < 24)%nat ->
              a1 !! i = Some (Some (entryAt (InsightsEngine.focusMinutesByHour old) i
                                    + atIndex hour focusMins i))
              /\ a3 !! i = Some (Some (entryAt (InsightsEngine.distractionByHour old) i
                                       + atIndex hour distractMins i))
              /\ a4 !! i = Some (Some (entryAt (InsightsEngine.sessionsByHour old) i
                                       + atIndex hour 1 i))
              /\ a5 !! i = Some (Some (entryAt (InsightsEngine.scoresByHour old) i
                                       + atIndex hour safeScore i)))
        /\ (forall i, (i < 7)%nat ->
              a2 !! i = Some (Some (entryAt (InsightsEngine.focusMinutesByDay old) i
                                    + atIndex day focusMins i)))).
Proof.
  split.
  - intros Hts. unfold InsightsEngine.recordPattern, InsightsEngine._isValidTimestamp.
    destruct (Z.ltb_spec 0 (startTime session)); [lia|done].
  - intros Hts. cbn zeta.
    assert (Hh : 0 <= JsDate.getHours (utcOffsetMinutes h) (startTime session) < 24).
    { unfold JsDate.getHours, JsDate.TimeWithinDay, JsDate.msPerDay.
      Z.div_mod_to_equations. lia. }
    assert (Hd : 0 <= JsDate.getDay (utcOffsetMinutes h) (startTime session) < 7).
    { unfold JsDate.getDay, JsDate.WeekDay. Z.div_mod_to_equations. lia. }
    assert (Hm : forall x, 0 <= InsightsEngine._safeMins x).
    { intros x. unfold InsightsEngine._safeMins, ScoringEngine.Math_round_div.
      destruct (Z.leb_spec x 0); [lia|]. Z.div_mod_to_equations. lia. }
    split; [exact Hh|]. split; [exact Hd|]. split; [apply Hm|]. split; [apply Hm|].
    unfold InsightsEngine.recordPattern, InsightsEngine.getLocalHour,
      InsightsEngine.getWeekdayIndex, InsightsEngine._isValidTimestamp.
    destruct (Z.ltb_spec 0 (startTime session)) as [_|?]; [|lia]. cbn [negb].
    cbv zeta. rewrite Math_round_div_1.
    do 5 eexists. split; [reflexivity|].
    rewrite !addAt_length, !ensureArrayLength_length.
    do 5 (split; [reflexivity|]).
    split; intros i Hi; rewrite !recorded_lookup by (done || lia); done.
Qed.

(** A 25-minute session with three distracted minutes, started on a
    Tuesday at 22:13 UTC, recorded on an empty profile. *)
Lemma recordPattern_normalises_and_adds_witness :
  0 <= JsDate.getHours (JsDate.fixed 0) t0 < 24.
Proof.
  refine (proj1 (proj2 (recordPattern_normalises_and_adds (hostAt t0)
            (SessionManager.createSession (hostAt t0) 1500) 80 None) _)).
  vm_compute. reflexivity.
Defined.

(** ** Reflection prompt *)

(** X30: skipping the reflection of a session clears the pending prompt
    when, and only when, the prompt belongs to that session, and touches
    nothing else; the prompt [complete] leaves behind is cleared by
    skipping the session it finalised. *)
Theorem skip_clears_own_prompt {Env} (sid : string) (h : Host) (w : World Env) :
  let w' := (ReflectionSystem.skip sid w).2 in
  (ReflectionSystem.pendingFor sid (stateOf w) = false -> w' = w)
  /\ (ReflectionSystem.pendingFor sid (stateOf w) = true ->
      stateOf w'
      = mkState (status (stateOf w)) (duration (stateOf w)) (remaining (stateOf w))
          (startedAt (stateOf w)) (pausedAt (stateOf w)) (elapsedBeforePause (stateOf w))
          (currentSession (stateOf w)) None
      /\ alarms w' = alarms w /\ historyOf w' = historyOf w /\ bus w' = bus w)
  /\ pendingReflection
       (stateOf (ReflectionSystem.skip (id (sessionToFinalise h (stateOf w)))
                   (TimerEngine.complete h w).2).2) = None.
Proof.
  assert (Hs : forall (sid0 : string) (w0 : World Env),
            ReflectionSystem.pendingFor sid0 (stateOf w0) = true ->
            (ReflectionSystem.skip sid0 w0).2
            = mkWorld (mkStorage
                         (Some (mkState (status (stateOf w0)) (duration (stateOf w0))
                                  (remaining (stateOf w0)) (startedAt (stateOf w0))
                                  (pausedAt (stateOf w0)) (elapsedBeforePause (stateOf w0))
                                  (currentSession (stateOf w0)) None))
                         (STATS (storage w0)) (SESSIONS (storage w0)) (WEEKLY (storage w0)))
                (alarms w0) (badge w0) (bus w0) (tracker w0)).
  { intros sid0 w0 Hp. unfold ReflectionSystem.skip. run. by rewrite Hp. }
  cbn zeta. split; [|split].
  - intros Hp. unfold ReflectionSystem.skip. run. by rewrite Hp.
  - intros Hp. by rewrite (Hs sid w Hp).
  - rewrite Hs; [done|]. rewrite complete_state.
    unfold ReflectionSystem.pendingFor, stateAfterComplete. cbn.
    apply String.eqb_refl.
Qed.

(** A prompt for the five-minute session is cleared by skipping it. *)
Lemma skip_clears_own_prompt_witness :
  pendingReflection
    (stateOf (ReflectionSystem.skip "loyw3v28a1b2"
                (TimerEngine.complete (hostAt (t0 + 300000)) fiveMinuteSession).2).2)
  = None.
Proof.
  destruct (skip_clears_own_prompt "loyw3v28a1b2" (hostAt (t0 + 300000))
              (TimerEngine.complete (hostAt (t0 + 300000)) fiveMinuteSession).2)
    as (_ & H & _).
  destruct H as [E _]; [vm_compute; reflexivity|].
  rewrite E. reflexivity.
Defined.

(** * The asynchronous machine *)

Section MachineFacts.
Context {Env : Type}.
Implicit Types (w : World Env) (h : Host).

Lemma settles_cons h w (p : Pending Env) q w' :
  settles h (mkSys w (p :: q)) w' <-> settles h (serve h (mkSys w (p :: q))) w'.
Proof.
  split; [|apply settles_serve].
  intros H. by inversion H.
Qed.

Lemma settles_nil h w w' : settles h (mkSys w []) w' <-> w' = w.
Proof.
  split; [|intros ->; apply settles_idle].
  intros H. by inversion H.
Qed.

Lemma settles_det h (s : Sys Env) w1 w2 : settles h s w1 -> settles h s w2 -> w1 = w2.
Proof.
  intros H1. revert w2. induction H1 as [w|w p q w' _ IH]; intros w2 H2.
  - by apply settles_nil in H2.
  - apply IH. by apply settles_cons in H2.
Qed.

Lemma Prefix_ret {A} h (a : A) : Prefix (Env:=Env) h (mret a) (mret a).
Proof. intros k w w''. reflexivity. Qed.

Lemma Prefix_bind {A B} h (c : Async Env A) (f : M Env A)
    (g : A -> Async Env B) (f' : A -> M Env B) :
  Prefix h c f -> (forall a, Prefix h (g a) (f' a)) -> Prefix h (c ≫= g) (f ≫= f').
Proof.
  intros Hc Hg k w w''. unfold mbind at 1, Async_bind.
  rewrite (Hc (fun a => g a k) w w''). rewrite (Hg (f w).1 k (f w).2 w'').
  unfold mbind, M_bind. by destruct (f w) as [a w1].
Qed.

Lemma Prefix_await {R} h (m : M Env R) : Prefix h (await m) m.
Proof.
  intros k w w''. unfold await. cbn [advance app]. rewrite settles_cons.
  unfold serve. cbn [pending world]. by destruct (m w).
Qed.

Lemma Prefix_sync {R} h (m : Host -> M Env R) : Prefix h (sync m) (m h).
Proof. intros k w w''. unfold sync. cbn [advance]. by destruct (m h w). Qed.

Lemma Prefix_clock_bind {R B} h (f : Host -> R) (g : R -> Async Env B) (F : M Env B) :
  Prefix h (g (f h)) F -> Prefix h (clock f ≫= g) F.
Proof. intros H k w w''. apply (H k w w''). Qed.

Lemma Prefix_ext {A} h (c : Async Env A) (f f' : M Env A) :
  (forall w, f w = f' w) -> Prefix h c f -> Prefix h c f'.
Proof. intros E H k w w''. rewrite <- E. apply H. Qed.
End MachineFacts.

Create HintDb prefix discriminated.

(** Proves [Prefix h c f] for a call [c] and a step [f] written with the
    same statements, one with its awaits and one without. *)
Ltac prefix_step :=
  first
    [ progress cbv zeta
    | match goal with
      | |- Prefix _ (mbind _ (clock _)) _ => apply Prefix_clock_bind
      | |- Prefix _ (mret _) _ => apply Prefix_ret
      | |- Prefix _ (await _) _ => apply Prefix_await
      | |- Prefix ?h (sync ?m) _ => exact (Prefix_sync h m)
      end
    | solve [eauto 2 with prefix]
    | match goal with
      | |- Prefix _ (mbind _ _) _ => apply Prefix_bind; [ | intros ? ]
      | |- Prefix _ (if ?c then _ else _) _ => destruct c
      | |- Prefix _ (match ?x with _ => _ end) _ => destruct x
      end ].
Ltac prefix := repeat prefix_step.

Section WiredFacts.
Context {Env : Type}.
Implicit Types (w : World Env) (h : Host).

Lemma getState_prefix h : Prefix (Env:=Env) h Wired.getState StorageAdapter.getState.
Proof. apply Prefix_await. Qed.

Lemma setState_prefix h next :
  Prefix (Env:=Env) h (Wired.setState next) (StorageAdapter.setState next).
Proof. apply Prefix_await. Qed.

#[local] Hint Resolve getState_prefix setState_prefix : prefix.

Lemma patchState_prefix h patch :
  Prefix (Env:=Env) h (Wired.patchState patch) (StorageAdapter.patchState patch).
Proof. unfold Wired.patchState, StorageAdapter.patchState. prefix. Qed.

#[local] Hint Resolve patchState_prefix : prefix.

Lemma appendSession_prefix h session :
  Prefix (Env:=Env) h (Wired.appendSession session) (StorageAdapter.appendSession session).
Proof.
  unfold Wired.appendSession, StorageAdapter.appendSession, Wired.getSessions. prefix.
Qed.

Lemma getWeeklyData_prefix h :
  Prefix (Env:=Env) h Wired.getWeeklyData (StorageAdapter.getWeeklyData h).
Proof. unfold Wired.getWeeklyData, StorageAdapter.getWeeklyData. prefix. Qed.

Lemma getDailyStats_prefix h :
  Prefix (Env:=Env) h Wired.getDailyStats (SessionManager.getDailyStats h).
Proof.
  unfold Wired.getDailyStats, SessionManager.getDailyStats, Wired.setStats. prefix.
Qed.

#[local] Hint Resolve appendSession_prefix getWeeklyData_prefix getDailyStats_prefix : prefix.

Lemma updateDailyStats_prefix h session score :
  Prefix (Env:=Env) h (Wired._updateDailyStats session score)
         (SessionManager._updateDailyStats h session score).
Proof.
  unfold Wired._updateDailyStats, SessionManager._updateDailyStats, Wired.setStats. prefix.
Qed.

Lemma updateWeeklyData_prefix h session score ql :
  Prefix (Env:=Env) h (Wired._updateWeeklyData session score ql)
         (SessionManager._updateWeeklyData h session score ql).
Proof.
  unfold Wired._updateWeeklyData, SessionManager._updateWeeklyData. prefix.
Qed.

Lemma leaveDistraction_prefix h :
  Prefix (Env:=Env) h Wired._leaveDistraction (DistractionTracking._leaveDistraction h).
Proof.
  unfold Wired._leaveDistraction, DistractionTracking._leaveDistraction. prefix.
Qed.

Lemma emit_prefix h hookName payload :
  String.eqb hookName EventBus.HOOKS.SESSION_END = false ->
  Prefix (Env:=Env) h (Wired.emit hookName payload) (emit hookName payload).
Proof.
  intros Hne. unfold Wired.emit. rewrite Hne.
  intros k w w''. unfold mbind, Async_bind, mret, Async_ret, sync. cbn [advance].
  by destruct (emit hookName payload w).
Qed.

#[local] Hint Resolve updateDailyStats_prefix updateWeeklyData_prefix leaveDistraction_prefix : prefix.
#[local] Hint Extern 1 (Prefix _ (Wired.emit _ _) _) => apply emit_prefix; reflexivity : prefix.

Lemma enterDistraction_prefix h tabId url :
  Prefix (Env:=Env) h (Wired.enterDistraction tabId url)
         (DistractionTracking.enterDistraction h tabId url).
Proof.
  unfold Wired.enterDistraction, DistractionTracking.enterDistraction. prefix.
Qed.

Lemma start_prefix h d : Prefix (Env:=Env) h (Wired.start d) (TimerEngine.start h d).
Proof. unfold Wired.start, TimerEngine.start. prefix. Qed.

Lemma pause_prefix h : Prefix (Env:=Env) h Wired.pause (TimerEngine.pause h).
Proof. unfold Wired.pause, TimerEngine.pause. prefix. Qed.

Lemma resume_prefix h : Prefix (Env:=Env) h Wired.resume (TimerEngine.resume h).
Proof. unfold Wired.resume, TimerEngine.resume. prefix. Qed.

Lemma reset_prefix h : Prefix (Env:=Env) h Wired.reset TimerEngine.reset.
Proof. unfold Wired.reset, TimerEngine.reset. prefix. Qed.
End WiredFacts.

(** ** Completion and the session-end subscriber *)

Lemma getState_run {Env} (w : World Env) : StorageAdapter.getState w = (stateOf w, w).
Proof. reflexivity. Qed.

Lemma mret_run {Env A} (a : A) (w : World Env) : (mret a : M Env A) w = (a, w).
Proof. reflexivity. Qed.

Lemma clearAlarms_run {Env} (w : World Env) :
  TimerEngine._clearAlarms w
  = (tt, mkWorld (storage w) (cancelled (alarms w)) (badge w) (bus w) (tracker w)).
Proof. unfold TimerEngine._clearAlarms, cancelled. by run. Qed.

(** Answers the oldest awaited call of the machine in the goal and runs
    what waited for it. *)
Ltac srv :=
  rewrite settles_cons; unfold serve at 1; cbn [world pending];
  try rewrite getState_run;
  unfold StorageAdapter.setState, modify_storage, TimerEngine.updateBadge, modify_badge;
  cbn [advance app world pending storage alarms badge bus tracker STATE STATS SESSIONS WEEKLY];
  repeat (rewrite emit_run; cbn [advance app world pending String.eqb Ascii.eqb Bool.eqb
     EventBus.HOOKS.FOCUS_MODE_DISABLED EventBus.HOOKS.SESSION_END]).

Section Completion.
Context {Env : Type}.
Implicit Types (w : World Env) (h : Host).

(** A dispatch of the session-end hook calls the subscriber without
    awaiting it. *)
Lemma emit_end_forks h payload (K : Z -> Task Env) w w'' :
  settles h (advance h (Wired.emit EventBus.HOOKS.SESSION_END payload K) w []) w''
  <-> settles h (advance h (Fork (Wired._leaveDistraction (fun _ => Done))
                              (K (emit EventBus.HOOKS.SESSION_END payload w).1))
                   (emit EventBus.HOOKS.SESSION_END payload w).2 []) w''.
Proof.
  unfold Wired.emit. cbn [String.eqb Ascii.eqb Bool.eqb EventBus.HOOKS.SESSION_END].
  unfold mbind, Async_bind, mret, Async_ret, sync, fork. cbn [advance].
  by destruct (emit EventBus.HOOKS.SESSION_END payload w).
Qed.

Lemma completeSession_forks h s d (K : SessionObject -> Task Env) w w'' :
  settles h (advance h (Wired.completeSession s d K) w []) w''
  <-> settles h (advance h (Fork (Wired._leaveDistraction (fun _ => Done))
                              (K (SessionManager.completeSession h s d w).1))
                   (SessionManager.completeSession h s d w).2 []) w''.
Proof.
  unfold Wired.completeSession. cbv zeta.
  unfold mbind at 1 2 3 4 5 6, Async_bind, mret, Async_ret, clock, sync.
  cbn [advance]. unfold mret at 1, M_ret.
  rewrite (appendSession_prefix h _ _ w w''). cbv beta.
  rewrite (updateDailyStats_prefix h _ _ _ _ w''). cbv beta.
  rewrite (updateWeeklyData_prefix h _ _ _ _ _ w''). cbv beta.
  rewrite (emit_prefix h EventBus.HOOKS.SCORE_CALCULATED _ eq_refl _ _ w''). cbv beta.
  rewrite emit_end_forks. cbn [advance].
  unfold SessionManager.completeSession. cbv zeta. unfold mbind, M_bind.
  destruct (StorageAdapter.appendSession _ w) as [x1 w1]. cbn [fst snd].
  destruct (SessionManager._updateDailyStats h _ _ w1) as [x2 w2]. cbn [fst snd].
  destruct (SessionManager._updateWeeklyData h _ _ _ w2) as [x3 w3]. cbn [fst snd].
  destruct (emit EventBus.HOOKS.SCORE_CALCULATED _ w3) as [x4 w4]. cbn [fst snd].
  destruct (emit EventBus.HOOKS.SESSION_END _ w4) as [x5 w5]. cbn [fst snd].
  reflexivity.
Qed.

(** With no interval open the subscriber returns at once. *)
Lemma flush_quiet h w (q : list (Pending Env)) :
  _distractionStart (tracker w) = None ->
  advance h (Wired._leaveDistraction (fun _ => Done)) w q = mkSys w q.
Proof.
  intros Hc. unfold Wired._leaveDistraction, mbind, Async_bind, sync, read.
  cbn [advance]. by rewrite Hc.
Qed.

Lemma advance_sync {R} h (m : Host -> M Env R) (k : R -> Task Env) w q :
  advance h (Sync m k) w q = advance h (k (m h w).1) (m h w).2 q.
Proof. cbn [advance]. by destruct (m h w). Qed.

(** With no interval open, [complete] reaches what its atomic step does. *)
Lemma complete_quiet h (K : FocusState * SessionObject -> Task Env) w w'' :
  _distractionStart (tracker w) = None ->
  settles h (advance h (Wired.complete K) w []) w''
  <-> settles h (advance h (K (TimerEngine.complete h w).1) (TimerEngine.complete h w).2 [])
        w''.
Proof.
  intros Hc. unfold Wired.complete. cbv zeta.
  unfold mbind at 1 2 3 4 5 6 7, Async_bind, mret, Async_ret, clock, sync.
  rewrite advance_sync.
  assert (Ht1 : tracker (TimerEngine._clearAlarms w).2 = tracker w).
  { unfold TimerEngine._clearAlarms. by run. }
  rewrite (getState_prefix h _ _ w''). cbv beta. rewrite advance_sync.
  unfold mret at 1 2, M_ret. cbn [fst snd].
  rewrite completeSession_forks. cbn [advance].
  rewrite flush_quiet.
  2:{ match goal with |- context [SessionManager.completeSession h ?s ?d ?w0] =>
        destruct (completeSession_run h s d w0) as (ds & wk & b & ->) end.
      cbn [snd tracker]. unfold StorageAdapter.getState, read. cbn [snd].
      by rewrite Ht1. }
  cbn [world pending].
  rewrite (patchState_prefix h _ _ _ w''). cbv beta. rewrite advance_sync.
  rewrite (emit_prefix h EventBus.HOOKS.FOCUS_MODE_DISABLED _ eq_refl _ _ w''). cbv beta.
  unfold TimerEngine.complete. cbv zeta. unfold mbind, M_bind.
  destruct (TimerEngine._clearAlarms w) as [[] w1]. cbn [fst snd].
  unfold StorageAdapter.getState, read. cbn [fst snd].
  destruct (SessionManager.completeSession h _ _ w1) as [c w2]. cbn [fst snd].
  destruct (StorageAdapter.patchState _ w2) as [ns w3]. cbn [fst snd].
  destruct (TimerEngine.updateBadge idle 0 w3) as [[] w4]. cbn [fst snd].
  destruct (emit EventBus.HOOKS.FOCUS_MODE_DISABLED EventBus.PEmpty w4) as [n w5].
  reflexivity.
Qed.

(** With an interval open, the subscriber's read of the timer state is
    answered before the patch of [complete], and its write after it. *)
Lemma rest_with_flush h (P : StatePatch) w t :
  _distractionStart (tracker w) = Some t ->
  let w3 := (emit EventBus.HOOKS.FOCUS_MODE_DISABLED EventBus.PEmpty
               (TimerEngine.updateBadge idle 0 (StorageAdapter.patchState P w).2).2).2 in
  settles h
    (advance h
       (Fork (Wired._leaveDistraction (fun _ => Done))
          (Wired.patchState P
             (fun _ => Sync (fun _ => TimerEngine.updateBadge idle 0)
                (fun _ => Wired.emit EventBus.HOOKS.FOCUS_MODE_DISABLED EventBus.PEmpty
                            (fun _ => Done)))))
       w [])
    (mkWorld
       (match currentSession (stateOf w) with
        | Some s =>
            mkStorage
              (Some (withSession
                       (SessionManager.addDistractionTime s
                          (ScoringEngine.Math_round_div (now h - t) 1000))
                       (stateOf w)))
              (STATS (storage w3)) (SESSIONS (storage w3)) (WEEKLY (storage w3))
        | None => storage w3
        end)
       (alarms w3) (badge w3) (bus w3) (mkTracker None None)).
Proof.
  intros Ht. cbv zeta.
  unfold Wired._leaveDistraction, Wired.patchState, Wired.getState, Wired.setState, Wired.emit.
  unfold mbind, Async_bind, mret, Async_ret, clock, sync, await.
  cbn [advance]. unfold read, mret, M_ret, modify_tracker. rewrite Ht.
  cbn [advance world pending app].
  rewrite settles_cons. unfold serve at 1. cbn [world pending]. rewrite getState_run.
  unfold stateOf at 1. cbn [storage]. fold (stateOf w).
  destruct (currentSession (stateOf w)) as [s|] eqn:Hs; cbn [advance app].
  - srv. srv. srv. srv. 
    apply settles_nil. run. unfold withSession, StorageAdapter.spread. cbn.
    reflexivity.
  - srv. srv. apply settles_nil. run. reflexivity.
Qed.

Lemma completeSession_keeps h s d w :
  STATE (storage (SessionManager.completeSession h s d w).2) = STATE (storage w)
  /\ tracker (SessionManager.completeSession h s d w).2 = tracker w.
Proof. by destruct (completeSession_run h s d w) as (ds & wk & b & ->). Qed.

Lemma settles_eq h (s : Sys Env) w w' : settles h s w -> w = w' -> settles h s w'.
Proof. by intros H <-. Qed.

Lemma complete_settles h w :
  settles h (advance h (Wired.complete (fun _ => Done)) w []) (settled h Complete w).
Proof.
  destruct (_distractionStart (tracker w)) as [t|] eqn:Ht.
  2:{ apply complete_quiet; [done|]. cbn [advance]. apply settles_nil.
      unfold settled. by rewrite Ht. }
  unfold settled, writtenBack, perform, TimerEngine.complete. rewrite Ht.
  cbn [finalises stateRead]. cbv zeta.
  unfold Wired.complete. cbv zeta.
  unfold mbind at 1 2 3 4 5 6 7, Async_bind, mret, Async_ret, clock, sync.
  rewrite advance_sync.
  rewrite (getState_prefix h _ _ _). cbv beta. rewrite advance_sync.
  unfold mret at 1 2, M_ret. cbn [fst snd].
  rewrite completeSession_forks.
  unfold mbind, M_bind.
  assert (Hst : stateOf (TimerEngine._clearAlarms w).2 = stateOf w)
    by (by rewrite clearAlarms_run).
  assert (Htr : tracker (TimerEngine._clearAlarms w).2 = tracker w)
    by (by rewrite clearAlarms_run).
  destruct (TimerEngine._clearAlarms w) as [[] wc]. cbn [fst snd] in *.
  rewrite !getState_run. cbn [fst snd]. rewrite Hst.
  match goal with |- context [SessionManager.completeSession h ?s ?d wc] =>
    destruct (completeSession_keeps h s d wc) as [HS HT];
    destruct (SessionManager.completeSession h s d wc) as [c w2]
  end.
  cbn [fst snd] in *.
  eapply settles_eq.
  { apply (rest_with_flush h _ w2 t). by rewrite HT, Htr. }
  cbv zeta.
  assert (Hst2 : stateOf w2 = stateOf w) by (unfold stateOf in *; by rewrite HS).
  rewrite Hst2.
  destruct (StorageAdapter.patchState _ w2) as [ns w3]. cbn [fst snd].
  destruct (TimerEngine.updateBadge idle 0 w3) as [[] w4]. cbn [fst snd].
  destruct (emit EventBus.HOOKS.FOCUS_MODE_DISABLED EventBus.PEmpty w4) as [n w5].
  reflexivity.
Qed.

Lemma tick_settles h w :
  settles h (advance h (Wired.tick (fun _ => Done)) w []) (settled h Tick w).
Proof.
  unfold Wired.tick.
  unfold mbind at 1, Async_bind.
  rewrite (getState_prefix h _ _ _). cbv beta. rewrite getState_run. cbn [fst snd].
  destruct (decide (status (stateOf w) = running)) as [Hs|Hs].
  - rewrite (bool_decide_eq_true_2 _ Hs). cbn [negb].
    unfold mbind, Async_bind, clock, sync.
    rewrite advance_sync. rewrite !mret_run. cbn [fst snd].
    fold (TimerEngine.elapsedAt (now h) (stateOf w)).
    fold (TimerEngine.remainingAt (now h) (stateOf w)).
    set (r := TimerEngine.remainingAt (now h) (stateOf w)).
    rewrite (patchState_prefix h _ _ _). cbv beta. rewrite advance_sync.
    rewrite (emit_prefix h EventBus.HOOKS.TICK _ eq_refl _ _). cbv beta.
    pose proof (tick_run h w Hs) as Ht. cbv zeta in Ht. fold r in Ht.
    match type of Ht with _ = if _ then _ else (_, ?x) =>
      match goal with |- settles _ (advance _ _ ?w1' _) _ =>
        replace w1' with x by (run; rewrite emit_run; reflexivity)
      end;
      set (w1 := x) in *
    end.
    unfold settled, perform. cbn [finalises stateRead]. fold r.
    rewrite (bool_decide_eq_true_2 _ Hs). cbn [andb]. rewrite Ht.
    destruct (r <=? 0) eqn:Hr.
    + unfold mret, Async_ret.
      eapply settles_eq; [apply (complete_settles h w1)|].
      unfold settled, perform. cbn [finalises stateRead]. reflexivity.
    + unfold mret, Async_ret. cbn [advance snd]. apply settles_nil.
      by destruct (_distractionStart (tracker w)).
  - rewrite (bool_decide_eq_false_2 _ Hs). cbn [negb].
    unfold mret, Async_ret. cbn [advance]. apply settles_nil.
    unfold settled, perform. cbn [finalises]. rewrite (tick_skip h w Hs).
    rewrite (bool_decide_eq_false_2 _ Hs). cbn [andb snd].
    by destruct (_distractionStart (tracker w)).
Qed.

Lemma recover_settles h w :
  settles h (advance h (Wired.recover (fun _ => Done)) w []) (settled h Recover w).
Proof.
  unfold Wired.recover.
  unfold mbind at 1, Async_bind.
  rewrite (getState_prefix h _ _ _). cbv beta. rewrite getState_run. cbn [fst snd].
  destruct (decide (status (stateOf w) = running)) as [Hs|Hs].
  - rewrite (bool_decide_eq_true_2 _ Hs). cbn [negb].
    unfold mbind, Async_bind, clock, sync.
    rewrite advance_sync. rewrite !mret_run. cbn [fst snd].
    fold (TimerEngine.elapsedAt (now h) (stateOf w)).
    fold (TimerEngine.remainingAt (now h) (stateOf w)).
    set (r := TimerEngine.remainingAt (now h) (stateOf w)).
    unfold settled, perform. cbn [finalises stateRead]. fold r.
    rewrite (bool_decide_eq_true_2 _ Hs). cbn [andb].
    destruct (Z.leb_spec r 0) as [Hr|Hr].
    + unfold mret, Async_ret.
      eapply settles_eq; [apply (complete_settles h w)|].
      unfold settled, perform. cbn [finalises stateRead].
      by rewrite (recover_expired h w Hs Hr).
    + rewrite (patchState_prefix h _ _ _). cbv beta. rewrite !advance_sync.
      unfold mret, Async_ret. cbn [advance]. apply settles_nil.
      rewrite (recover_run h w Hs Hr). cbn [snd].
      destruct (_distractionStart (tracker w)); run; reflexivity.
  - rewrite (bool_decide_eq_false_2 _ Hs). cbn [negb].
    unfold mret, Async_ret. cbn [advance]. apply settles_nil.
    unfold settled, perform. cbn [finalises]. rewrite (recover_skip h w Hs).
    rewrite (bool_decide_eq_false_2 _ Hs). cbn [andb snd].
    by destruct (_distractionStart (tracker w)).
Qed.

Lemma settled_not_finalising h op w :
  finalises h op (stateOf w) = false -> settled h op w = perform h op w.
Proof. unfold settled. intros ->. by destruct (_distractionStart (tracker w)). Qed.

Lemma settled_quiet h op w :
  _distractionStart (tracker w) = None -> settled h op w = perform h op w.
Proof. unfold settled. by intros ->. Qed.

Lemma Prefix_settles {A} h (c : Async Env A) (f : M Env A) w :
  Prefix h c f -> settles h (advance h (c (fun _ => Done)) w []) (f w).2.
Proof. intros H. apply H. cbn [advance]. apply settles_idle. Qed.

(** Every operation called with nothing else in flight settles. *)
Lemma call_settles h op w :
  settles h (advance h (call op) w []) (settled h op w).
Proof.
  destruct op as [d| | | | | | |tabId url|]; cbn [call];
    try (rewrite settled_not_finalising by done; cbn [perform]).
  - apply Prefix_settles, start_prefix.
  - apply Prefix_settles, pause_prefix.
  - apply Prefix_settles, resume_prefix.
  - apply (Prefix_settles h Wired.reset (TimerEngine.reset)), reset_prefix.
  - apply tick_settles.
  - apply complete_settles.
  - apply recover_settles.
  - apply Prefix_settles, enterDistraction_prefix.
  - apply Prefix_settles, leaveDistraction_prefix.
Qed.
End Completion.

(** ** Stale wake-ups *)

Lemma completion_alarm_settles {Env} (h : Host) (w : World Env) :
  settles h (arrive h (EvAlarm TimerEngine.ALARMS.COMPLETE) w) (settled h Complete w).
Proof. apply (complete_settles h w). Qed.

Lemma tick_alarm_settles {Env} (h : Host) (w : World Env) :
  settles h (arrive h (EvAlarm TimerEngine.ALARMS.TICK) w) (settled h Tick w).
Proof. apply (tick_settles h w). Qed.

(** C1 (what the code does): delivered while the timer is not running, the
    tick wake-up changes nothing at all: its listener settles in the world
    it started from.  The completion wake-up is not guarded by the status.
    Delivered to an idle or paused timer its listener runs [complete] and
    settles: the current session (a blank one created on the spot when
    there is none) is finalised and appended to the history and both
    wake-ups are cancelled.  The timer state it leaves is the idle state
    with the reflection pending, unless a distraction interval is open and
    the state holds a session: then the session-end subscriber writes back
    the state it read, the interval's seconds added to the session, and the
    timer state ends as it was before the wake-up. *)
Theorem stale_wakeups {Env} (h : Host) (w : World Env) :
  status (stateOf w) <> running ->
  let finalised :=
    SessionManager.completedRecord h (sessionToFinalise h (stateOf w))
      (duration (stateOf w)) in
  let w' := settled h Complete w in
  settles h (arrive h (EvAlarm TimerEngine.ALARMS.TICK) w) w
  /\ settles h (arrive h (EvAlarm TimerEngine.ALARMS.COMPLETE) w) w'
  /\ historyOf w' = appended (historyOf w) finalised
  /\ alarms w' = cancelled (alarms w)
  /\ stateOf w'
     = match _distractionStart (tracker w), currentSession (stateOf w) with
       | Some t, Some s =>
           withSession
             (SessionManager.addDistractionTime s
                (ScoringEngine.Math_round_div (now h - t) 1000))
             (stateOf w)
       | _, _ => stateAfterComplete h (stateOf w)
       end.
Proof.
  intros Hs. cbv zeta. split; [|split].
  - eapply settles_eq; [apply tick_alarm_settles|].
    rewrite settled_not_finalising.
    + cbn [perform]. by rewrite (tick_skip h w Hs).
    + cbn [finalises]. by rewrite (bool_decide_eq_false_2 _ Hs).
  - apply completion_alarm_settles.
  - unfold settled, writtenBack, perform. cbn [finalises stateRead].
    destruct (complete_run h w) as (ds & wk & b & ->). cbn [snd].
    destruct (_distractionStart (tracker w)) as [t|];
      [destruct (currentSession (stateOf w)) as [s|]|]; done.
Qed.

(** The tick wake-up and the completion wake-up of a 5-minute session both
    fall due five minutes after its start.  The tick finds no time left and
    completes the session; the completion wake-up, delivered to the timer
    that is idle by then, appends a second history entry, a session made up
    on the spot and scored 100, and leaves its reflection pending. *)
Lemma stale_wakeups_witness :
  let h := hostAt (t0 + 300000) in
  let w1 := settled h Tick fiveMinuteSession in
  let w2 := settled h Complete w1 in
  status (stateOf w1) = idle
  /\ length (historyOf w1) = 1%nat
  /\ settles h (arrive h (EvAlarm TimerEngine.ALARMS.COMPLETE) w1) w2
  /\ length (historyOf w2) = 2%nat
  /\ pendingReflection (stateOf w2)
     = Some (mkReflection "loywaajka1b2" (Some 100) (Some "Deep Work") 300).
Proof.
  pose proof (stale_wakeups (hostAt (t0 + 300000))
              (settled (hostAt (t0 + 300000)) Tick fiveMinuteSession)) as H.
  split; [vm_compute; reflexivity|].
  split; [vm_compute; reflexivity|].
  split; [apply H; vm_compute; discriminate|].
  split; vm_compute; reflexivity.
Defined.

(** A session paused while a distracting tab is open: the completion
    wake-up appends a history entry and cancels the wake-ups, and the
    timer state ends paused as before, 70 seconds of distraction added. *)
Lemma completion_wakeup_on_paused_distraction :
  let h := hostAt (t0 + 130000) in
  let w := (TimerEngine.pause (hostAt (t0 + 120000)) distractedSession).2 in
  let w' := settled h Complete w in
  status (stateOf w) = paused
  /\ _distractionStart (tracker w) = Some (t0 + 60000)
  /\ settles h (arrive h (EvAlarm TimerEngine.ALARMS.COMPLETE) w) w'
  /\ status (stateOf w') = paused
  /\ (distractionSeconds <$> currentSession (stateOf w')) = Some 70
  /\ length (historyOf w') = 1%nat
  /\ alarms w' = ∅.
Proof.
  cbv zeta. split; [vm_compute; reflexivity|]. split; [vm_compute; reflexivity|].
  split; [apply completion_alarm_settles|].
  repeat split; vm_compute; reflexivity.
Qed.

(** ** An idle timer holds no session *)

(** C9 (what the code does): an idle timer holds no current session in the
    default state, and every operation (start, pause, resume, reset, tick,
    complete, recover, entering and leaving a distraction) whose call is
    made with nothing else in flight settles in a world where this still
    holds, if it held before.  It does not hold of every state the
    extension reaches, because the listeners interleave at their awaits:
    when, one minute into a session, a reset message arrives and a tab
    activation arrives before the first awaited call is answered, [reset]
    stores the idle state between the activation's check of the session
    and its write, and the activation writes the session, one tab switch
    counted, into the idle state. *)
Theorem idle_keeps_session_when_reset_interleaves {Env} :
  idleHasNoSession StorageAdapter.defaultState
  /\ (forall (h : Host) (op : Operation) (w : World Env),
        settles h (advance h (call op) w []) (settled h op w)
        /\ (idleHasNoSession (stateOf w) -> idleHasNoSession (stateOf (settled h op w))))
  /\ (let h := hostAt (t0 + 60000) in
      let tab := Background.mkTab (Some "https://example.org/") None in
      let s := exec ([Arrive h (EvMessage Background.MsgReset);
                      Arrive h (EvActivated (Some tab) ["youtube.com"] 7)]
                     ++ replicate 11 (Serve h))
                    (mkSys fiveMinuteSession []) in
      idleHasNoSession (stateOf fiveMinuteSession)
      /\ pending s = []
      /\ status (stateOf (world s)) = idle
      /\ (tabSwitchCount <$> currentSession (stateOf (world s))) = Some 1).
Proof.
  split; [done|]. split.
  - intros h op w. split; [apply call_settles|].
    intros Hinv. unfold settled.
    destruct (_distractionStart (tracker w)) as [t|]; [|by apply perform_preserves].
    destruct (finalises h op (stateOf w)); [|by apply perform_preserves].
    pose proof (perform_preserves h op w Hinv) as Hp.
    unfold writtenBack, idleHasNoSession in *.
    assert (Hc : currentSession (stateRead h op (stateOf w)) = currentSession (stateOf w))
      by (by destruct op).
    assert (Hst : status (stateRead h op (stateOf w)) = status (stateOf w))
      by (by destruct op).
    destruct (currentSession (stateRead h op (stateOf w))) as [s|] eqn:E.
    + cbn. rewrite Hst. intros Hi. rewrite (Hinv Hi) in Hc. discriminate.
    + exact Hp.
  - cbv zeta. split; [intros E; vm_compute in E; discriminate|].
    repeat split; vm_compute; reflexivity.
Qed.

(** A reset on its own, one minute into the 5-minute session. *)
Lemma idle_keeps_session_when_reset_interleaves_witness :
  settles (hostAt (t0 + 60000)) (advance (hostAt (t0 + 60000)) (call Reset) fiveMinuteSession [])
    (settled (hostAt (t0 + 60000)) Reset fiveMinuteSession)
  /\ currentSession (stateOf (settled (hostAt (t0 + 60000)) Reset fiveMinuteSession)) = None.
Proof.
  destruct (@idle_keeps_session_when_reset_interleaves unit) as (_ & H & _).
  destruct (H (hostAt (t0 + 60000)) Reset fiveMinuteSession) as [H1 H2].
  split; [exact H1|]. apply H2.
  - intros E. vm_compute in E. discriminate.
  - vm_compute. reflexivity.
Defined.

(** ** Operations that settle before the next event *)

Section Sequential.
Context {Env : Type}.
Implicit Types (w : World Env) (h : Host).

(** The atomic steps behind the statements below. *)
Lemma tick_twice_atomic h w :
  stateOf (perform h Tick (perform h Tick w)) = stateOf (perform h Tick w)
  /\ historyOf (perform h Tick (perform h Tick w)) = historyOf (perform h Tick w)
  /\ finalises h Tick (stateOf (perform h Tick w)) = false.
Proof.
  destruct (perform_effect h Tick w) as (E1 & _ & _).
  destruct (perform_effect h Tick (perform h Tick w)) as (E2 & _ & E3).
  rewrite E2, E3, E1.
  destruct (transition_tick_twice h (stateOf w) (_distractionStart (tracker w))
              (_distractionStart (tracker (perform h Tick w)))) as (-> & ->).
  done.
Qed.

Lemma interrupted_sticky_atomic h op w s s' :
  currentSession (stateOf w) = Some s ->
  interrupted s = true ->
  currentSession (stateOf (perform h op w)) = Some s' ->
  (exists d, op = Start d)
  \/ (interrupted s' = true /\ id s' = id s /\ startTime s' = startTime s).
Proof.
  intros Hc Hi. destruct (perform_effect h op w) as (-> & _).
  destruct op as [d| | | | | | |tabId url|]; cbn [transition].
  - left. by exists d.
  - destruct (bool_decide _); cbn; rewrite Hc; cbn; intros [= <-]; right; done.
  - destruct (bool_decide _); cbn; rewrite Hc; intros [= <-]; right; done.
  - discriminate.
  - destruct (bool_decide _); [destruct (Z.leb _ 0)|]; cbn; try discriminate;
      rewrite Hc; intros [= <-]; right; done.
  - discriminate.
  - destruct (bool_decide _); [destruct (Z.leb _ 0)|]; cbn; try discriminate;
      rewrite Hc; intros [= <-]; right; done.
  - rewrite Hc. cbn. intros [= <-]. right. done.
  - rewrite Hc. destruct (_distractionStart (tracker w)); cbn; rewrite ?Hc;
      intros [= <-]; right; done.
Qed.

Lemma alarmsMatch_atomic h op w : alarmsMatch w -> alarmsMatch (perform h op w).
Proof.
  unfold alarmsMatch. intros Hm.
  destruct (perform_effect h op w) as (-> & -> & _).
  pose proof (fun d => scheduled_lookup d (alarms w)) as Hsch.
  pose proof (cancelled_lookup (alarms w)) as Hcan.
  destruct op as [d| | | | | | |tabId url|]; cbn [transition alarmsAfter].
  - apply Hsch.
  - destruct (decide (status (stateOf w) = running)) as [Hrun|Hrun].
    + rewrite !(bool_decide_eq_true_2 _ Hrun). cbn. exact Hcan.
    + rewrite (bool_decide_eq_false_2 _ Hrun) in *. cbv iota.
      by rewrite (bool_decide_eq_false_2 _ Hrun).
  - destruct (decide (status (stateOf w) = paused)) as [Hpa|Hpa].
    + rewrite !(bool_decide_eq_true_2 _ Hpa). cbn. apply Hsch.
    + rewrite (bool_decide_eq_false_2 _ Hpa). exact Hm.
  - exact Hcan.
  - destruct (decide (status (stateOf w) = running)) as [Hrun|Hrun].
    + rewrite (bool_decide_eq_true_2 _ Hrun) in *. cbn [andb].
      destruct (Z.leb _ 0); cbn; [exact Hcan|].
      case_bool_decide as Hd; [exact Hm | by destruct (Hd Hrun)].
    + rewrite (bool_decide_eq_false_2 _ Hrun) in *. cbn [andb]. cbv iota.
      by rewrite (bool_decide_eq_false_2 _ Hrun).
  - exact Hcan.
  - destruct (decide (status (stateOf w) = running)) as [Hrun|Hrun].
    + rewrite (bool_decide_eq_true_2 _ Hrun) in *.
      destruct (Z.leb _ 0); cbn; [exact Hcan|].
      case_bool_decide as Hd; [apply Hsch | by destruct (Hd Hrun)].
    + rewrite (bool_decide_eq_false_2 _ Hrun) in *. cbn [andb]. cbv iota.
      by rewrite (bool_decide_eq_false_2 _ Hrun).
  - by destruct (currentSession (stateOf w)).
  - destruct (_distractionStart (tracker w)); [|done].
    by destruct (currentSession (stateOf w)).
Qed.
End Sequential.

(** X16: a second tick wake-up at the same instant changes neither the
    stored timer state (so neither the remaining time) nor the history,
    provided no distraction interval is open when the first tick finds the
    time used up: if the first tick completed the session the second
    finds the timer idle, and otherwise it recomputes the same remaining
    time.  With an interval open the first tick completes the session and
    the session-end subscriber stores the running state again, so the
    second tick completes it a second time: for the 5-minute session with
    a distracting tab entered one minute in, the history holds one entry
    after the first tick and two after the second. *)
Theorem tick_twice_same_instant {Env} (h : Host) (w : World Env) :
  let w1 := settled h Tick w in
  let w2 := settled h Tick w1 in
  settles h (arrive h (EvAlarm TimerEngine.ALARMS.TICK) w) w1
  /\ settles h (arrive h (EvAlarm TimerEngine.ALARMS.TICK) w1) w2
  /\ ((finalises h Tick (stateOf w) = true -> _distractionStart (tracker w) = None) ->
      stateOf w2 = stateOf w1
      /\ remaining (stateOf w2) = remaining (stateOf w1)
      /\ historyOf w2 = historyOf w1)
  /\ (let h5 := hostAt (t0 + 300000) in
      let d := (DistractionTracking.enterDistraction (hostAt (t0 + 60000)) 7
                  "https://www.youtube.com/watch" fiveMinuteSession).2 in
      status (stateOf (settled h5 Tick d)) = running
      /\ length (historyOf (settled h5 Tick d)) = 1%nat
      /\ status (stateOf (settled h5 Tick (settled h5 Tick d))) = idle
      /\ length (historyOf (settled h5 Tick (settled h5 Tick d))) = 2%nat).
Proof.
  cbv zeta. split; [apply tick_alarm_settles|]. split; [apply tick_alarm_settles|].
  split; [|repeat split; vm_compute; reflexivity].
  intros Hq.
  assert (E1 : settled h Tick w = perform h Tick w).
  { destruct (finalises h Tick (stateOf w)) eqn:Hf.
    - by apply settled_quiet, Hq.
    - by apply settled_not_finalising. }
  destruct (tick_twice_atomic h w) as (Hs & Hh & Hf).
  rewrite E1, (settled_not_finalising h Tick _ Hf). by rewrite Hs, Hh.
Qed.

(** The 5-minute session with no distraction, ticked twice at its end. *)
Lemma tick_twice_same_instant_witness :
  let h5 := hostAt (t0 + 300000) in
  historyOf (settled h5 Tick (settled h5 Tick fiveMinuteSession))
  = historyOf (settled h5 Tick fiveMinuteSession)
  /\ length (historyOf (settled h5 Tick fiveMinuteSession)) = 1%nat.
Proof.
  cbv zeta. split; [|vm_compute; reflexivity].
  apply (tick_twice_same_instant (hostAt (t0 + 300000)) fiveMinuteSession).
  intros _. vm_compute. reflexivity.
Defined.

(** X19: interruption is sticky for operations that settle before the next
    event.  Once the current session is marked interrupted, an operation
    whose call is made with nothing else in flight does not unmark it: in
    the world where it settles the current session, if there is one, is
    either a new session created by [start] or the same session (same id
    and start time), still interrupted.  A pause that lands inside a tab
    activation is not kept: with the activation delivered first and the
    pause message before any answer, the sixth answer stores the paused
    state with the session marked, the seventh is the activation's write
    of the copy it read before, and the timer ends running with the mark
    gone. *)
Theorem interrupted_is_sticky {Env} (h : Host) (op : Operation) (w : World Env) :
  settles h (advance h (call op) w []) (settled h op w)
  /\ (forall s s' : SessionObject,
        currentSession (stateOf w) = Some s ->
        interrupted s = true ->
        currentSession (stateOf (settled h op w)) = Some s' ->
        (exists d, op = Start d)
        \/ (interrupted s' = true /\ id s' = id s /\ startTime s' = startTime s))
  /\ (let h1 := hostAt (t0 + 60000) in
      let tab := Background.mkTab (Some "https://example.org/") None in
      let after n :=
        world (exec ([Arrive h1 (EvActivated (Some tab) ["youtube.com"] 7);
                      Arrive h1 (EvMessage Background.MsgPause)]
                     ++ replicate n (Serve h1))
                    (mkSys fiveMinuteSession [])) in
      (interrupted <$> currentSession (stateOf (after 6%nat))) = Some true
      /\ (interrupted <$> currentSession (stateOf (after 7%nat))) = Some false
      /\ (interrupted <$> currentSession (stateOf (after 11%nat))) = Some false
      /\ status (stateOf (after 11%nat)) = running).
Proof.
  split; [apply call_settles|]. split; [|repeat split; vm_compute; reflexivity].
  intros s s' Hc Hi. unfold settled.
  destruct (_distractionStart (tracker w)) as [t|];
    [|by apply interrupted_sticky_atomic].
  destruct (finalises h op (stateOf w)); [|by apply interrupted_sticky_atomic].
  unfold writtenBack.
  assert (Hr : currentSession (stateRead h op (stateOf w)) = Some s)
    by (by destruct op).
  rewrite Hr. cbn. intros [= <-]. right. done.
Qed.

(** The paused session, resumed: still interrupted. *)
Lemma interrupted_is_sticky_witness :
  (interrupted <$> currentSession
     (stateOf (settled (hostAt (t0 + 180000)) Resume pausedSession))) = Some true.
Proof.
  destruct (currentSession (stateOf (settled (hostAt (t0 + 180000)) Resume pausedSession)))
    as [s'|] eqn:E; [|vm_compute in E; discriminate].
  destruct (interrupted_is_sticky (hostAt (t0 + 180000)) Resume pausedSession) as (_ & H & _).
  destruct (H (SessionManager.markInterrupted
                 (SessionManager.createSession (hostAt t0) 1500)) s')
    as [[d Hd] | (Hi & _)]; [vm_compute; reflexivity | reflexivity | exact E | discriminate |].
  cbn. by rewrite Hi.
Defined.

(** X21: wake-ups are scheduled exactly while the timer runs, across every
    operation that settles before the next event and does not finalise a
    session while a distraction interval is open: if, before it, both
    wake-ups exist when the timer is running and neither exists when it is
    not, the same holds in the world where it settles.  When [complete]
    runs with an interval open it cancels the wake-ups and the session-end
    subscriber stores the running state again: the 25-minute session with
    a distracting tab open ends running with no wake-up at all. *)
Theorem alarms_follow_status {Env} (h : Host) (op : Operation) (w : World Env) :
  settles h (advance h (call op) w []) (settled h op w)
  /\ (alarmsMatch w ->
      (finalises h op (stateOf w) = true -> _distractionStart (tracker w) = None) ->
      alarmsMatch (settled h op w))
  /\ (let h5 := hostAt (t0 + 300000) in
      alarmsMatch distractedSession
      /\ status (stateOf (settled h5 Complete distractedSession)) = running
      /\ alarms (settled h5 Complete distractedSession) = ∅
      /\ ~ alarmsMatch (settled h5 Complete distractedSession)).
Proof.
  split; [apply call_settles|]. split.
  - intros Hm Hq.
    assert (E1 : settled h op w = perform h op w).
    { destruct (finalises h op (stateOf w)) eqn:Hf.
      - by apply settled_quiet, Hq.
      - by apply settled_not_finalising. }
    rewrite E1. by apply alarmsMatch_atomic.
  - cbv zeta. split; [|split; [|split]].
    + vm_compute. split; eexists; reflexivity.
    + vm_compute. reflexivity.
    + vm_compute. reflexivity.
    + intros H. vm_compute in H. destruct H as [[x Hx] _]. discriminate.
Qed.

(** A fresh profile has no wake-up; after [start] it has both. *)
Lemma alarms_follow_status_witness :
  is_Some (alarms (settled (hostAt t0) (Start 1500) freshWorld)
             !! TimerEngine.ALARMS.COMPLETE)
  /\ is_Some (alarms (settled (hostAt t0) (Start 1500) freshWorld)
                !! TimerEngine.ALARMS.TICK).
Proof.
  destruct (alarms_follow_status (hostAt t0) (Start 1500) freshWorld) as (_ & H & _).
  unfold alarmsMatch in H.
  change (bool_decide (status (stateOf freshWorld) = running)) with false in H.
  change (bool_decide (status (stateOf (settled (hostAt t0) (Start 1500) freshWorld))
                       = running)) with true in H.
  apply H; [split; reflexivity | discriminate].
Defined.
